(** * ftx.py: the signed REST client, the paginated trade fetcher and the
      grid-trading loops, embedded in Rocq.

    Conventions of the embedding.
    - Python [float]s are IEEE binary64 numbers: the kernel's primitive
      [float] with its own arithmetic and comparisons.
    - Python exceptions are values of [exn]; code that can raise returns a
      [result].
    - [dict]s parsed from JSON are [gmap]s keyed by strings; [bytes] are
      lists of [Byte.byte]; [str] is [string].
    - Library calls the script only uses (HMAC-SHA256, [urllib.parse.quote],
      [requests]' [prepare] and [send], [ciso8601.parse_datetime], the
      builtin [float]) are section variables. *)

From Stdlib Require Import ZArith List String Floats Lia Bool.
From stdpp Require Import gmap strings list pretty.
Import ListNotations.

Set Warnings "-register-all,-inexact-float".
Local Open Scope string_scope.

(** ** Python values and exceptions *)

Module Py.

(** What [json.loads] produces. *)
Inductive json : Type :=
| JNull
| JBool (b : bool)
| JInt (n : Z)
| JFloat (f : float)
| JStr (s : string)
| JList (l : list json)
| JObj (m : gmap string json).

(** The exceptions the program can meet.  [Exception] is the base class
    itself, as raised by [raise Exception(x)]; every other constructor is
    one of its subclasses. *)
Inductive exn : Type :=
| Exception (arg : json)
| ValueError
| HTTPError (status_code : Z) (text : string)
| ConnectionError
| KeyError (key : string)
| IndexError
| TypeError
| AttributeError (attr : string)
| NameError (name : string).

(** [type(e) is Exception]: the failure carries no class of its own. *)
Definition is_generic (e : exn) : bool :=
  match e with
  | Exception _ => true
  | _ => false
  end.

(** [str(e)] for the exceptions built from a JSON string. *)
Definition message (e : exn) : option string :=
  match e with
  | Exception (JStr s) => Some s
  | _ => None
  end.

Inductive result (A : Type) : Type :=
| Ok (a : A)
| Raise (e : exn).
Arguments Ok {A} a.
Arguments Raise {A} e.

Definition bind {A B} (r : result A) (k : A -> result B) : result B :=
  match r with
  | Ok a => k a
  | Raise e => Raise e
  end.

(** Truth value of an object, as tested by [if x] and [not x]. *)
Definition truthy (v : json) : bool :=
  match v with
  | JNull => false
  | JBool b => b
  | JInt n => negb (n =? 0)%Z
  | JFloat f => negb (PrimFloat.eqb f 0)
  | JStr s => negb (String.eqb s "")
  | JList l => negb (Nat.eqb (length l) 0)
  | JObj m => negb (Nat.eqb (size m) 0)
  end.

(** [d[k]] with a string key: [KeyError] on a dict without the key,
    [TypeError] on anything that is not a dict. *)
Definition getitem (d : json) (k : string) : result json :=
  match d with
  | JObj m =>
      match m !! k with
      | Some v => Ok v
      | None => Raise (KeyError k)
      end
  | _ => Raise TypeError
  end.

End Py.
Import Py.

Declare Scope py_scope.
Delimit Scope py_scope with py.
Notation "x <- c ;; k" := (Py.bind c (fun x => k))
  (at level 100, c at next level, right associativity) : py_scope.
Notation "c ;;; k" := (Py.bind c (fun _ => k))
  (at level 100, right associativity) : py_scope.

(** ** The signed request client: [class FtxClient] *)

Module Client.

(** [encode]: [str.encode()]; a [string] already is its byte sequence. *)
Definition encode (s : string) : list Byte.byte := list_byte_of_string s.

Definition _ENDPOINT : string := "https://ftx.com/api/".

(** The fields [__init__] stores (the [requests] session apart). *)
Record FtxClient : Type := {
  _api_key : string;
  _api_secret : string;
  _subaccount_name : option string
}.

(** [requests.Request(method, url, params=.., json=..)]; [headers] starts
    empty as the script never passes any. *)
Record Request : Type := {
  r_method : string;
  r_url : string;
  r_params : option json;
  r_json : option json;
  headers : gmap string string
}.

(** [request.prepare()]: what [_sign_request] reads of it, and the
    headers it goes out with (the request's and those [prepare] adds). *)
Record PreparedRequest : Type := {
  method : string;
  path_url : string;
  body : option (list Byte.byte);
  prepared_headers : gmap string string
}.

(** What [_process_response] reads of a [requests.Response]; [json_body]
    is [None] when [response.json()] raises [ValueError]. *)
Record Response : Type := {
  status_code : Z;
  text : string;
  json_body : option json
}.

Definition Request_new (m url : string) (params js : option json) : Request :=
  {| r_method := m; r_url := url; r_params := params; r_json := js;
     headers := ∅ |}.

Definition set_header (k v : string) (r : Request) : Request :=
  {| r_method := r_method r; r_url := r_url r; r_params := r_params r;
     r_json := r_json r; headers := <[k := v]> (headers r) |}.

(** [response.json()] *)
Definition Response_json (response : Response) : result json :=
  match json_body response with
  | Some data => Ok data
  | None => Raise ValueError
  end.

(** [response.raise_for_status()]: an [HTTPError] holding the response
    for 4xx and 5xx, nothing otherwise. *)
Definition raise_for_status (response : Response) : result unit :=
  if ((400 <=? status_code response) && (status_code response <? 600))%Z
  then Raise (HTTPError (status_code response) (text response))
  else Ok tt.

Definition _process_response (response : Response) : result json :=
  match Response_json response with
  | Raise ValueError =>
      (raise_for_status response ;;; Raise ValueError)%py
  | Raise e => Raise e
  | Ok data =>
      (success <- getitem data "success" ;;
       if negb (truthy success)
       then (error <- getitem data "error" ;; Raise (Exception error))
       else getitem data "result")%py
  end.

Section Signing.

(** [hmac.new(key, msg, 'sha256').hexdigest()] *)
Variable hmac_sha256_hexdigest : list Byte.byte -> list Byte.byte -> string.
(** [urllib.parse.quote] *)
Variable quote : string -> string.
(** [Request.prepare] *)
Variable prepare : Request -> PreparedRequest.
(** [Session.send] *)
Variable send : PreparedRequest -> result Response.

(** The byte string that is signed; [ts] is [int(time.time() * 1000)]. *)
Definition signature_payload (ts : Z) (prepared : PreparedRequest)
  : list Byte.byte :=
  let payload :=
    encode (pretty ts +:+ method prepared +:+ path_url prepared) in
  match body prepared with
  | Some (b :: bs) => (payload ++ b :: bs)%list
  | _ => payload
  end.

Definition _sign_request (self : FtxClient) (ts : Z) (request : Request)
  : Request :=
  let prepared := prepare request in
  let payload := signature_payload ts prepared in
  let signature :=
    hmac_sha256_hexdigest (encode (_api_secret self)) payload in
  let request := set_header "FTX-KEY" (_api_key self) request in
  let request := set_header "FTX-SIGN" signature request in
  let request := set_header "FTX-TS" (pretty ts) request in
  match _subaccount_name self with
  | Some name =>
      if String.eqb name "" then request
      else set_header "FTX-SUBACCOUNT" (quote name) request
  | None => request
  end.

Definition _request (self : FtxClient) (ts : Z) (m path : string)
    (params js : option json) : result json :=
  let request := Request_new m (_ENDPOINT +:+ path) params js in
  let request := _sign_request self ts request in
  (response <- send (prepare request) ;; _process_response response)%py.

Definition _get self ts path params := _request self ts "GET" path params None.
Definition _post self ts path params := _request self ts "POST" path None params.
Definition _delete self ts path params := _request self ts "DELETE" path None params.

End Signing.

End Client.

(** ** The paginated trade fetcher: [FtxClient.get_all_trades] *)

Module Trades.

(** A trade as the endpoint lists it; the fetcher reads ['id'] and
    ['time'] only. *)
Record trade : Type := {
  trade_id : Z;
  trade_time : string;
  trade_price : float;
  trade_size : float
}.

(** The query of one [_get] call of the loop. *)
Record trades_request : Type := {
  rq_path : string;
  rq_end_time : option float;
  rq_start_time : option float
}.

Definition limit : nat := 100.

Section Fetch.

(** [ciso8601.parse_datetime], as an instant in microseconds. *)
Variable parse_datetime : string -> Z.
(** [datetime.timestamp] *)
Variable timestamp : Z -> float.
(** What the [n]-th [_get] of the call answers: a page or a failure. *)
Variable endpoint : nat -> result (list trade).

(** [min(parse_datetime(t['time']) for t in response)] on a page that
    has a first trade. *)
Definition min_datetime (t : trade) (ts : list trade) : Z :=
  fold_left (fun m u => Z.min m (parse_datetime (trade_time u))) ts
    (parse_datetime (trade_time t)).

(** [m] is the least parsed time among the trades of [page]. *)
Definition least_time (m : Z) (page : list trade) : Prop :=
  (exists u, u ∈ page /\ m = parse_datetime (trade_time u)) /\
  forall u, u ∈ page -> (m <= parse_datetime (trade_time u))%Z.

(** The [while True] loop.  [n] counts the requests already sent; the
    second component lists the requests this run sends, in order; the
    first is [None] when [fuel] iterations were not enough. *)
Fixpoint get_all_trades_loop (fuel n : nat) (market : string)
    (start_time : option float) (ids : gset Z) (results : list trade)
    (end_time : option float)
  : option (result (list trade)) * list trades_request :=
  match fuel with
  | O => (None, [])
  | S fuel' =>
      let rq := {| rq_path := "markets/" +:+ market +:+ "/trades";
                   rq_end_time := end_time;
                   rq_start_time := start_time |} in
      match endpoint n with
      | Raise e => (Some (Raise e), [rq])
      | Ok response =>
          let deduped_trades :=
            filter (fun r => trade_id r ∉ ids) response in
          let results := (results ++ deduped_trades)%list in
          let ids := ids ∪ list_to_set (trade_id <$> deduped_trades) in
          match response with
          | [] => (Some (Ok results), [rq])
          | t :: ts =>
              let end_time := Some (timestamp (min_datetime t ts)) in
              if (length response <? limit)%nat
              then (Some (Ok results), [rq])
              else
                let '(r, sent) :=
                  get_all_trades_loop fuel' (S n) market start_time ids
                    results end_time in
                (r, rq :: sent)
          end
      end
  end.

Definition get_all_trades (fuel : nat) (market : string)
    (start_time end_time : option float)
  : option (result (list trade)) * list trades_request :=
  get_all_trades_loop fuel 0 market start_time ∅ [] end_time.

End Fetch.

End Trades.

(** ** The grid-trading loops: [run_sell] and [run_buy] *)

Module Engine.

(** An open order as [get_open_orders] lists it; the loops read ['side']
    and ['price']. *)
Record order : Type := {
  o_side : string;
  o_price : float;
  o_size : float
}.

(** The order book of [get_prices]: [prices['bids'][0][0]] is the price
    of the first level. *)
Record orderbook : Type := {
  bids : list (float * float);
  asks : list (float * float)
}.

(** The body [place_order] posts ([clientId] is always [None]). *)
Record order_request : Type := {
  rq_market : string;
  rq_side : string;
  rq_price : float;
  rq_size : float;
  rq_type : string;
  rq_reduce_only : bool;
  rq_ioc : bool;
  rq_post_only : bool
}.

(** What a run does to the outside world, in order. *)
Inductive event : Type :=
| Sleep (secs : Z)
| GetPrices (coin : string)
| GetOpenOrders (coin : string)
| PlaceOrder (rq : order_request) (accepted : bool).

Definition get_max_order_price (orders : list order) (side : string) : float :=
  let sides := map o_side orders in
  let prices := map o_price orders in
  let p := combine sides prices in
  fold_left
    (fun max_order_price i =>
       if String.eqb (fst i) side && (max_order_price <? snd i)%float
       then snd i else max_order_price)
    p 0%float.

(** The script's start value is the integer [999999]; it is only compared
    with floats and multiplied by one, so it is its float here. *)
Definition get_min_order_price (orders : list order) (side : string) : float :=
  let sides := map o_side orders in
  let prices := map o_price orders in
  let p := combine sides prices in
  fold_left
    (fun min_order_price i =>
       if String.eqb (fst i) side && (snd i <? min_order_price)%float
       then snd i else min_order_price)
    p 999999%float.

Fixpoint get_orders_of_side (orders : list order) (side : string) : list order :=
  match orders with
  | [] => []
  | order :: rest =>
      if String.eqb (o_side order) side
      then order :: get_orders_of_side rest side
      else get_orders_of_side rest side
  end.

(** [levels[0][0]] *)
Definition first_price (levels : list (float * float)) : result float :=
  match levels with
  | (p, _) :: _ => Ok p
  | [] => Raise IndexError
  end.

(** The names bound by [class FtxClient] and by its [__init__]. *)
Definition FtxClient_attrs : list string :=
  [ "_ENDPOINT"; "__init__"; "_get"; "_post"; "_delete"; "_request";
    "_sign_request"; "_process_response"; "list_futures"; "list_markets";
    "get_orderbook"; "get_trades"; "get_account_info"; "get_open_orders";
    "get_order_history"; "get_conditional_order_history"; "modify_order";
    "get_conditional_orders"; "place_order"; "place_conditional_order";
    "cancel_order"; "cancel_orders"; "get_fills"; "get_balances";
    "get_deposit_address"; "get_positions"; "get_position";
    "get_all_trades"; "get_prices";
    "_session"; "_api_key"; "_api_secret"; "_subaccount_name" ].

(** How a computation of the loops ends: normally, with an exception, or
    cut short because the iteration budget is spent. *)
Inductive outcome (A : Type) : Type :=
| Done (a : A)
| Raised (e : exn)
| OutOfFuel.
Arguments Done {A} a.
Arguments Raised {A} e.
Arguments OutOfFuel {A}.

Record ran (X A : Type) : Type := Ran {
  outcome_of : outcome A;
  state_of : X;
  trace_of : list event
}.
Arguments Ran {X A} _ _ _.
Arguments outcome_of {X A} _.
Arguments state_of {X A} _.
Arguments trace_of {X A} _.

Section Exchange.

(** The exchange and the network behind the client [fc]: a state and,
    for each call the loops make, its answer and the next state. *)
Variable X : Type.
Variable elapse : Z -> X -> X.
Variable api_get_prices : string -> X -> result orderbook * X.
Variable api_get_open_orders : string -> X -> result (list order) * X.
Variable api_place_order : order_request -> X -> result unit * X.

Definition M (A : Type) : Type := X -> ran X A.

Definition ret {A} (a : A) : M A := fun x => Ran (Done a) x [].

Definition raise {A} (e : exn) : M A := fun x => Ran (Raised e) x [].

Definition out_of_fuel {A} : M A := fun x => Ran OutOfFuel x [].

Definition bind {A B} (c : M A) (k : A -> M B) : M B :=
  fun x =>
    let r := c x in
    match outcome_of r with
    | Done a =>
        let r' := k a (state_of r) in
        Ran (outcome_of r') (state_of r') (trace_of r ++ trace_of r')%list
    | Raised e => Ran (Raised e) (state_of r) (trace_of r)
    | OutOfFuel => Ran OutOfFuel (state_of r) (trace_of r)
    end.

Definition lift {A} (r : result A) : M A :=
  match r with
  | Ok a => ret a
  | Raise e => raise e
  end.

(** [try: c / except Exception: ...]: the exception becomes a value. *)
Definition attempt {A} (c : M A) : M (result A) :=
  fun x =>
    let r := c x in
    match outcome_of r with
    | Done a => Ran (Done (Ok a)) (state_of r) (trace_of r)
    | Raised e => Ran (Done (Raise e)) (state_of r) (trace_of r)
    | OutOfFuel => Ran OutOfFuel (state_of r) (trace_of r)
    end.

Definition sleep (secs : Z) : M unit :=
  fun x => Ran (Done tt) (elapse secs x) [Sleep secs].

Definition get_prices (coin : string) : M orderbook :=
  fun x =>
    let '(r, x') := api_get_prices coin x in
    Ran (match r with Ok v => Done v | Raise e => Raised e end) x'
      [GetPrices coin].

Definition get_open_orders (coin : string) : M (list order) :=
  fun x =>
    let '(r, x') := api_get_open_orders coin x in
    Ran (match r with Ok v => Done v | Raise e => Raised e end) x'
      [GetOpenOrders coin].

Definition place_order (rq : order_request) : M unit :=
  fun x =>
    let '(r, x') := api_place_order rq x in
    match r with
    | Ok _ => Ran (Done tt) x' [PlaceOrder rq true]
    | Raise e => Ran (Raised e) x' [PlaceOrder rq false]
    end.

Notation "x <- c ;; k" := (bind c (fun x => k))
  (at level 100, c at next level, right associativity).
Notation "c ;;; k" := (bind c (fun _ => k))
  (at level 100, right associativity).

(** [c] is one call of [place_order] with the body [h]: accepted, or
    rejected with an exception. *)
Definition posts (h : order_request) (c : M unit) : Prop :=
  forall x, exists x',
    c x = Ran (Done tt) x' [PlaceOrder h true] \/
    exists e, c x = Ran (Raised e) x' [PlaceOrder h false].

(** [fc.<attr>(market, side, price, size, type, reduce_only, ioc,
    post_only)]: the attribute is looked up on the client before the
    arguments are evaluated.  Of the client's attributes the script
    calls only [place_order] in this way. *)
Definition call_order_method (attr : string) (args : M order_request)
  : M unit :=
  if bool_decide (attr ∈ FtxClient_attrs)
  then if String.eqb attr "place_order"
       then (rq <- args ;; place_order rq)
       else raise TypeError
  else raise (AttributeError attr).

Definition limit_order (coin side : string) (price number : float)
  : order_request :=
  {| rq_market := coin; rq_side := side; rq_price := price;
     rq_size := number; rq_type := "limit"; rq_reduce_only := false;
     rq_ioc := false; rq_post_only := false |}.

(** The inner loop
    [while True: try: place / except Exception: time.sleep(1); continue / break]. *)
Fixpoint retry_until_placed (fuel : nat) (place : M unit) : M unit :=
  match fuel with
  | O => out_of_fuel
  | S fuel' =>
      r <- attempt place ;;
      match r with
      | Raise _ => sleep 1 ;;; retry_until_placed fuel' place
      | Ok _ => ret tt
      end
  end.

(** [run_sell], lines 233-261: what one iteration does once the reads
    of its first [try] have succeeded. *)
Definition run_sell_act (fuel : nat) (coin : string)
    (number rate uprate : float) (prices : orderbook)
    (open_orders buy_orders : list order) : M unit :=
  if (length buy_orders =? 0)%nat then
    r <- attempt
           (call_order_method "place_order"
              (p <- lift (first_price (bids prices)) ;;
               ret (limit_order coin "sell" p number))) ;;
    match r with
    | Raise _ => ret tt
    | Ok _ =>
        retry_until_placed fuel
          (call_order_method "place_order"
             (p <- lift (first_price (bids prices)) ;;
              ret (limit_order coin "buy" (p * (1 - rate))%float number)))
    end
  else if (5 <=? length buy_orders)%nat then ret tt
  else
    current_price <- lift (first_price (bids prices)) ;;
    let sign_price :=
      (get_max_order_price open_orders "buy" * (1 + uprate))%float in
    if (sign_price <? current_price)%float then
      r <- attempt
             (call_order_method "place_order"
                (ret (limit_order coin "sell" current_price number))) ;;
      match r with
      | Raise _ => ret tt
      | Ok _ =>
          retry_until_placed fuel
            (call_order_method "place_order"
               (ret (limit_order coin "buy"
                       (current_price * (1 - rate))%float number)))
      end
    else ret tt.

(** One iteration of [run_sell]'s [while True]. *)
Definition run_sell_body (fuel : nat) (coin : string)
    (number rate uprate : float) : M unit :=
  sleep 2 ;;;
  polled <- attempt
              (prices <- get_prices coin ;;
               open_orders <- get_open_orders coin ;;
               ret (prices, open_orders,
                    get_orders_of_side open_orders "buy")) ;;
  match polled with
  | Raise _ => ret tt
  | Ok (prices, open_orders, buy_orders) =>
      run_sell_act fuel coin number rate uprate prices open_orders
        buy_orders
  end.

(** [run_sell]: it never returns; [fuel] bounds the iterations of the
    outer loop and of each inner loop. *)
Fixpoint run_sell (fuel : nat) (coin : string) (number rate uprate : float)
  : M Empty_set :=
  match fuel with
  | O => out_of_fuel
  | S fuel' =>
      run_sell_body fuel' coin number rate uprate ;;;
      run_sell fuel' coin number rate uprate
  end.

(** [run_buy], lines 272-300. *)
Definition run_buy_act (fuel : nat) (coin : string)
    (number rate uprate : float) (prices : orderbook)
    (open_orders sell_orders : list order) : M unit :=
  if (length sell_orders =? 0)%nat then
    r <- attempt
           (call_order_method "palce_order"
              (p <- lift (first_price (asks prices)) ;;
               ret (limit_order coin "buy" p number))) ;;
    match r with
    | Raise _ => ret tt
    | Ok _ =>
        retry_until_placed fuel
          (call_order_method "place_order"
             (p <- lift (first_price (asks prices)) ;;
              ret (limit_order coin "sell" (p * (1 + rate))%float number)))
    end
  else if (5 <=? length sell_orders)%nat then ret tt
  else
    current_price <- lift (first_price (asks prices)) ;;
    let sign_price :=
      (get_min_order_price open_orders "sell" * (1 - uprate))%float in
    if (current_price <? sign_price)%float then
      r <- attempt
             (call_order_method "place_order"
                (ret (limit_order coin "buy" current_price number))) ;;
      match r with
      | Raise _ => ret tt
      | Ok _ =>
          retry_until_placed fuel
            (call_order_method "place_order"
               (ret (limit_order coin "sell"
                       (current_price * (1 + rate))%float number)))
      end
    else ret tt.

Definition run_buy_body (fuel : nat) (coin : string)
    (number rate uprate : float) : M unit :=
  sleep 2 ;;;
  polled <- attempt
              (prices <- get_prices coin ;;
               open_orders <- get_open_orders coin ;;
               ret (prices, open_orders,
                    get_orders_of_side open_orders "sell")) ;;
  match polled with
  | Raise _ => ret tt
  | Ok (prices, open_orders, sell_orders) =>
      run_buy_act fuel coin number rate uprate prices open_orders
        sell_orders
  end.

Fixpoint run_buy (fuel : nat) (coin : string) (number rate uprate : float)
  : M Empty_set :=
  match fuel with
  | O => out_of_fuel
  | S fuel' =>
      run_buy_body fuel' coin number rate uprate ;;;
      run_buy fuel' coin number rate uprate
  end.

End Exchange.

(** *** The shape of a run's trace

    A run is polling, or it has placed a rung and is inside the retry loop
    of its counter-order [h]: about to post it ([Hedge]) or sleeping after a
    rejection ([Backoff]). *)
Inductive phase : Type :=
| Poll
| Hedge (h : order_request)
| Backoff (h : order_request).

(** What each phase lets happen next.  [rung_side] is the side the mode
    places first and [hedge_of] the counter-order that goes with a rung. *)
Inductive step (rung_side : string)
    (hedge_of : order_request -> order_request)
  : phase -> event -> phase -> Prop :=
| step_sleep (secs : Z) :
    step rung_side hedge_of Poll (Sleep secs) Poll
| step_get_prices (coin : string) :
    step rung_side hedge_of Poll (GetPrices coin) Poll
| step_get_open_orders (coin : string) :
    step rung_side hedge_of Poll (GetOpenOrders coin) Poll
| step_rung_rejected (rq : order_request) :
    rq_side rq = rung_side ->
    step rung_side hedge_of Poll (PlaceOrder rq false) Poll
| step_rung_placed (rq : order_request) :
    rq_side rq = rung_side ->
    step rung_side hedge_of Poll (PlaceOrder rq true) (Hedge (hedge_of rq))
| step_hedge_rejected (h : order_request) :
    step rung_side hedge_of (Hedge h) (PlaceOrder h false) (Backoff h)
| step_backoff (h : order_request) :
    step rung_side hedge_of (Backoff h) (Sleep 1) (Hedge h)
| step_hedge_placed (h : order_request) :
    step rung_side hedge_of (Hedge h) (PlaceOrder h true) Poll.

Inductive steps (rung_side : string)
    (hedge_of : order_request -> order_request)
  : phase -> list event -> phase -> Prop :=
| steps_nil (ph : phase) : steps rung_side hedge_of ph [] ph
| steps_cons (ph ph' ph'' : phase) (e : event) (tr : list event) :
    step rung_side hedge_of ph e ph' ->
    steps rung_side hedge_of ph' tr ph'' ->
    steps rung_side hedge_of ph (e :: tr) ph''.

(** The counter-order of a sell rung: a buy of the same size at the rung
    price times [1 - rate]; of a buy rung: a sell at the price times
    [1 + rate]. *)
Definition sell_hedge (rate : float) (rq : order_request) : order_request :=
  {| rq_market := rq_market rq; rq_side := "buy";
     rq_price := (rq_price rq * (1 - rate))%float; rq_size := rq_size rq;
     rq_type := "limit"; rq_reduce_only := false; rq_ioc := false;
     rq_post_only := false |}.

Definition buy_hedge (rate : float) (rq : order_request) : order_request :=
  {| rq_market := rq_market rq; rq_side := "sell";
     rq_price := (rq_price rq * (1 + rate))%float; rq_size := rq_size rq;
     rq_type := "limit"; rq_reduce_only := false; rq_ioc := false;
     rq_post_only := false |}.

(** The placements of a trace. *)
Definition is_placement (e : event) : bool :=
  match e with
  | PlaceOrder _ _ => true
  | _ => false
  end.

End Engine.

(** ** The module level of the script: lines 1-301 in order *)

Module Script.

(** The statements executed when the file is run, as far as names go. *)
Inductive stmt : Type :=
| Import (binds : list string)
| ClassDef (name : string)
| AssignArgv (name : string) (index : nat)
| AssignFloatArgv (name : string) (index : nat)
| AssignCall (name callee : string) (args : list string)
| FunctionDef (name : string)
| ExprCall (callee : string) (args : list string).

Definition program : list stmt :=
  [ Import ["time"];
    Import ["urllib"];
    Import ["Optional"; "Dict"; "Any"; "List"];
    Import ["Request"; "Session"; "Response"];
    Import ["hmac"];
    Import ["parse_datetime"];
    Import ["sys"];
    ClassDef "FtxClient";
    AssignArgv "apiKey" 1;
    AssignArgv "secretKey" 2;
    AssignArgv "coin" 3;
    AssignFloatArgv "number" 4;
    AssignFloatArgv "rate" 5;
    AssignFloatArgv "uprate" 6;
    AssignCall "fc" "FtxClient" ["apiKey"; "secretKey"];
    FunctionDef "get_max_order_price";
    FunctionDef "get_min_order_price";
    FunctionDef "get_orders_of_side";
    FunctionDef "run_sell";
    FunctionDef "run_buy";
    ExprCall "run" ["coin"; "number"; "rate"; "uprate"] ].

(** Python's built-in functions and types, the names a lookup falls back
    on after the module's globals. *)
Definition builtins : list string :=
  [ "abs"; "aiter"; "all"; "anext"; "any"; "ascii"; "bin"; "bool";
    "breakpoint"; "bytearray"; "bytes"; "callable"; "chr"; "classmethod";
    "compile"; "complex"; "delattr"; "dict"; "dir"; "divmod"; "enumerate";
    "eval"; "exec"; "filter"; "float"; "format"; "frozenset"; "getattr";
    "globals"; "hasattr"; "hash"; "help"; "hex"; "id"; "input"; "int";
    "isinstance"; "issubclass"; "iter"; "len"; "list"; "locals"; "map";
    "max"; "memoryview"; "min"; "next"; "object"; "oct"; "open"; "ord";
    "pow"; "print"; "property"; "range"; "repr"; "reversed"; "round";
    "set"; "setattr"; "slice"; "sorted"; "staticmethod"; "str"; "sum";
    "super"; "tuple"; "type"; "vars"; "zip"; "__import__";
    "Exception"; "ValueError"; "KeyError"; "IndexError"; "TypeError";
    "AttributeError"; "NameError"; "True"; "False"; "None" ].

(** How running the file goes on after a statement: on to the next one,
    or into a function that never returns. *)
Inductive progress : Type :=
| Next (globals : list string)
| Entered (function : string).

Definition lookup_name (globals : list string) (name : string) : result unit :=
  if bool_decide (name ∈ globals) || bool_decide (name ∈ builtins)
  then Ok tt
  else Raise (NameError name).

Fixpoint lookup_names (globals : list string) (names : list string)
  : result unit :=
  match names with
  | [] => Ok tt
  | name :: rest =>
      (lookup_name globals name ;;; lookup_names globals rest)%py
  end.

Section Run.

(** The builtin [float] on a string: a number or [ValueError]. *)
Variable float_of_string : string -> result float.

Definition exec_stmt (argv : list string) (globals : list string)
    (s : stmt) : result progress :=
  match s with
  | Import binds => Ok (Next (binds ++ globals)%list)
  | ClassDef name => Ok (Next (name :: globals))
  | FunctionDef name => Ok (Next (name :: globals))
  | AssignArgv name index =>
      (lookup_name globals "sys" ;;;
       match argv !! index with
       | Some _ => Ok (Next (name :: globals))
       | None => Raise IndexError
       end)%py
  | AssignFloatArgv name index =>
      (lookup_name globals "float" ;;;
       lookup_name globals "sys" ;;;
       match argv !! index with
       | Some a => (float_of_string a ;;; Ok (Next (name :: globals)))
       | None => Raise IndexError
       end)%py
  | AssignCall name callee args =>
      (lookup_name globals callee ;;;
       lookup_names globals args ;;;
       Ok (Next (name :: globals)))%py
  | ExprCall callee args =>
      (lookup_name globals callee ;;;
       lookup_names globals args ;;;
       if String.eqb callee "run_sell" || String.eqb callee "run_buy"
       then Ok (Entered callee)
       else Ok (Next globals))%py
  end.

Fixpoint exec (argv : list string) (globals : list string)
    (prog : list stmt) : result progress :=
  match prog with
  | [] => Ok (Next globals)
  | s :: rest =>
      (p <- exec_stmt argv globals s ;;
       match p with
       | Next globals' => exec argv globals' rest
       | Entered f => Ok (Entered f)
       end)%py
  end.

(** [python ftx.py a1 ... an] with [argv = "ftx.py" :: a1 .. an]. *)
Definition main (argv : list string) : result progress :=
  exec argv [] program.

End Run.

End Script.

(** ** Exchanges used to run the loops on concrete inputs *)

Module Scenario.
Import Engine.

(** An exchange that always shows the same book and open orders and
    accepts every order, whatever its state. *)
Definition steady_prices {X : Type} (book : orderbook)
  : string -> X -> result orderbook * X :=
  fun _ x => (Ok book, x).
Definition steady_orders {X : Type} (orders : list order)
  : string -> X -> result (list order) * X :=
  fun _ x => (Ok orders, x).
Definition accept_all {X : Type} : order_request -> X -> result unit * X :=
  fun _ x => (Ok tt, x).
Definition no_clock {X : Type} : Z -> X -> X := fun _ x => x.

(** An exchange that counts the placement calls and rejects the ones its
    list marks [false] (calls beyond the list are accepted). *)
Definition scripted (answers : list bool)
  : order_request -> nat -> result unit * nat :=
  fun _ n =>
    (match answers !! n with
     | Some false => Raise ConnectionError
     | _ => Ok tt
     end, S n).

Definition buy_at (p : float) : order :=
  {| o_side := "buy"; o_price := p; o_size := 1 |}.
Definition sell_at (p : float) : order :=
  {| o_side := "sell"; o_price := p; o_size := 1 |}.
Definition book_at (bid ask : float) : orderbook :=
  {| bids := [(bid, 1%float)]; asks := [(ask, 1%float)] |}.

(** Trades and pages for the fetcher; times are written as decimal
    seconds, read by [seconds_of], a stand-in for the date parser. *)
Definition trade_no (i : Z) : Trades.trade :=
  {| Trades.trade_id := i; Trades.trade_time := pretty i;
     Trades.trade_price := 1; Trades.trade_size := 1 |}.

Definition seconds_of (s : string) : Z := Z.of_nat (String.length s).

Definition float_of_seconds (z : Z) : float :=
  PrimFloat.of_uint63 (Uint63.of_Z z).

(** A full page with the ids 1..100, then a short page that repeats 99
    and 100 and adds 101. *)
Definition two_pages (n : nat) : list Trades.trade :=
  match n with
  | O => trade_no <$> (Z.of_nat <$> seq 1 100)
  | _ => trade_no <$> [99; 100; 101]%Z
  end.

(** A page that lists the trade 1 twice. *)
Definition repeating_page : list Trades.trade := [trade_no 1; trade_no 1].

(** Five open sells and one buy; five open buys. *)
Definition five_sells_one_buy : list order :=
  [sell_at 300; sell_at 301; sell_at 302; sell_at 303; sell_at 304; buy_at 100].

Definition five_buys : list order :=
  [buy_at 100; buy_at 99; buy_at 98; buy_at 97; buy_at 96].

(** Responses of the three kinds [_process_response] tells apart. *)
Definition envelope_ok : Client.Response :=
  {| Client.status_code := 200; Client.text := "{...}";
     Client.json_body :=
       Some (JObj {[ "success" := JBool true;
                     "result" := JList [JInt 7; JStr "x"] ]}) |}.

Definition envelope_failed : Client.Response :=
  {| Client.status_code := 400; Client.text := "{...}";
     Client.json_body :=
       Some (JObj {[ "success" := JBool false;
                     "error" := JStr "Not enough balances" ]}) |}.

Definition not_json (status : Z) : Client.Response :=
  {| Client.status_code := status;
     Client.text := "<html>Bad Gateway</html>";
     Client.json_body := None |}.

End Scenario.

(** ** Order management calls: [modify_order], [place_conditional_order]
       and [get_position] *)

Module Orders.

(** A call that checks its arguments with [assert] first: it goes on, or
    stops with [AssertionError] and the message of the failed check (empty
    when the [assert] has none). *)
Inductive asserted (A : Type) : Type :=
| Passed (a : A)
| AssertionError (msg : string).
Arguments Passed {A} a.
Arguments AssertionError {A} msg.

(** [x is None] *)
Definition is_none {A : Type} (x : option A) : bool :=
  match x with
  | None => true
  | Some _ => false
  end.

(** [{k: v} if v is not None else {}] *)
Definition entry_if_given (k : string) (v : option json) : gmap string json :=
  match v with
  | Some x => {[ k := x ]}
  | None => ∅
  end.

(** [{**a, **b}]: the entries of [b] win. *)
Definition dict_merge (a b : gmap string json) : gmap string json := b ∪ a.

(** A Python value that is a float or [None], as JSON. *)
Definition float_or_null (v : option float) : json :=
  match v with
  | Some f => JFloat f
  | None => JNull
  end.

(** [s in (a, b, ...)] for strings. *)
Definition str_in (s : string) (l : list string) : bool :=
  existsb (String.eqb s) l.

(** [x['future'] == name] once [x['future']] is at hand. *)
Definition equals_str (v : json) (name : string) : bool :=
  match v with
  | JStr s => String.eqb s name
  | _ => false
  end.

Section Calls.

(** [self._post] *)
Variable _post : string -> json -> result json.
(** [self.get_positions], its result read as the list it is iterated as. *)
Variable get_positions : bool -> result (list json).

Definition modify_order (existing_order_id existing_client_order_id : option string)
    (price size : option float) (client_order_id : option string)
  : asserted (result json) :=
  if negb (xorb (is_none existing_order_id) (is_none existing_client_order_id))
  then AssertionError "Must supply exactly one ID for the order to modify"
  else if negb (is_none price || is_none size)
  then AssertionError "Must modify price or size of order"
  else
    let path :=
      match existing_order_id with
      | Some i => "orders/" +:+ i +:+ "/modify"
      | None =>
          "orders/by_client_id/"
            +:+ default "None" existing_client_order_id +:+ "/modify"
      end in
    Passed
      (_post path
         (JObj
            (dict_merge
               (dict_merge (entry_if_given "size" (JFloat <$> size))
                           (entry_if_given "price" (JFloat <$> price)))
               (entry_if_given "clientId" (JStr <$> client_order_id))))).

Definition place_conditional_order (market side : string) (size : float)
    (type : string) (limit_price : option float) (reduce_only cancel : bool)
    (trigger_price trail_value : option float)
  : asserted (result json) :=
  if negb (str_in type ["stop"; "take_profit"; "trailing_stop"])
  then AssertionError ""
  else if negb (negb (str_in type ["stop"; "take_profit"])
                || negb (is_none trigger_price))
  then AssertionError "Need trigger prices for stop losses and take profits"
  else if negb (negb (str_in type ["trailing_stop"])
                || (is_none trigger_price && negb (is_none trail_value)))
  then AssertionError
         "Trailing stops need a trail value and cannot take a trigger price"
  else
    Passed
      (_post "conditional_orders"
         (JObj {[ "market" := JStr market;
                  "side" := JStr side;
                  "triggerPrice" := float_or_null trigger_price;
                  "size" := JFloat size;
                  "reduceOnly" := JBool reduce_only;
                  "type" := JStr "stop";
                  "cancelLimitOnTrigger" := JBool cancel;
                  "orderPrice" := float_or_null limit_price ]})).

(** [next(filter(lambda x: x['future'] == name, positions), None)] *)
Fixpoint first_position (positions : list json) (name : string) : result json :=
  match positions with
  | [] => Ok JNull
  | x :: rest =>
      (future <- getitem x "future" ;;
       if equals_str future name then Ok x else first_position rest name)%py
  end.

Definition get_position (name : string) (show_avg_price : bool) : result json :=
  (positions <- get_positions show_avg_price ;; first_position positions name)%py.

End Calls.

End Orders.

(** ** More inputs to run the code on *)

Module Cases.
Import Engine.

(** Envelopes that are not well formed, or whose [success] is no boolean. *)
Definition response_of (data : json) : Client.Response :=
  {| Client.status_code := 200; Client.text := "..."; Client.json_body := Some data |}.

Definition position_of (future : string) (size : Z) : json :=
  JObj {[ "future" := JStr future; "size" := JInt size ]}.

(** An exchange whose price read fails, and one whose book has no level. *)
Definition failing_prices {X : Type} : string -> X -> result orderbook * X :=
  fun _ x => (Raise ConnectionError, x).

Definition failing_orders {X : Type} : string -> X -> result (list order) * X :=
  fun _ x => (Raise ConnectionError, x).

Definition reject_all {X : Type} : order_request -> X -> result unit * X :=
  fun _ x => (Raise ConnectionError, x).

Definition empty_book : orderbook := {| bids := []; asks := [] |}.

(** A stand-in for [_post] that answers the body it is given. *)
Definition echo_post : string -> json -> result json :=
  fun path body => Ok (JList [JStr path; body]).

(** An endpoint that answers the same full page to every request. *)
Definition stuck_endpoint : nat -> result (list Trades.trade) :=
  fun _ => Ok (Scenario.two_pages 0).

(** An endpoint that answers one full page and then fails. *)
Definition failing_endpoint : nat -> result (list Trades.trade) :=
  fun n => match n with
           | O => Ok (Scenario.two_pages 0)
           | _ => Raise ConnectionError
           end.

(** Open orders priced beyond the start values of the two price scans. *)
Definition order_at (side : string) (p : float) : order :=
  {| o_side := side; o_price := p; o_size := 1 |}.

Definition orders_mixed : list order :=
  [ order_at "sell" 105; order_at "buy" 99; order_at "sell" 103;
    order_at "buy" 101; order_at "sell" 104 ].

Definition orders_out_of_range : list order :=
  [ order_at "sell" 1000000; order_at "buy" (-1); order_at "sell" 2000000 ].

End Cases.

(** ** The loops with two of their parts named

    [hedge_state] follows the exchange through the retry loop of a
    counter-order.  [run_sell_act_with] and [run_buy_act_with] are
    [run_sell_act] and [run_buy_act] with the call that computes the
    anchor taken as a parameter, a computation of its own: the loops are
    their instances at the calls of [get_max_order_price] and
    [get_min_order_price].  [toy_prepare], [toy_send] and [toy_float]
    stand in for the libraries on the examples. *)

Module Variants.
Import Engine.

Section Exchange.

Variable X : Type.
Variable elapse : Z -> X -> X.
Variable api_place_order : order_request -> X -> result unit * X.

(** The state in which the retry loop of [h], entered in [x], makes its
    attempt number [k + 1] when the [k] attempts before it were rejected:
    after each of them comes [time.sleep(1)]. *)
Fixpoint hedge_state (h : order_request) (k : nat) (x : X) : X :=
  match k with
  | O => x
  | S k' => hedge_state h k' (elapse 1 (snd (api_place_order h x)))
  end.

(** [run_sell]'s iteration with the call of [get_max_order_price] taken
    out as a computation [anchor] of its own, which may answer anything,
    raise, or act on the exchange: an iteration that does the same for
    every [anchor] does not make the call. *)
Definition run_sell_act_with (anchor : list order -> string -> M X float)
    (fuel : nat) (coin : string) (number rate uprate : float)
    (prices : orderbook) (open_orders buy_orders : list order) : M X unit :=
  if (length buy_orders =? 0)%nat then
    bind X
      (attempt X
         (call_order_method X api_place_order "place_order"
            (bind X (lift X (first_price (bids prices)))
               (fun p => ret X (limit_order coin "sell" p number)))))
      (fun r =>
         match r with
         | Raise _ => ret X tt
         | Ok _ =>
             retry_until_placed X elapse fuel
               (call_order_method X api_place_order "place_order"
                  (bind X (lift X (first_price (bids prices)))
                     (fun p =>
                        ret X (limit_order coin "buy" (p * (1 - rate))%float
                                 number))))
         end)
  else if (5 <=? length buy_orders)%nat then ret X tt
  else
    bind X (lift X (first_price (bids prices)))
      (fun current_price =>
         bind X (anchor open_orders "buy")
           (fun max_order_price =>
         let sign_price := (max_order_price * (1 + uprate))%float in
         if (sign_price <? current_price)%float then
           bind X
             (attempt X
                (call_order_method X api_place_order "place_order"
                   (ret X (limit_order coin "sell" current_price number))))
             (fun r =>
                match r with
                | Raise _ => ret X tt
                | Ok _ =>
                    retry_until_placed X elapse fuel
                      (call_order_method X api_place_order "place_order"
                         (ret X (limit_order coin "buy"
                                   (current_price * (1 - rate))%float number)))
                end)
         else ret X tt)).

(** [run_buy]'s iteration with the call of [get_min_order_price] taken out
    in the same way. *)
Definition run_buy_act_with (anchor : list order -> string -> M X float)
    (fuel : nat) (coin : string) (number rate uprate : float)
    (prices : orderbook) (open_orders sell_orders : list order) : M X unit :=
  if (length sell_orders =? 0)%nat then
    bind X
      (attempt X
         (call_order_method X api_place_order "palce_order"
            (bind X (lift X (first_price (asks prices)))
               (fun p => ret X (limit_order coin "buy" p number)))))
      (fun r =>
         match r with
         | Raise _ => ret X tt
         | Ok _ =>
             retry_until_placed X elapse fuel
               (call_order_method X api_place_order "place_order"
                  (bind X (lift X (first_price (asks prices)))
                     (fun p =>
                        ret X (limit_order coin "sell" (p * (1 + rate))%float
                                 number))))
         end)
  else if (5 <=? length sell_orders)%nat then ret X tt
  else
    bind X (lift X (first_price (asks prices)))
      (fun current_price =>
         bind X (anchor open_orders "sell")
           (fun min_order_price =>
         let sign_price := (min_order_price * (1 - uprate))%float in
         if (current_price <? sign_price)%float then
           bind X
             (attempt X
                (call_order_method X api_place_order "place_order"
                   (ret X (limit_order coin "buy" current_price number))))
             (fun r =>
                match r with
                | Raise _ => ret X tt
                | Ok _ =>
                    retry_until_placed X elapse fuel
                      (call_order_method X api_place_order "place_order"
                         (ret X (limit_order coin "sell"
                                   (current_price * (1 + rate))%float number)))
                end)
         else ret X tt)).

End Exchange.

(** A stand-in for [Request.prepare] on the examples: the url for the
    path, no body, and a [Content-Length] of its own on what is not a
    [GET]. *)
Definition toy_prepare (r : Client.Request) : Client.PreparedRequest :=
  {| Client.method := Client.r_method r;
     Client.path_url := Client.r_url r;
     Client.body := None;
     Client.prepared_headers :=
       if String.eqb (Client.r_method r) "GET" then Client.headers r
       else <["Content-Length" := "0"]> (Client.headers r) |}.

(** A transport that answers with what it was sent under [FTX-KEY]. *)
Definition toy_send (p : Client.PreparedRequest) : result Client.Response :=
  match Client.prepared_headers p !! "FTX-KEY" with
  | Some k =>
      Ok {| Client.status_code := 200; Client.text := k;
            Client.json_body :=
              Some (JObj {[ "success" := JBool true; "result" := JStr k ]}) |}
  | None => Raise ConnectionError
  end.

(** A stand-in for the builtin [float] on the words of the examples. *)
Definition toy_float (s : string) : result float :=
  if String.eqb s "1" then Ok 1%float
  else if String.eqb s "0.001" then Ok 0.001%float
  else if String.eqb s "0.01" then Ok 0.01%float
  else Raise ValueError.

End Variants.

(** * Properties *)

(** ** The response envelope *)

Section EnvelopeFacts.
Import Client Scenario.

Lemma process_response_parsed (response : Response) (data : json) :
  json_body response = Some data ->
  _process_response response =
    (success <- getitem data "success" ;;
     if negb (truthy success)
     then (error <- getitem data "error" ;; Raise (Exception error))
     else getitem data "result")%py.
Proof.
  intros H. unfold _process_response, Response_json. now rewrite H.
Qed.

Lemma process_response_unparsed (response : Response) :
  json_body response = None ->
  _process_response response =
    (raise_for_status response ;;; Raise ValueError)%py.
Proof.
  intros H. unfold _process_response, Response_json. now rewrite H.
Qed.

(** C4, as the code has it: on a parsed envelope whose [success] is true
    the client returns the envelope's [result] unchanged; when [success]
    is false it raises the base class [Exception] itself, built from the
    envelope's [error], so that its message is exactly the error string. *)
Theorem process_response_envelope (response : Response)
    (m : gmap string json) (H : json_body response = Some (JObj m)) :
  (forall x : json,
      m !! "success" = Some (JBool true) -> m !! "result" = Some x ->
      _process_response response = Ok x) /\
  (forall err : string,
      m !! "success" = Some (JBool false) -> m !! "error" = Some (JStr err) ->
      _process_response response = Raise (Exception (JStr err)) /\
      message (Exception (JStr err)) = Some err /\
      is_generic (Exception (JStr err)) = true).
Proof.
  rewrite (process_response_parsed _ _ H). split.
  - intros x Hs Hr. simpl. rewrite Hs. simpl. now rewrite Hr.
  - intros err Hs He. simpl. rewrite Hs. simpl. now rewrite He.
Qed.

(** A successful and a failed envelope. *)
Lemma process_response_envelope_witness :
  _process_response envelope_ok = Ok (JList [JInt 7; JStr "x"]) /\
  _process_response envelope_failed
    = Raise (Exception (JStr "Not enough balances")).
Proof.
  split.
  - apply (proj1 (process_response_envelope envelope_ok _ eq_refl)).
    + vm_compute. reflexivity.
    + vm_compute. reflexivity.
  - apply (proj2 (process_response_envelope envelope_failed _ eq_refl)).
    + vm_compute. reflexivity.
    + vm_compute. reflexivity.
Defined.

(** C4 as stated fails: the failure raised for a [success = false]
    envelope is the generic [Exception], not an exception class of its
    own. *)
Lemma process_response_failure_is_generic :
  exists e : exn,
    _process_response envelope_failed = Raise e /\ is_generic e = true.
Proof.
  exists (Exception (JStr "Not enough balances")). split.
  - vm_compute. reflexivity.
  - reflexivity.
Qed.

(** C8, as the code has it: when the body is not JSON, a 4xx or 5xx
    status raises the [HTTPError] of the response (its status code and
    text); any other status re-raises the decoder's [ValueError]. *)
Theorem process_response_not_json (response : Response)
    (H : json_body response = None) :
  ((400 <= status_code response < 600)%Z ->
   _process_response response
     = Raise (HTTPError (status_code response) (text response))) /\
  (~ (400 <= status_code response < 600)%Z ->
   _process_response response = Raise ValueError).
Proof.
  rewrite (process_response_unparsed _ H). unfold raise_for_status.
  split; intros Hs.
  - replace ((400 <=? status_code response)%Z && (status_code response <? 600)%Z)
      with true; [reflexivity|].
    symmetry. apply andb_true_iff. split; [apply Z.leb_le | apply Z.ltb_lt]; lia.
  - replace ((400 <=? status_code response)%Z && (status_code response <? 600)%Z)
      with false; [reflexivity|].
    symmetry. apply andb_false_iff.
    destruct (Z.leb_spec 400 (status_code response)); [right|left; reflexivity].
    apply Z.ltb_ge. lia.
Qed.

(** An HTML error page with status 502, and with status 200. *)
Lemma process_response_not_json_witness :
  _process_response (not_json 502)
    = Raise (HTTPError 502 "<html>Bad Gateway</html>") /\
  _process_response (not_json 200) = Raise ValueError.
Proof.
  split.
  - apply (proj1 (process_response_not_json (not_json 502) eq_refl)).
    simpl. lia.
  - apply (proj2 (process_response_not_json (not_json 200) eq_refl)).
    simpl. lia.
Defined.

(** C8 as stated fails on a 2xx response: no HTTP error is raised, the
    caller gets the decoder's [ValueError] instead. *)
Lemma process_response_not_json_2xx :
  _process_response (not_json 200) = Raise ValueError.
Proof. reflexivity. Qed.

End EnvelopeFacts.

(** ** Request signing *)

Section SigningFacts.
Import Client.

Variable hmac_sha256_hexdigest : list Byte.byte -> list Byte.byte -> string.
Variable quote : string -> string.
Variable prepare : Request -> PreparedRequest.

Lemma encode_app (a b : string) :
  encode (a +:+ b) = (encode a ++ encode b)%list.
Proof.
  unfold encode, list_byte_of_string.
  induction a as [|c a IH]; simpl; [reflexivity|].
  now rewrite IH.
Qed.

(** The signed bytes: the decimal timestamp, the method, the path with its
    query, then the body when there is one. *)
Lemma signature_payload_bytes (ts : Z) (prepared : PreparedRequest) :
  signature_payload ts prepared
  = (encode (pretty ts) ++ encode (method prepared)
       ++ encode (path_url prepared) ++ default [] (body prepared))%list.
Proof.
  unfold signature_payload. rewrite !encode_app.
  destruct (body prepared) as [[|b bs]|]; simpl;
    rewrite <- ?app_assoc, ?app_nil_r; reflexivity.
Qed.

Lemma sign_request_headers_lookup (self : FtxClient) (ts : Z)
    (request : Request) (k : string) :
  headers (_sign_request hmac_sha256_hexdigest quote prepare self ts request) !! k
  = if String.eqb k "FTX-SUBACCOUNT" then
      match _subaccount_name self with
      | Some name =>
          if String.eqb name "" then headers request !! k
          else Some (quote name)
      | None => headers request !! k
      end
    else if String.eqb k "FTX-TS" then Some (pretty ts)
    else if String.eqb k "FTX-SIGN" then
      Some (hmac_sha256_hexdigest (encode (_api_secret self))
              (signature_payload ts (prepare request)))
    else if String.eqb k "FTX-KEY" then Some (_api_key self)
    else headers request !! k.
Proof.
  unfold _sign_request.
  destruct (String.eqb_spec k "FTX-SUBACCOUNT") as [->|Hsub].
  - destruct (_subaccount_name self) as [name|]; [destruct (String.eqb name "")|];
      simpl; rewrite ?lookup_insert_eq, ?lookup_insert_ne by discriminate;
      reflexivity.
  - assert (Hrest :
      headers (set_header "FTX-TS" (pretty ts)
                 (set_header "FTX-SIGN"
                    (hmac_sha256_hexdigest (encode (_api_secret self))
                       (signature_payload ts (prepare request)))
                    (set_header "FTX-KEY" (_api_key self) request))) !! k
      = if String.eqb k "FTX-TS" then Some (pretty ts)
        else if String.eqb k "FTX-SIGN" then
          Some (hmac_sha256_hexdigest (encode (_api_secret self))
                  (signature_payload ts (prepare request)))
        else if String.eqb k "FTX-KEY" then Some (_api_key self)
        else headers request !! k).
    { simpl.
      destruct (String.eqb_spec k "FTX-TS") as [->|H1];
        [now rewrite lookup_insert_eq|rewrite lookup_insert_ne by congruence].
      destruct (String.eqb_spec k "FTX-SIGN") as [->|H2];
        [now rewrite lookup_insert_eq|rewrite lookup_insert_ne by congruence].
      destruct (String.eqb_spec k "FTX-KEY") as [->|H3];
        [now rewrite lookup_insert_eq|rewrite lookup_insert_ne by congruence].
      reflexivity. }
    destruct (_subaccount_name self) as [name|]; [destruct (String.eqb name "")|];
      try exact Hrest.
    simpl. rewrite lookup_insert_ne by congruence. exact Hrest.
Qed.

(** C7: on the request [_request] builds, [_sign_request] sets [FTX-SIGN]
    to the hex HMAC-SHA256, keyed by the secret, of the decimal millisecond
    timestamp followed by the method, the path with its query and the body
    bytes when a body is present; [FTX-KEY] to the api key; [FTX-TS] to the
    same decimal timestamp; and [FTX-SUBACCOUNT], percent-encoded, exactly
    when a (non-empty) subaccount name is configured.  The signature is a
    function of the secret, the timestamp and the prepared method, path
    and body alone. *)
Theorem sign_request_headers (self : FtxClient) (ts : Z) (m path : string)
    (params js : option json) :
  let request := Request_new m (_ENDPOINT +:+ path) params js in
  let prepared := prepare request in
  let signed := _sign_request hmac_sha256_hexdigest quote prepare self ts request in
  headers signed !! "FTX-SIGN"
  = Some (hmac_sha256_hexdigest (encode (_api_secret self))
            (encode (pretty ts) ++ encode (method prepared)
               ++ encode (path_url prepared) ++ default [] (body prepared))%list)
  /\ headers signed !! "FTX-KEY" = Some (_api_key self)
  /\ headers signed !! "FTX-TS" = Some (pretty ts)
  /\ headers signed !! "FTX-SUBACCOUNT"
     = match _subaccount_name self with
       | Some name => if String.eqb name "" then None else Some (quote name)
       | None => None
       end
  /\ forall (self' : FtxClient) (request' : Request),
      _api_secret self' = _api_secret self ->
      prepare request' = prepared ->
      headers (_sign_request hmac_sha256_hexdigest quote prepare self' ts request')
        !! "FTX-SIGN"
      = headers signed !! "FTX-SIGN".
Proof.
  intros request prepared signed. subst signed.
  rewrite !sign_request_headers_lookup. simpl.
  rewrite signature_payload_bytes. fold prepared.
  split; [reflexivity|]. split; [reflexivity|]. split; [reflexivity|]. split.
  - destruct (_subaccount_name self) as [name|]; [destruct (String.eqb name "")|];
      reflexivity.
  - intros self' request' Hsecret Hprep.
    rewrite sign_request_headers_lookup. simpl.
    rewrite Hsecret, Hprep, signature_payload_bytes. reflexivity.
Qed.

End SigningFacts.

(** ** Paginated fetching *)

Section FetchFacts.
Import Trades.

Variable parse_datetime : string -> Z.
Variable timestamp : Z -> float.
Variable endpoint : nat -> result (list trade).

Lemma fold_min_spec (ts : list trade) :
  forall a m : Z,
    m = fold_left (fun m u => Z.min m (parse_datetime (trade_time u))) ts a ->
    (m = a \/ exists u, u ∈ ts /\ m = parse_datetime (trade_time u)) /\
    (m <= a)%Z /\
    forall u, u ∈ ts -> (m <= parse_datetime (trade_time u))%Z.
Proof.
  induction ts as [|t ts IH]; intros a m Hm; simpl in Hm.
  - subst m. split; [now left|]. split; [lia|]. intros u Hu. inversion Hu.
  - destruct (IH _ _ Hm) as (Hcase & Hle & Hall).
    split; [|split].
    + destruct Hcase as [Hcase|(u & Hu & Hcase)].
      * destruct (Z.min_spec a (parse_datetime (trade_time t))) as [[_ E]|[_ E]].
        -- left. congruence.
        -- right. exists t. split; [left|congruence].
      * right. exists u. split; [now right|exact Hcase].
    + lia.
    + intros u Hu. apply elem_of_cons in Hu as [->|Hu]; [lia|now apply Hall].
Qed.

Lemma min_datetime_least (t : trade) (ts : list trade) :
  least_time parse_datetime (min_datetime parse_datetime t ts) (t :: ts).
Proof.
  unfold min_datetime.
  destruct (fold_min_spec ts (parse_datetime (trade_time t)) _ eq_refl)
    as (Hm & Hle & Hall).
  split.
  - destruct Hm as [Hm|(u & Hu & Hm)].
    + exists t. split; [left|exact Hm].
    + exists u. split; [now right|exact Hm].
  - intros u Hu. apply elem_of_cons in Hu as [->|Hu]; [exact Hle|now apply Hall].
Qed.

(** Appending the trades of a page whose id is new keeps the ids of the
    result distinct and adds exactly the ids of the page. *)
Lemma dedup_step (ids : gset Z) (results page : list trade) :
  ids = list_to_set (trade_id <$> results) ->
  NoDup (trade_id <$> results) ->
  NoDup (trade_id <$> page) ->
  let deduped := filter (fun r => trade_id r ∉ ids) page in
  ids ∪ list_to_set (trade_id <$> deduped)
    = list_to_set (trade_id <$> (results ++ deduped)%list) /\
  NoDup (trade_id <$> (results ++ deduped)%list) /\
  (list_to_set (trade_id <$> (results ++ deduped)%list) : gset Z)
    = ids ∪ list_to_set (trade_id <$> page).
Proof.
  intros Hids Hres Hpage deduped.
  assert (Hsub : forall x, x ∈ trade_id <$> deduped ->
                           x ∈ trade_id <$> page /\ x ∉ ids).
  { intros x Hx. apply list_elem_of_fmap in Hx as (r & -> & Hr).
    apply list_elem_of_filter in Hr as [Hnew Hr].
    split; [|exact Hnew]. apply list_elem_of_fmap. now exists r. }
  split; [|split].
  - rewrite fmap_app, list_to_set_app_L, <- Hids. reflexivity.
  - rewrite fmap_app. apply NoDup_app. split; [exact Hres|]. split.
    + intros x Hx Hx'. apply Hsub in Hx' as [_ Hnew]. apply Hnew.
      rewrite Hids. now apply elem_of_list_to_set.
    + apply (sublist_NoDup _ (trade_id <$> page)); [exact Hpage|].
      apply fmap_sublist. apply sublist_filter.
  - rewrite fmap_app, list_to_set_app_L, <- Hids.
    apply set_eq. intros x. rewrite !elem_of_union, !elem_of_list_to_set.
    split.
    + intros [Hx|Hx]; [now left|]. right. now apply Hsub.
    + intros [Hx|Hx]; [now left|].
      destruct (decide (x ∈ ids)) as [Hin|Hnew]; [now left|]. right.
      apply list_elem_of_fmap in Hx as (r & -> & Hr).
      apply list_elem_of_fmap. exists r. split; [reflexivity|].
      apply list_elem_of_filter. now split.
Qed.

Lemma get_all_trades_loop_spec (pages : nat -> list trade) (market : string)
    (start_time : option float) (d : nat) :
  forall (n fuel : nat) (ids : gset Z) (results : list trade)
         (end_time : option float),
    d < fuel ->
    (forall i, i <= d -> endpoint (n + i) = Ok (pages (n + i))) ->
    (forall i, i < d -> limit <= length (pages (n + i))) ->
    length (pages (n + d)) < limit ->
    (forall i, i <= d -> NoDup (trade_id <$> pages (n + i))) ->
    ids = list_to_set (trade_id <$> results) ->
    NoDup (trade_id <$> results) ->
    exists res sent,
      get_all_trades_loop parse_datetime timestamp endpoint fuel n market
        start_time ids results end_time = (Some (Ok res), sent) /\
      NoDup (trade_id <$> res) /\
      (list_to_set (trade_id <$> res) : gset Z)
        = ids ∪ ⋃ ((fun i => list_to_set (trade_id <$> pages i)) <$> seq n (S d)) /\
      length sent = S d /\
      (exists rq, sent !! 0 = Some rq /\ rq_end_time rq = end_time /\
                  rq_start_time rq = start_time) /\
      forall i, i < d ->
        exists rq m, sent !! (S i) = Some rq /\
                     rq_end_time rq = Some (timestamp m) /\
                     rq_start_time rq = start_time /\
                     least_time parse_datetime m (pages (n + i)).
Proof.
  induction d as [|d IH]; intros n fuel ids results end_time Hfuel Hep Hfull
    Hshort Hnd Hids Hres.
  - destruct fuel as [|fuel]; [lia|]. simpl.
    assert (Hep0 : endpoint n = Ok (pages n)).
    { specialize (Hep 0). rewrite Nat.add_0_r in Hep. apply Hep. lia. }
    rewrite Hep0. rewrite Nat.add_0_r in Hshort.
    destruct (dedup_step ids results (pages n) Hids Hres) as (_ & Hnd' & Hset).
    { specialize (Hnd 0). rewrite Nat.add_0_r in Hnd. apply Hnd. lia. }
    assert (Hlt : (length (pages n) <? limit)%nat = true) by (apply Nat.ltb_lt; lia).
    rewrite Hlt.
    exists (results ++ filter (fun r => trade_id r ∉ ids) (pages n))%list,
      [{| rq_path := "markets/" +:+ market +:+ "/trades";
          rq_end_time := end_time; rq_start_time := start_time |}].
    split; [destruct (pages n); reflexivity|]. split; [exact Hnd'|]. split.
    + rewrite Hset. simpl. rewrite union_empty_r_L. reflexivity.
    + split; [reflexivity|].
      split; [eexists; split; [reflexivity|now split]|]. intros i Hi. lia.
  - destruct fuel as [|fuel]; [lia|]. simpl.
    assert (Hep0 : endpoint n = Ok (pages n)).
    { specialize (Hep 0). rewrite Nat.add_0_r in Hep. apply Hep. lia. }
    rewrite Hep0.
    destruct (dedup_step ids results (pages n) Hids Hres) as (Hids' & Hnd' & Hset).
    { specialize (Hnd 0). rewrite Nat.add_0_r in Hnd. apply Hnd. lia. }
    assert (Hge : limit <= length (pages n)).
    { specialize (Hfull 0). rewrite Nat.add_0_r in Hfull. apply Hfull. lia. }
    assert (Hlt : (length (pages n) <? limit)%nat = false) by (apply Nat.ltb_ge; lia).
    destruct (pages n) as [|t ts] eqn:Hpage; [unfold limit in Hge; simpl in Hge; lia|].
    rewrite Hlt.
    destruct (IH (S n) fuel
                (ids ∪ list_to_set
                   (trade_id <$> filter (fun r => trade_id r ∉ ids) (t :: ts)))
                (results ++ filter (fun r => trade_id r ∉ ids) (t :: ts))%list
                (Some (timestamp (min_datetime parse_datetime t ts))))
      as (res & sent & Heq & Hnd'' & Hset' & Hlen & Hfirst & Hnext).
    + lia.
    + intros i Hi. replace (S n + i) with (n + S i) by lia. apply Hep. lia.
    + intros i Hi. replace (S n + i) with (n + S i) by lia. apply Hfull. lia.
    + replace (S n + d) with (n + S d) by lia. exact Hshort.
    + intros i Hi. replace (S n + i) with (n + S i) by lia. apply Hnd. lia.
    + exact Hids'.
    + exact Hnd'.
    + rewrite Heq. eexists res, _. split; [reflexivity|].
      split; [exact Hnd''|]. split.
      * rewrite Hset', Hids', Hset. simpl. now rewrite !(assoc_L (∪)).
      * split; [simpl; now rewrite Hlen|].
        split; [eexists; split; [reflexivity|now split]|].
        intros [|i] Hi.
        -- destruct Hfirst as (rq & Hrq & Hend & Hstart).
           exists rq, (min_datetime parse_datetime t ts).
           split; [exact Hrq|]. split; [exact Hend|]. split; [exact Hstart|].
           rewrite Nat.add_0_r, Hpage. apply min_datetime_least.
        -- destruct (Hnext i) as (rq & m & Hrq & Hend & Hstart & Hleast); [lia|].
           exists rq, m. split; [exact Hrq|]. split; [exact Hend|].
           split; [exact Hstart|].
           replace (n + S i) with (S n + i) by lia. exact Hleast.
Qed.

(** C6, as the code has it: when no page lists an id twice, the fetcher
    returns every id of the fetched pages exactly once, so the length of its
    result is the number of distinct ids over these pages; it stops at the
    first page with fewer than 100 trades, empty or not, having sent one
    request per fetched page; and each request after the first carries as
    [end_time] the timestamp of the least parsed time of the page before. *)
Theorem get_all_trades_dedup (pages : nat -> list trade) (k : nat)
    (market : string) (start_time end_time : option float)
    (Hpages : forall i, i <= k -> endpoint i = Ok (pages i))
    (Hfull : forall i, i < k -> limit <= length (pages i))
    (Hshort : length (pages k) < limit)
    (Hnodup : forall i, i <= k -> NoDup (trade_id <$> pages i))
    (fuel : nat) (Hfuel : k < fuel) :
  exists res sent,
    get_all_trades parse_datetime timestamp endpoint fuel market start_time
      end_time = (Some (Ok res), sent) /\
    NoDup (trade_id <$> res) /\
    length res
    = size (⋃ ((fun i => list_to_set (trade_id <$> pages i)) <$> seq 0 (S k))
            : gset Z) /\
    length sent = S k /\
    (exists rq, sent !! 0 = Some rq /\ rq_end_time rq = end_time /\
                rq_start_time rq = start_time) /\
    forall i, i < k ->
      exists rq m, sent !! (S i) = Some rq /\
                   rq_end_time rq = Some (timestamp m) /\
                   rq_start_time rq = start_time /\
                   least_time parse_datetime m (pages i).
Proof.
  destruct (get_all_trades_loop_spec pages market start_time k 0 fuel ∅ []
              end_time Hfuel)
    as (res & sent & Heq & Hnd & Hset & Hlen & Hfirst & Hnext);
    try assumption; [reflexivity|constructor|].
  exists res, sent. split; [exact Heq|]. split; [exact Hnd|]. split.
  - rewrite union_empty_l_L in Hset. rewrite <- Hset.
    rewrite size_list_to_set by exact Hnd. now rewrite length_fmap.
  - split; [exact Hlen|]. split; [exact Hfirst|]. exact Hnext.
Qed.

End FetchFacts.

Section FetchExamples.
Import Trades Scenario.

Lemma two_pages_distinct (i : nat) : i <= 1 -> NoDup (trade_id <$> two_pages i).
Proof.
  intros Hi. destruct i as [|[|i]]; [| |lia];
    apply (bool_decide_unpack (NoDup _)); vm_compute; exact I.
Qed.

(** Two pages that overlap in the ids 99 and 100. *)
Lemma get_all_trades_dedup_witness :
  exists res sent,
    get_all_trades seconds_of float_of_seconds (fun i => Ok (two_pages i)) 2
      "BTC-PERP" None None = (Some (Ok res), sent) /\
    NoDup (trade_id <$> res) /\
    length res
    = size (⋃ ((fun i => list_to_set (trade_id <$> two_pages i)) <$> seq 0 2)
            : gset Z) /\
    length sent = 2 /\
    (exists rq, sent !! 0 = Some rq /\ rq_end_time rq = None /\
                rq_start_time rq = None) /\
    forall i, i < 1 ->
      exists rq m, sent !! (S i) = Some rq /\
                   rq_end_time rq = Some (float_of_seconds m) /\
                   rq_start_time rq = None /\
                   least_time seconds_of m (two_pages i).
Proof.
  apply (get_all_trades_dedup seconds_of float_of_seconds
           (fun i => Ok (two_pages i)) two_pages 1 "BTC-PERP" None None).
  - reflexivity.
  - intros i Hi. destruct i as [|i]; [vm_compute; lia|lia].
  - vm_compute. lia.
  - exact two_pages_distinct.
  - lia.
Defined.

(** C6 as stated fails on a page that lists an id twice: both copies
    reach the result, which then has two trades for one distinct id. *)
Lemma get_all_trades_keeps_repeats_of_a_page :
  exists res,
    fst (get_all_trades seconds_of float_of_seconds
           (fun _ => Ok repeating_page) 1 "BTC-PERP" None None)
    = Some (Ok res) /\
    trade_id <$> res = [1; 1]%Z /\
    length res = 2 /\
    size (list_to_set (trade_id <$> repeating_page) : gset Z) = 1.
Proof.
  exists repeating_page. split; [vm_compute; reflexivity|].
  split; [reflexivity|]. split; [reflexivity|]. vm_compute. reflexivity.
Qed.

End FetchExamples.

(** ** The trading loops *)

Section FloatOrder.

Lemma SFltb_irrefl (a : spec_float) : SFltb a a = false.
Proof.
  unfold SFltb, SFcompare.
  destruct a as [s|s| |s m e]; try destruct s; try reflexivity;
    rewrite Z.compare_refl;
    change (PosDef.Pos.compare_cont Eq m m) with (Pos.compare m m);
    rewrite Pos.compare_refl; reflexivity.
Qed.

Lemma SFltb_trans (a b c : spec_float) :
  SFltb a b = true -> SFltb b c = true -> SFltb a c = true.
Proof.
  unfold SFltb, SFcompare.
  destruct a as [sa|sa| |sa ma ea], b as [sb|sb| |sb mb eb],
    c as [sc|sc| |sc mc ec];
    try destruct sa; try destruct sb; try destruct sc;
    try reflexivity; try discriminate;
    repeat match goal with
           | |- context [PosDef.Pos.compare_cont Eq ?x ?y] =>
               change (PosDef.Pos.compare_cont Eq x y) with (Pos.compare x y)
           end;
    destruct (Z.compare_spec ea eb), (Z.compare_spec eb ec),
             (Z.compare_spec ea ec);
    try discriminate; try reflexivity; try lia; subst;
    destruct (Pos.compare_spec ma mb), (Pos.compare_spec mb mc),
             (Pos.compare_spec ma mc);
    simpl; try discriminate; try reflexivity; try lia.
Qed.

Lemma float_ltb_irrefl (a : float) : (a <? a)%float = false.
Proof. rewrite ltb_spec. apply SFltb_irrefl. Qed.

Lemma float_ltb_trans (a b c : float) :
  (a <? b)%float = true -> (b <? c)%float = true -> (a <? c)%float = true.
Proof. rewrite !ltb_spec. apply SFltb_trans. Qed.

End FloatOrder.

Section HelperFacts.
Import Engine.

Lemma get_orders_of_side_spec (orders : list order) (side : string) (o : order) :
  o ∈ get_orders_of_side orders side <-> o ∈ orders /\ o_side o = side.
Proof.
  induction orders as [|o' orders IH]; simpl.
  - split; [intros H; inversion H|intros [H _]; inversion H].
  - destruct (String.eqb_spec (o_side o') side) as [E|E].
    + rewrite !elem_of_cons, IH. split.
      * intros [->|[H1 H2]]; [split; [now left|exact E]|split; [now right|exact H2]].
      * intros [[->|H1] H2]; [now left|right; now split].
    + rewrite elem_of_cons, IH. split.
      * intros [H1 H2]. split; [now right|exact H2].
      * intros [[->|H1] H2]; [contradiction|now split].
Qed.

Lemma get_orders_of_side_nil (orders : list order) (side : string) :
  get_orders_of_side orders side = [] <->
  forall o, o ∈ orders -> o_side o <> side.
Proof.
  split.
  - intros H o Ho E.
    assert (Hin : o ∈ get_orders_of_side orders side)
      by (apply get_orders_of_side_spec; now split).
    rewrite H in Hin. inversion Hin.
  - intros H. destruct (get_orders_of_side orders side) as [|o l] eqn:E;
      [reflexivity|].
    assert (Hin : o ∈ get_orders_of_side orders side) by (rewrite E; left).
    apply get_orders_of_side_spec in Hin as [Hin Hside].
    now destruct (H o Hin).
Qed.

(** The running maximum of [get_max_order_price], from any start [m]. *)
Lemma max_fold_spec (side : string) (orders : list order) :
  forall m r : float,
    r = fold_left
          (fun max_order_price i =>
             if String.eqb (fst i) side && (max_order_price <? snd i)%float
             then snd i else max_order_price)
          (combine (map o_side orders) (map o_price orders)) m ->
    (r = m \/ exists o, o ∈ orders /\ o_side o = side /\ o_price o = r) /\
    (forall p, (m <? p)%float = false -> (r <? p)%float = false) /\
    (forall o, o ∈ orders -> o_side o = side -> (r <? o_price o)%float = false).
Proof.
  induction orders as [|o orders IH]; intros m r Hr; simpl in Hr.
  - subst r. split; [now left|]. split; [auto|]. intros o Ho. inversion Ho.
  - destruct (IH _ _ Hr) as (Hcase & Hmono & Hall). clear Hr IH.
    destruct (String.eqb_spec (o_side o) side) as [Eside|Eside]; simpl in *.
    + destruct (m <? o_price o)%float eqn:Elt.
      * split; [|split].
        -- right. destruct Hcase as [->|(o' & Ho' & Hs & Hp)].
           ++ exists o. split; [left|now split].
           ++ exists o'. split; [now right|now split].
        -- intros p Hp. apply Hmono.
           destruct (o_price o <? p)%float eqn:E; [|reflexivity].
           rewrite (float_ltb_trans _ _ _ Elt E) in Hp. discriminate.
        -- intros o' Ho' Hs. apply elem_of_cons in Ho' as [->|Ho'].
           ++ apply Hmono, float_ltb_irrefl.
           ++ now apply Hall.
      * split; [|split].
        -- destruct Hcase as [->|(o' & Ho' & Hs & Hp)]; [now left|].
           right. exists o'. split; [now right|now split].
        -- exact Hmono.
        -- intros o' Ho' Hs. apply elem_of_cons in Ho' as [->|Ho'].
           ++ now apply Hmono.
           ++ now apply Hall.
    + split; [|split].
      * destruct Hcase as [->|(o' & Ho' & Hs & Hp)]; [now left|].
        right. exists o'. split; [now right|now split].
      * exact Hmono.
      * intros o' Ho' Hs. apply elem_of_cons in Ho' as [->|Ho'].
        -- contradiction.
        -- now apply Hall.
Qed.

(** With an open order of the side at a positive price,
    [get_max_order_price] is the price of one such order and none of them
    has a higher one. *)
Lemma get_max_order_price_is_max (orders : list order) (side : string) :
  (exists o, o ∈ orders /\ o_side o = side /\ (0 <? o_price o)%float = true) ->
  (exists o, o ∈ orders /\ o_side o = side /\
             o_price o = get_max_order_price orders side) /\
  (forall o, o ∈ orders -> o_side o = side ->
             (get_max_order_price orders side <? o_price o)%float = false).
Proof.
  intros (o & Ho & Hs & Hpos).
  destruct (max_fold_spec side orders 0%float _ eq_refl) as (Hcase & _ & Hall).
  fold (get_max_order_price orders side) in Hcase, Hall.
  split; [|exact Hall].
  destruct Hcase as [E|Hcase]; [|exact Hcase].
  specialize (Hall o Ho Hs). rewrite E in Hall. congruence.
Qed.

Lemma get_max_order_price_sentinel (orders : list order) (side : string) :
  (forall o, o ∈ orders -> o_side o <> side) ->
  get_max_order_price orders side = 0%float.
Proof.
  unfold get_max_order_price. generalize 0%float.
  induction orders as [|o orders IH]; intros m H; simpl; [reflexivity|].
  destruct (String.eqb_spec (o_side o) side) as [E|E].
  - destruct (H o); [left|exact E].
  - simpl. apply IH. intros o' Ho'. apply H. now right.
Qed.

Lemma get_min_order_price_sentinel (orders : list order) (side : string) :
  (forall o, o ∈ orders -> o_side o <> side) ->
  get_min_order_price orders side = 999999%float.
Proof.
  unfold get_min_order_price. generalize 999999%float.
  induction orders as [|o orders IH]; intros m H; simpl; [reflexivity|].
  destruct (String.eqb_spec (o_side o) side) as [E|E].
  - destruct (H o); [left|exact E].
  - simpl. apply IH. intros o' Ho'. apply H. now right.
Qed.

End HelperFacts.

Section LoopFacts.
Import Engine.

Variable X : Type.
Variable elapse : Z -> X -> X.
Variable api_get_prices : string -> X -> result orderbook * X.
Variable api_get_open_orders : string -> X -> result (list order) * X.
Variable api_place_order : order_request -> X -> result unit * X.

Lemma steps_app (side : string) (hedge_of : order_request -> order_request)
    (a b c : phase) (t1 t2 : list event) :
  steps side hedge_of a t1 b -> steps side hedge_of b t2 c ->
  steps side hedge_of a (t1 ++ t2) c.
Proof.
  induction 1 as [ph|ph ph' ph'' e tr Hstep Hsteps IH]; intros H2; simpl.
  - exact H2.
  - eapply steps_cons; [exact Hstep|]. now apply IH.
Qed.

Lemma trace_bind {A B : Type} (c : M X A) (k : A -> M X B) (x : X) :
  trace_of (bind X c k x)
  = (trace_of (c x) ++
     match outcome_of (c x) with
     | Done a => trace_of (k a (state_of (c x)))
     | _ => []
     end)%list.
Proof.
  unfold bind. destruct (outcome_of (c x)); simpl;
    rewrite ?app_nil_r; reflexivity.
Qed.

Lemma outcome_bind {A B : Type} (c : M X A) (k : A -> M X B) (x : X) :
  outcome_of (bind X c k x)
  = match outcome_of (c x) with
    | Done a => outcome_of (k a (state_of (c x)))
    | Raised e => Raised e
    | OutOfFuel => OutOfFuel
    end.
Proof. unfold bind. destruct (outcome_of (c x)); reflexivity. Qed.

(** A call of [fc.place_order] with its arguments at hand posts them. *)
Lemma call_place_order_posts (h : order_request) :
  posts X h (call_order_method X api_place_order "place_order" (ret X h)).
Proof.
  intros x. unfold call_order_method.
  change (bool_decide ("place_order" ∈ FtxClient_attrs)) with true.
  cbn [String.eqb Ascii.eqb Bool.eqb andb].
  unfold bind, ret, place_order. simpl.
  destruct (api_place_order h x) as [[[]|e] x']; simpl; exists x';
    [left; reflexivity|right; exists e; reflexivity].
Qed.

(** The same when the price is read off a book that has a first level. *)
Lemma call_place_order_first_price_posts (levels : list (float * float))
    (p : float) (mk : float -> order_request) :
  first_price levels = Ok p ->
  posts X (mk p)
    (call_order_method X api_place_order "place_order"
       (bind X (lift X (first_price levels)) (fun q => ret X (mk q)))).
Proof.
  intros Hp x. rewrite Hp. unfold call_order_method.
  change (bool_decide ("place_order" ∈ FtxClient_attrs)) with true.
  cbn [String.eqb Ascii.eqb Bool.eqb andb].
  unfold bind, ret, lift, place_order. simpl.
  destruct (api_place_order (mk p) x) as [[[]|e] x']; simpl; exists x';
    [left; reflexivity|right; exists e; reflexivity].
Qed.

(** The retry loop of a counter-order [h]: rejected attempts, each followed
    by a sleep of 1, until an accepted one ends it; cut by the budget, it is
    still about to post [h]. *)
Lemma retry_until_placed_steps (side : string)
    (hedge_of : order_request -> order_request) (h : order_request)
    (c : M X unit) :
  posts X h c ->
  forall (fuel : nat) (x : X),
    (outcome_of (retry_until_placed X elapse fuel c x) = Done tt /\
     steps side hedge_of (Hedge h)
       (trace_of (retry_until_placed X elapse fuel c x)) Poll) \/
    (outcome_of (retry_until_placed X elapse fuel c x) = OutOfFuel /\
     steps side hedge_of (Hedge h)
       (trace_of (retry_until_placed X elapse fuel c x)) (Hedge h)).
Proof.
  intros Hc. induction fuel as [|fuel IH]; intros x.
  - right. split; [reflexivity|apply steps_nil].
  - simpl. destruct (Hc x) as (x' & [Hx|(e & Hx)]).
    + left. unfold bind, attempt. rewrite Hx. simpl.
      split; [reflexivity|].
      eapply steps_cons; [apply step_hedge_placed|apply steps_nil].
    + unfold bind, attempt, sleep. rewrite Hx. simpl.
      destruct (IH (elapse 1 x')) as [[Ho Hs]|[Ho Hs]]; rewrite Ho; simpl.
      * left. split; [reflexivity|].
        eapply steps_cons; [apply step_hedge_rejected|].
        eapply steps_cons; [apply step_backoff|exact Hs].
      * right. split; [reflexivity|].
        eapply steps_cons; [apply step_hedge_rejected|].
        eapply steps_cons; [apply step_backoff|exact Hs].
Qed.

(** A rung attempt [c] posting [rq], followed on success by the retry loop
    of its counter-order. *)
Lemma rung_then_hedge_steps (side : string)
    (hedge_of : order_request -> order_request) (rq : order_request)
    (c hedge : M X unit) (fuel : nat) (x : X) :
  rq_side rq = side ->
  posts X rq c -> posts X (hedge_of rq) hedge ->
  exists ph,
    steps side hedge_of Poll
      (trace_of
         (bind X (attempt X c)
            (fun r => match r with
                      | Raise _ => ret X tt
                      | Ok _ => retry_until_placed X elapse fuel hedge
                      end) x)) ph /\
    (outcome_of
       (bind X (attempt X c)
          (fun r => match r with
                    | Raise _ => ret X tt
                    | Ok _ => retry_until_placed X elapse fuel hedge
                    end) x) = Done tt -> ph = Poll) /\
    (forall e,
        outcome_of
          (bind X (attempt X c)
             (fun r => match r with
                       | Raise _ => ret X tt
                       | Ok _ => retry_until_placed X elapse fuel hedge
                       end) x) <> Raised e).
Proof.
  intros Hside Hc Hh. destruct (Hc x) as (x' & [Hx|(e & Hx)]).
  - unfold bind, attempt. rewrite Hx. simpl.
    destruct (retry_until_placed_steps side hedge_of _ _ Hh fuel x')
      as [[Ho Hs]|[Ho Hs]]; rewrite Ho; simpl.
    + exists Poll. split; [|split; [reflexivity|discriminate]].
      eapply steps_cons; [apply step_rung_placed; exact Hside|exact Hs].
    + exists (Hedge (hedge_of rq)). split; [|split; [discriminate|discriminate]].
      eapply steps_cons; [apply step_rung_placed; exact Hside|exact Hs].
  - unfold bind, attempt, ret. rewrite Hx. simpl.
    exists Poll. split; [|split; [reflexivity|discriminate]].
    eapply steps_cons; [apply step_rung_rejected; exact Hside|apply steps_nil].
Qed.

Lemma bind_ret {A B : Type} (a : A) (k : A -> M X B) (x : X) :
  outcome_of (bind X (ret X a) k x) = outcome_of (k a x) /\
  state_of (bind X (ret X a) k x) = state_of (k a x) /\
  trace_of (bind X (ret X a) k x) = trace_of (k a x).
Proof. unfold bind, ret. simpl. auto. Qed.

Lemma bind_done {A B : Type} (c : M X A) (k : A -> M X B) (x x' : X) (a : A)
    (t : list event) :
  c x = Ran (Done a) x' t ->
  bind X c k x
  = Ran (outcome_of (k a x')) (state_of (k a x')) (t ++ trace_of (k a x'))%list.
Proof. intros H. unfold bind. now rewrite H. Qed.

Lemma run_sell_act_steps (fuel : nat) (coin : string)
    (number rate uprate : float) (prices : orderbook)
    (open_orders buy_orders : list order) (x : X) :
  exists ph,
    steps "sell" (sell_hedge rate) Poll
      (trace_of (run_sell_act X elapse api_place_order fuel coin number rate
                   uprate prices open_orders buy_orders x)) ph /\
    (outcome_of (run_sell_act X elapse api_place_order fuel coin number rate
                   uprate prices open_orders buy_orders x) = Done tt ->
     ph = Poll).
Proof.
  unfold run_sell_act.
  destruct (length buy_orders =? 0)%nat.
  - destruct (first_price (bids prices)) as [p|e] eqn:Hp.
    + destruct (rung_then_hedge_steps "sell" (sell_hedge rate)
                  (limit_order coin "sell" p number) _ _ fuel x eq_refl
                  (call_place_order_first_price_posts (bids prices) p
                     (fun q => limit_order coin "sell" q number) Hp)
                  (call_place_order_first_price_posts (bids prices) p
                     (fun q => limit_order coin "buy" (q * (1 - rate))%float
                                 number) Hp))
        as (ph & Hs & Hd & _).
      rewrite Hp in Hs, Hd. exists ph. now split.
    + exists Poll. split; [apply steps_nil|reflexivity].
  - destruct (5 <=? length buy_orders)%nat.
    + exists Poll. split; [apply steps_nil|reflexivity].
    + destruct (first_price (bids prices)) as [current_price|e].
      * simpl lift.
        match goal with
        | |- context [bind X (ret X ?a) ?k ?y] =>
            destruct (bind_ret a k y) as (Eo & _ & Et); rewrite Eo, Et
        end.
        destruct (get_max_order_price open_orders "buy" * (1 + uprate)
                  <? current_price)%float.
        -- destruct (rung_then_hedge_steps "sell" (sell_hedge rate)
                       (limit_order coin "sell" current_price number) _ _ fuel x
                       eq_refl
                       (call_place_order_posts
                          (limit_order coin "sell" current_price number))
                       (call_place_order_posts
                          (limit_order coin "buy"
                             (current_price * (1 - rate))%float number)))
             as (ph & Hs & Hd & _).
           exists ph. now split.
        -- exists Poll. split; [apply steps_nil|reflexivity].
      * exists Poll. split; [apply steps_nil|discriminate].
Qed.

(** In [run_buy] the first placement of the seed branch is the call of
    [fc.palce_order]: the lookup fails before anything is sent. *)
Lemma palce_order_raises (args : M X order_request) (x : X) :
  call_order_method X api_place_order "palce_order" args x
  = Ran (Raised (AttributeError "palce_order")) x [].
Proof. reflexivity. Qed.

Lemma run_buy_act_steps (fuel : nat) (coin : string)
    (number rate uprate : float) (prices : orderbook)
    (open_orders sell_orders : list order) (x : X) :
  exists ph,
    steps "buy" (buy_hedge rate) Poll
      (trace_of (run_buy_act X elapse api_place_order fuel coin number rate
                   uprate prices open_orders sell_orders x)) ph /\
    (outcome_of (run_buy_act X elapse api_place_order fuel coin number rate
                   uprate prices open_orders sell_orders x) = Done tt ->
     ph = Poll).
Proof.
  unfold run_buy_act.
  destruct (length sell_orders =? 0)%nat.
  - unfold bind, attempt. rewrite palce_order_raises. simpl.
    exists Poll. split; [apply steps_nil|reflexivity].
  - destruct (5 <=? length sell_orders)%nat.
    + exists Poll. split; [apply steps_nil|reflexivity].
    + destruct (first_price (asks prices)) as [current_price|e].
      * simpl lift.
        match goal with
        | |- context [bind X (ret X ?a) ?k ?y] =>
            destruct (bind_ret a k y) as (Eo & _ & Et); rewrite Eo, Et
        end.
        destruct (current_price
                  <? get_min_order_price open_orders "sell" * (1 - uprate))%float.
        -- destruct (rung_then_hedge_steps "buy" (buy_hedge rate)
                       (limit_order coin "buy" current_price number) _ _ fuel x
                       eq_refl
                       (call_place_order_posts
                          (limit_order coin "buy" current_price number))
                       (call_place_order_posts
                          (limit_order coin "sell"
                             (current_price * (1 + rate))%float number)))
             as (ph & Hs & Hd & _).
           exists ph. now split.
        -- exists Poll. split; [apply steps_nil|reflexivity].
      * exists Poll. split; [apply steps_nil|discriminate].
Qed.

(** One iteration, by what the two reads answer. *)
Lemma run_sell_body_eval (fuel : nat) (coin : string)
    (number rate uprate : float) (x : X) :
  match api_get_prices coin (elapse 2 x) with
  | (Raise _, x1) =>
      run_sell_body X elapse api_get_prices api_get_open_orders
        api_place_order fuel coin number rate uprate x
      = Ran (Done tt) x1 [Sleep 2; GetPrices coin]
  | (Ok prices, x1) =>
      match api_get_open_orders coin x1 with
      | (Raise _, x2) =>
          run_sell_body X elapse api_get_prices api_get_open_orders
            api_place_order fuel coin number rate uprate x
          = Ran (Done tt) x2 [Sleep 2; GetPrices coin; GetOpenOrders coin]
      | (Ok open_orders, x2) =>
          forall r,
            r = run_sell_act X elapse api_place_order fuel coin number rate
                  uprate prices open_orders
                  (get_orders_of_side open_orders "buy") x2 ->
            run_sell_body X elapse api_get_prices api_get_open_orders
              api_place_order fuel coin number rate uprate x
            = Ran (outcome_of r) (state_of r)
                (Sleep 2 :: GetPrices coin :: GetOpenOrders coin :: trace_of r)
      end
  end.
Proof.
  unfold run_sell_body.
  rewrite (bind_done (sleep X elapse 2) _ x (elapse 2 x) tt [Sleep 2] eq_refl).
  destruct (api_get_prices coin (elapse 2 x)) as [[prices|e] x1] eqn:Hp.
  - destruct (api_get_open_orders coin x1) as [[open_orders|e] x2] eqn:Ho.
    + intros r ->.
      rewrite (bind_done _ _ (elapse 2 x) x2
                 (Ok (prices, open_orders,
                      get_orders_of_side open_orders "buy"))
                 [GetPrices coin; GetOpenOrders coin]); [reflexivity|].
      unfold attempt, bind, get_prices, get_open_orders, ret.
      rewrite Hp. simpl. rewrite Ho. reflexivity.
    + rewrite (bind_done _ _ (elapse 2 x) x2 (Raise e)
                 [GetPrices coin; GetOpenOrders coin]); [reflexivity|].
      unfold attempt, bind, get_prices, get_open_orders, ret.
      rewrite Hp. simpl. rewrite Ho. reflexivity.
  - rewrite (bind_done _ _ (elapse 2 x) x1 (Raise e) [GetPrices coin]);
      [reflexivity|].
    unfold attempt, bind, get_prices, get_open_orders, ret.
    rewrite Hp. reflexivity.
Qed.

Lemma run_buy_body_eval (fuel : nat) (coin : string)
    (number rate uprate : float) (x : X) :
  match api_get_prices coin (elapse 2 x) with
  | (Raise _, x1) =>
      run_buy_body X elapse api_get_prices api_get_open_orders
        api_place_order fuel coin number rate uprate x
      = Ran (Done tt) x1 [Sleep 2; GetPrices coin]
  | (Ok prices, x1) =>
      match api_get_open_orders coin x1 with
      | (Raise _, x2) =>
          run_buy_body X elapse api_get_prices api_get_open_orders
            api_place_order fuel coin number rate uprate x
          = Ran (Done tt) x2 [Sleep 2; GetPrices coin; GetOpenOrders coin]
      | (Ok open_orders, x2) =>
          forall r,
            r = run_buy_act X elapse api_place_order fuel coin number rate
                  uprate prices open_orders
                  (get_orders_of_side open_orders "sell") x2 ->
            run_buy_body X elapse api_get_prices api_get_open_orders
              api_place_order fuel coin number rate uprate x
            = Ran (outcome_of r) (state_of r)
                (Sleep 2 :: GetPrices coin :: GetOpenOrders coin :: trace_of r)
      end
  end.
Proof.
  unfold run_buy_body.
  rewrite (bind_done (sleep X elapse 2) _ x (elapse 2 x) tt [Sleep 2] eq_refl).
  destruct (api_get_prices coin (elapse 2 x)) as [[prices|e] x1] eqn:Hp.
  - destruct (api_get_open_orders coin x1) as [[open_orders|e] x2] eqn:Ho.
    + intros r ->.
      rewrite (bind_done _ _ (elapse 2 x) x2
                 (Ok (prices, open_orders,
                      get_orders_of_side open_orders "sell"))
                 [GetPrices coin; GetOpenOrders coin]); [reflexivity|].
      unfold attempt, bind, get_prices, get_open_orders, ret.
      rewrite Hp. simpl. rewrite Ho. reflexivity.
    + rewrite (bind_done _ _ (elapse 2 x) x2 (Raise e)
                 [GetPrices coin; GetOpenOrders coin]); [reflexivity|].
      unfold attempt, bind, get_prices, get_open_orders, ret.
      rewrite Hp. simpl. rewrite Ho. reflexivity.
  - rewrite (bind_done _ _ (elapse 2 x) x1 (Raise e) [GetPrices coin]);
      [reflexivity|].
    unfold attempt, bind, get_prices, get_open_orders, ret.
    rewrite Hp. reflexivity.
Qed.

Lemma polling_steps (side : string) (hedge_of : order_request -> order_request)
    (coin : string) (tr : list event) (ph : phase) :
  steps side hedge_of Poll tr ph ->
  steps side hedge_of Poll
    (Sleep 2 :: GetPrices coin :: GetOpenOrders coin :: tr) ph.
Proof.
  intros H.
  eapply steps_cons; [apply step_sleep|].
  eapply steps_cons; [apply step_get_prices|].
  eapply steps_cons; [apply step_get_open_orders|exact H].
Qed.

Lemma run_sell_body_steps (fuel : nat) (coin : string)
    (number rate uprate : float) (x : X) :
  exists ph,
    steps "sell" (sell_hedge rate) Poll
      (trace_of (run_sell_body X elapse api_get_prices api_get_open_orders
                   api_place_order fuel coin number rate uprate x)) ph /\
    (outcome_of (run_sell_body X elapse api_get_prices api_get_open_orders
                   api_place_order fuel coin number rate uprate x) = Done tt ->
     ph = Poll).
Proof.
  pose proof (run_sell_body_eval fuel coin number rate uprate x) as E.
  destruct (api_get_prices coin (elapse 2 x)) as [[prices|e] x1].
  - destruct (api_get_open_orders coin x1) as [[open_orders|e] x2].
    + rewrite (E _ eq_refl). simpl.
      destruct (run_sell_act_steps fuel coin number rate uprate prices
                  open_orders (get_orders_of_side open_orders "buy") x2)
        as (ph & Hs & Hd).
      exists ph. split; [now apply polling_steps|exact Hd].
    + rewrite E. exists Poll. split; [|reflexivity].
      apply polling_steps, steps_nil.
  - rewrite E. exists Poll. split; [|reflexivity].
    eapply steps_cons; [apply step_sleep|].
    eapply steps_cons; [apply step_get_prices|apply steps_nil].
Qed.

Lemma run_buy_body_steps (fuel : nat) (coin : string)
    (number rate uprate : float) (x : X) :
  exists ph,
    steps "buy" (buy_hedge rate) Poll
      (trace_of (run_buy_body X elapse api_get_prices api_get_open_orders
                   api_place_order fuel coin number rate uprate x)) ph /\
    (outcome_of (run_buy_body X elapse api_get_prices api_get_open_orders
                   api_place_order fuel coin number rate uprate x) = Done tt ->
     ph = Poll).
Proof.
  pose proof (run_buy_body_eval fuel coin number rate uprate x) as E.
  destruct (api_get_prices coin (elapse 2 x)) as [[prices|e] x1].
  - destruct (api_get_open_orders coin x1) as [[open_orders|e] x2].
    + rewrite (E _ eq_refl). simpl.
      destruct (run_buy_act_steps fuel coin number rate uprate prices
                  open_orders (get_orders_of_side open_orders "sell") x2)
        as (ph & Hs & Hd).
      exists ph. split; [now apply polling_steps|exact Hd].
    + rewrite E. exists Poll. split; [|reflexivity].
      apply polling_steps, steps_nil.
  - rewrite E. exists Poll. split; [|reflexivity].
    eapply steps_cons; [apply step_sleep|].
    eapply steps_cons; [apply step_get_prices|apply steps_nil].
Qed.

Lemma attempt_eval {A : Type} (c : M X A) (x x' : X) (o : outcome A)
    (t : list event) :
  c x = Ran o x' t ->
  attempt X c x
  = Ran (match o with
         | Done a => Done (Ok a)
         | Raised e => Done (Raise e)
         | OutOfFuel => OutOfFuel
         end) x' t.
Proof. intros H. unfold attempt. rewrite H. destruct o; reflexivity. Qed.

(** Inside the retry loop of [h] nothing but [h] is posted. *)
Lemma retry_until_placed_events (h : order_request) (c : M X unit) :
  posts X h c ->
  forall (fuel : nat) (x : X) (e : event),
    e ∈ trace_of (retry_until_placed X elapse fuel c x) ->
    e = PlaceOrder h true \/ e = PlaceOrder h false \/ e = Sleep 1.
Proof.
  intros Hc. induction fuel as [|fuel IH]; intros x e He.
  - inversion He.
  - simpl in He. destruct (Hc x) as (x' & [Hx|(e' & Hx)]).
    + rewrite (bind_done _ _ x x' (Ok tt) [PlaceOrder h true]) in He
        by (now rewrite (attempt_eval _ _ _ _ _ Hx)).
      simpl in He. apply list_elem_of_singleton in He. now left.
    + rewrite (bind_done _ _ x x' (Raise e') [PlaceOrder h false]) in He
        by (now rewrite (attempt_eval _ _ _ _ _ Hx)).
      rewrite (bind_done (sleep X elapse 1) _ x' (elapse 1 x') tt [Sleep 1]
                 eq_refl) in He.
      simpl in He. apply elem_of_cons in He as [->|He]; [right; now left|].
      apply elem_of_cons in He as [->|He]; [right; now right|].
      now apply (IH (elapse 1 x')).
Qed.

(** The retry loop starts by posting [h]. *)
Lemma retry_until_placed_starts (h : order_request) (c : M X unit) :
  posts X h c ->
  forall (fuel : nat) (x : X),
    exists ok rest,
      trace_of (retry_until_placed X elapse (S fuel) c x)
      = PlaceOrder h ok :: rest.
Proof.
  intros Hc fuel x. simpl. destruct (Hc x) as (x' & [Hx|(e' & Hx)]).
  - rewrite (bind_done _ _ x x' (Ok tt) [PlaceOrder h true])
      by (now rewrite (attempt_eval _ _ _ _ _ Hx)).
    now exists true, [].
  - rewrite (bind_done _ _ x x' (Raise e') [PlaceOrder h false])
      by (now rewrite (attempt_eval _ _ _ _ _ Hx)).
    simpl. eauto.
Qed.

(** A rung attempt and its retry loop: the events they can emit. *)
Lemma rung_then_hedge_events (rq h : order_request) (c hedge : M X unit)
    (fuel : nat) (x : X) (e : event) :
  posts X rq c -> posts X h hedge ->
  e ∈ trace_of
        (bind X (attempt X c)
           (fun r => match r with
                     | Raise _ => ret X tt
                     | Ok _ => retry_until_placed X elapse fuel hedge
                     end) x) ->
  is_placement e = true ->
  (exists ok, e = PlaceOrder rq ok) \/ (exists ok, e = PlaceOrder h ok).
Proof.
  intros Hc Hh He Hp. destruct (Hc x) as (x' & [Hx|(e' & Hx)]).
  - rewrite (bind_done _ _ x x' (Ok tt) [PlaceOrder rq true]) in He
      by (now rewrite (attempt_eval _ _ _ _ _ Hx)).
    simpl in He. apply elem_of_cons in He as [->|He]; [left; eauto|].
    apply (retry_until_placed_events h hedge Hh) in He as [-> | [-> | ->]];
      [right; eauto|right; eauto|discriminate].
  - rewrite (bind_done _ _ x x' (Raise e') [PlaceOrder rq false]) in He
      by (now rewrite (attempt_eval _ _ _ _ _ Hx)).
    simpl in He. apply list_elem_of_singleton in He. left. eauto.
Qed.

Lemma run_sell_act_places (fuel : nat) (coin : string)
    (number rate uprate : float) (prices : orderbook)
    (open_orders buy_orders : list order) (x : X) (rq : order_request)
    (ok : bool) :
  PlaceOrder rq ok
    ∈ trace_of (run_sell_act X elapse api_place_order fuel coin number rate
                  uprate prices open_orders buy_orders x) ->
  length buy_orders < 5 /\
  (length buy_orders = 0 \/
   exists current_price,
     first_price (bids prices) = Ok current_price /\
     (get_max_order_price open_orders "buy" * (1 + uprate)
      <? current_price)%float = true).
Proof.
  unfold run_sell_act. intros H.
  destruct (Nat.eqb_spec (length buy_orders) 0) as [E|E]; [split; [lia|now left]|].
  destruct (Nat.leb_spec 5 (length buy_orders)) as [E5|E5]; [inversion H|].
  split; [exact E5|]. right.
  destruct (first_price (bids prices)) as [current_price|e]; [|inversion H].
  simpl lift in H.
  match type of H with
  | context [bind X (ret X ?a) ?k ?y] =>
      destruct (bind_ret a k y) as (_ & _ & Et); rewrite Et in H
  end.
  destruct (get_max_order_price open_orders "buy" * (1 + uprate)
            <? current_price)%float eqn:Hlt; [|inversion H].
  exists current_price. split; [reflexivity|exact Hlt].
Qed.

Lemma run_buy_act_places (fuel : nat) (coin : string)
    (number rate uprate : float) (prices : orderbook)
    (open_orders sell_orders : list order) (x : X) (rq : order_request)
    (ok : bool) :
  PlaceOrder rq ok
    ∈ trace_of (run_buy_act X elapse api_place_order fuel coin number rate
                  uprate prices open_orders sell_orders x) ->
  length sell_orders < 5 /\
  (length sell_orders = 0 \/
   exists current_price,
     first_price (asks prices) = Ok current_price /\
     (current_price
      <? get_min_order_price open_orders "sell" * (1 - uprate))%float = true).
Proof.
  unfold run_buy_act. intros H.
  destruct (Nat.eqb_spec (length sell_orders) 0) as [E|E]; [split; [lia|now left]|].
  destruct (Nat.leb_spec 5 (length sell_orders)) as [E5|E5]; [inversion H|].
  split; [exact E5|]. right.
  destruct (first_price (asks prices)) as [current_price|e]; [|inversion H].
  simpl lift in H.
  match type of H with
  | context [bind X (ret X ?a) ?k ?y] =>
      destruct (bind_ret a k y) as (_ & _ & Et); rewrite Et in H
  end.
  destruct (current_price
            <? get_min_order_price open_orders "sell" * (1 - uprate))%float
    eqn:Hlt; [|inversion H].
  exists current_price. split; [reflexivity|exact Hlt].
Qed.

(** C1, as the code has it: the orders an iteration counts are the open
    orders of the counter side ([buy] orders in [run_sell], [sell] orders in
    [run_buy]); an iteration that places anything has read fewer than 5 of
    them, and either none at all (the seed branch) or a best price beyond
    the trigger threshold. *)
Theorem placements_need_room_on_counter_side (fuel : nat) (coin : string)
    (number rate uprate : float) (x : X) :
  (forall rq ok,
      PlaceOrder rq ok
        ∈ trace_of (run_sell_body X elapse api_get_prices api_get_open_orders
                      api_place_order fuel coin number rate uprate x) ->
      exists prices open_orders x1 x2,
        api_get_prices coin (elapse 2 x) = (Ok prices, x1) /\
        api_get_open_orders coin x1 = (Ok open_orders, x2) /\
        (forall o, o ∈ get_orders_of_side open_orders "buy"
                   <-> o ∈ open_orders /\ o_side o = "buy") /\
        length (get_orders_of_side open_orders "buy") < 5 /\
        (length (get_orders_of_side open_orders "buy") = 0 \/
         exists current_price,
           first_price (bids prices) = Ok current_price /\
           (get_max_order_price open_orders "buy" * (1 + uprate)
            <? current_price)%float = true)) /\
  (forall rq ok,
      PlaceOrder rq ok
        ∈ trace_of (run_buy_body X elapse api_get_prices api_get_open_orders
                      api_place_order fuel coin number rate uprate x) ->
      exists prices open_orders x1 x2,
        api_get_prices coin (elapse 2 x) = (Ok prices, x1) /\
        api_get_open_orders coin x1 = (Ok open_orders, x2) /\
        (forall o, o ∈ get_orders_of_side open_orders "sell"
                   <-> o ∈ open_orders /\ o_side o = "sell") /\
        length (get_orders_of_side open_orders "sell") < 5 /\
        (length (get_orders_of_side open_orders "sell") = 0 \/
         exists current_price,
           first_price (asks prices) = Ok current_price /\
           (current_price
            <? get_min_order_price open_orders "sell" * (1 - uprate))%float
           = true)).
Proof.
  split; intros rq ok H.
  - pose proof (run_sell_body_eval fuel coin number rate uprate x) as E.
    destruct (api_get_prices coin (elapse 2 x)) as [[prices|e] x1].
    + destruct (api_get_open_orders coin x1) as [[open_orders|e] x2] eqn:Ho.
      * rewrite (E _ eq_refl) in H. simpl in H.
        repeat (apply elem_of_cons in H as [H|H]; [discriminate|]).
        apply run_sell_act_places in H as [H5 Hc].
        exists prices, open_orders, x1, x2.
        split; [reflexivity|]. split; [exact Ho|].
        split; [intros o; apply get_orders_of_side_spec|]. now split.
      * rewrite E in H. simpl in H.
        repeat (apply elem_of_cons in H as [H|H]; [discriminate|]).
        inversion H.
    + rewrite E in H. simpl in H.
      repeat (apply elem_of_cons in H as [H|H]; [discriminate|]).
      inversion H.
  - pose proof (run_buy_body_eval fuel coin number rate uprate x) as E.
    destruct (api_get_prices coin (elapse 2 x)) as [[prices|e] x1].
    + destruct (api_get_open_orders coin x1) as [[open_orders|e] x2] eqn:Ho.
      * rewrite (E _ eq_refl) in H. simpl in H.
        repeat (apply elem_of_cons in H as [H|H]; [discriminate|]).
        apply run_buy_act_places in H as [H5 Hc].
        exists prices, open_orders, x1, x2.
        split; [reflexivity|]. split; [exact Ho|].
        split; [intros o; apply get_orders_of_side_spec|]. now split.
      * rewrite E in H. simpl in H.
        repeat (apply elem_of_cons in H as [H|H]; [discriminate|]).
        inversion H.
    + rewrite E in H. simpl in H.
      repeat (apply elem_of_cons in H as [H|H]; [discriminate|]).
      inversion H.
Qed.

(** With no sell order read, [run_buy] posts nothing. *)
Lemma run_buy_act_without_sell_orders (fuel : nat) (coin : string)
    (number rate uprate : float) (prices : orderbook)
    (open_orders : list order) (x : X) :
  run_buy_act X elapse api_place_order fuel coin number rate uprate prices
    open_orders [] x
  = Ran (Done tt) x [].
Proof.
  unfold run_buy_act.
  change (length (@nil order) =? 0)%nat with true. cbv iota.
  unfold bind, attempt. rewrite palce_order_raises. reflexivity.
Qed.

(** C3, the seed branch of [run_buy]: when the reads succeed and show no
    sell order, the iteration posts nothing, whatever the book and the
    exchange: the call of [fc.palce_order] raises [AttributeError], which
    the [except] swallows.  [run_sell] in the mirrored situation posts a
    sell at the best bid. *)
Theorem run_buy_seed_places_nothing (fuel : nat) (coin : string)
    (number rate uprate : float) (prices : orderbook)
    (open_orders : list order) (x : X) :
  run_buy_act X elapse api_place_order fuel coin number rate uprate prices
    open_orders [] x
  = Ran (Done tt) x [] /\
  forall p,
    first_price (bids prices) = Ok p ->
    exists ok rest,
      trace_of (run_sell_act X elapse api_place_order fuel coin number rate
                  uprate prices open_orders [] x)
      = PlaceOrder (limit_order coin "sell" p number) ok :: rest.
Proof.
  split; [apply run_buy_act_without_sell_orders|].
  intros p Hp. unfold run_sell_act.
  change (length (@nil order) =? 0)%nat with true. cbv iota.
  destruct (call_place_order_first_price_posts (bids prices) p
              (fun q => limit_order coin "sell" q number) Hp x)
    as (x' & [Hx|(e & Hx)]).
  - rewrite (bind_done _ _ x x' (Ok tt)
               [PlaceOrder (limit_order coin "sell" p number) true])
      by (now rewrite (attempt_eval _ _ _ _ _ Hx)).
    simpl. eauto.
  - rewrite (bind_done _ _ x x' (Raise e)
               [PlaceOrder (limit_order coin "sell" p number) false])
      by (now rewrite (attempt_eval _ _ _ _ _ Hx)).
    simpl. eauto.
Qed.

Lemma bind_ret_eq {A B : Type} (a : A) (k : A -> M X B) (x : X) :
  bind X (ret X a) k x
  = Ran (outcome_of (k a x)) (state_of (k a x)) (trace_of (k a x)).
Proof. reflexivity. Qed.

(** C5, as the code has it: in [run_sell], with between 1 and 4 buy orders
    open (at positive prices) and a best bid in the book, the anchor is the
    highest price among the open buy orders; the iteration posts a sell at
    the best bid exactly when the best bid is strictly above the anchor
    times [1 + uprate], and an accepted sell is followed by the buy at the
    best bid times [1 - rate]. *)
Theorem sell_rung_trigger (fuel : nat) (coin : string)
    (number rate uprate : float) (prices : orderbook)
    (open_orders : list order) (current_price : float) (x : X)
    (Hopen : 0 < length (get_orders_of_side open_orders "buy") < 5)
    (Hbid : first_price (bids prices) = Ok current_price)
    (Hpos : forall o, o ∈ open_orders -> o_side o = "buy" ->
                      (0 <? o_price o)%float = true) :
  (exists o, o ∈ open_orders /\ o_side o = "buy" /\
             o_price o = get_max_order_price open_orders "buy") /\
  (forall o, o ∈ open_orders -> o_side o = "buy" ->
             (get_max_order_price open_orders "buy" <? o_price o)%float = false) /\
  ((get_max_order_price open_orders "buy" * (1 + uprate) <? current_price)%float
   = false ->
   run_sell_act X elapse api_place_order (S fuel) coin number rate uprate
     prices open_orders (get_orders_of_side open_orders "buy") x
   = Ran (Done tt) x []) /\
  ((get_max_order_price open_orders "buy" * (1 + uprate) <? current_price)%float
   = true ->
   exists ok rest,
     trace_of (run_sell_act X elapse api_place_order (S fuel) coin number rate
                 uprate prices open_orders
                 (get_orders_of_side open_orders "buy") x)
     = PlaceOrder (limit_order coin "sell" current_price number) ok :: rest /\
     (ok = false -> rest = []) /\
     (ok = true ->
      exists ok' rest',
        rest = PlaceOrder (limit_order coin "buy"
                             (current_price * (1 - rate))%float number) ok'
               :: rest')).
Proof.
  assert (Hsome : exists o, o ∈ open_orders /\ o_side o = "buy" /\
                            (0 <? o_price o)%float = true).
  { destruct (get_orders_of_side open_orders "buy") as [|o l] eqn:E;
      [simpl in Hopen; lia|].
    assert (Hin : o ∈ get_orders_of_side open_orders "buy") by (rewrite E; left).
    apply get_orders_of_side_spec in Hin as [Hin Hside].
    exists o. split; [exact Hin|]. split; [exact Hside|now apply Hpos]. }
  destruct (get_max_order_price_is_max open_orders "buy" Hsome) as [Hmem Hmax].
  split; [exact Hmem|]. split; [exact Hmax|].
  assert (E0 : (length (get_orders_of_side open_orders "buy") =? 0)%nat = false)
    by (apply Nat.eqb_neq; lia).
  assert (E5 : (5 <=? length (get_orders_of_side open_orders "buy"))%nat = false)
    by (apply Nat.leb_gt; lia).
  unfold run_sell_act. rewrite E0, E5, Hbid. simpl lift.
  rewrite bind_ret_eq. split; intros Hlt; rewrite Hlt.
  - reflexivity.
  - destruct (call_place_order_posts
                (limit_order coin "sell" current_price number) x)
      as (x' & [Hx|(e & Hx)]).
    + rewrite (bind_done _ _ x x' (Ok tt)
                 [PlaceOrder (limit_order coin "sell" current_price number) true])
        by (now rewrite (attempt_eval _ _ _ _ _ Hx)).
      destruct (retry_until_placed_starts _ _
                  (call_place_order_posts
                     (limit_order coin "buy" (current_price * (1 - rate))%float
                        number)) fuel x') as (ok' & rest' & Hr).
      exists true. eexists. split; [simpl; reflexivity|].
      split; [discriminate|]. intros _. exists ok', rest'. exact Hr.
    + rewrite (bind_done _ _ x x' (Raise e)
                 [PlaceOrder (limit_order coin "sell" current_price number) false])
        by (now rewrite (attempt_eval _ _ _ _ _ Hx)).
      exists false, []. split; [reflexivity|]. split; [reflexivity|discriminate].
Qed.

Lemma ran_eta {A : Type} (r : ran X A) :
  Ran (outcome_of r) (state_of r) (trace_of r) = r.
Proof. now destruct r. Qed.

Lemma bind_ret_run {A B : Type} (a : A) (k : A -> M X B) (x : X) :
  bind X (ret X a) k x = k a x.
Proof. rewrite bind_ret_eq. apply ran_eta. Qed.

(** C9: on a list with no order of the side, [get_max_order_price] answers
    0.0 and [get_min_order_price] 999999; and an iteration of either loop
    that reads no open order of its counter side does not compute the
    anchor at all: put any computation in the place of the helper's call,
    whatever it answers or does, and the iteration is the one of the code,
    so that no order it posts is owed to the sentinel.  (With the helper
    itself in that place the iteration is the code's on every input.) *)
Theorem sentinel_anchor_unused (fuel : nat) (coin : string)
    (number rate uprate : float) (prices : orderbook)
    (open_orders : list order) (x : X) :
  (forall side,
      (forall o, o ∈ open_orders -> o_side o <> side) ->
      get_max_order_price open_orders side = 0%float /\
      get_min_order_price open_orders side = 999999%float) /\
  (forall counter_orders,
      Variants.run_sell_act_with X elapse api_place_order
        (fun orders side => ret X (get_max_order_price orders side))
        fuel coin number rate uprate prices open_orders counter_orders x
      = run_sell_act X elapse api_place_order fuel coin number rate uprate
          prices open_orders counter_orders x /\
      Variants.run_buy_act_with X elapse api_place_order
        (fun orders side => ret X (get_min_order_price orders side))
        fuel coin number rate uprate prices open_orders counter_orders x
      = run_buy_act X elapse api_place_order fuel coin number rate uprate
          prices open_orders counter_orders x) /\
  ((forall o, o ∈ open_orders -> o_side o <> "buy") ->
   forall anchor,
     Variants.run_sell_act_with X elapse api_place_order anchor
       fuel coin number rate uprate prices open_orders
       (get_orders_of_side open_orders "buy") x
     = run_sell_act X elapse api_place_order fuel coin number rate uprate
         prices open_orders (get_orders_of_side open_orders "buy") x) /\
  ((forall o, o ∈ open_orders -> o_side o <> "sell") ->
   forall anchor,
     Variants.run_buy_act_with X elapse api_place_order anchor
       fuel coin number rate uprate prices open_orders
       (get_orders_of_side open_orders "sell") x
     = run_buy_act X elapse api_place_order fuel coin number rate uprate
         prices open_orders (get_orders_of_side open_orders "sell") x).
Proof.
  split; [|split; [|split]].
  - intros side H. split.
    + now apply get_max_order_price_sentinel.
    + now apply get_min_order_price_sentinel.
  - intros counter_orders. split.
    + unfold Variants.run_sell_act_with, run_sell_act.
      destruct (length counter_orders =? 0)%nat; [reflexivity|].
      destruct (5 <=? length counter_orders)%nat; [reflexivity|].
      destruct (first_price (bids prices)) as [p|e]; [|reflexivity].
      simpl lift. rewrite !bind_ret_run. reflexivity.
    + unfold Variants.run_buy_act_with, run_buy_act.
      destruct (length counter_orders =? 0)%nat; [reflexivity|].
      destruct (5 <=? length counter_orders)%nat; [reflexivity|].
      destruct (first_price (asks prices)) as [p|e]; [|reflexivity].
      simpl lift. rewrite !bind_ret_run. reflexivity.
  - intros H anchor. rewrite (proj2 (get_orders_of_side_nil _ _) H). reflexivity.
  - intros H anchor. rewrite (proj2 (get_orders_of_side_nil _ _) H). reflexivity.
Qed.

Lemma attempt_done {A : Type} (c : M X A) (x x' : X) (a : A)
    (t : list event) :
  c x = Ran (Done a) x' t -> attempt X c x = Ran (Done (Ok a)) x' t.
Proof. intros H. unfold attempt. now rewrite H. Qed.

Lemma attempt_raised {A : Type} (c : M X A) (x x' : X) (e : exn)
    (t : list event) :
  c x = Ran (Raised e) x' t -> attempt X c x = Ran (Done (Raise e)) x' t.
Proof. intros H. unfold attempt. now rewrite H. Qed.

Lemma place_order_eval (h : order_request) (x : X) :
  place_order X api_place_order h x
  = match fst (api_place_order h x) with
    | Ok _ => Ran (Done tt) (snd (api_place_order h x)) [PlaceOrder h true]
    | Raise e => Ran (Raised e) (snd (api_place_order h x)) [PlaceOrder h false]
    end.
Proof.
  unfold place_order. destruct (api_place_order h x) as [[[]|e] x']; reflexivity.
Qed.

Lemma call_place_order_eval (h : order_request) (x : X) :
  call_order_method X api_place_order "place_order" (ret X h) x
  = place_order X api_place_order h x.
Proof.
  unfold call_order_method.
  change (bool_decide ("place_order" ∈ FtxClient_attrs)) with true.
  cbn [String.eqb Ascii.eqb Bool.eqb andb].
  unfold bind, ret. simpl.
  now destruct (place_order X api_place_order h x).
Qed.

Lemma call_place_order_first_price_eval (levels : list (float * float))
    (p : float) (mk : float -> order_request) (x : X) :
  first_price levels = Ok p ->
  call_order_method X api_place_order "place_order"
    (bind X (lift X (first_price levels)) (fun q => ret X (mk q))) x
  = place_order X api_place_order (mk p) x.
Proof.
  intros Hp. rewrite Hp. unfold call_order_method.
  change (bool_decide ("place_order" ∈ FtxClient_attrs)) with true.
  cbn [String.eqb Ascii.eqb Bool.eqb andb].
  unfold bind, ret, lift. simpl.
  now destruct (place_order X api_place_order (mk p) x).
Qed.

(** The retry loop of [h] against an exchange that rejects its first [k]
    attempts: it is still retrying while the budget is at most [k], and it
    ends with the first accepted attempt. *)
Lemma retry_until_placed_exact (h : order_request) (c : M X unit)
    (Hc : forall x, c x = place_order X api_place_order h x) (k : nat) :
  forall (x : X) (fuel : nat),
    (forall i, i < k ->
               exists e, fst (api_place_order h
                                (Variants.hedge_state X elapse api_place_order
                                   h i x)) = Raise e) ->
    (fuel <= k ->
     retry_until_placed X elapse fuel c x
     = Ran OutOfFuel (Variants.hedge_state X elapse api_place_order h fuel x)
         (mjoin (replicate fuel [PlaceOrder h false; Sleep 1]))) /\
    (k < fuel ->
     fst (api_place_order h
            (Variants.hedge_state X elapse api_place_order h k x)) = Ok tt ->
     retry_until_placed X elapse fuel c x
     = Ran (Done tt)
         (snd (api_place_order h
                 (Variants.hedge_state X elapse api_place_order h k x)))
         (mjoin (replicate k [PlaceOrder h false; Sleep 1])
            ++ [PlaceOrder h true])%list).
Proof.
  induction k as [|k IH]; intros x fuel Hrej.
  - split.
    + intros Hf. assert (fuel = 0) as -> by lia. reflexivity.
    + intros Hf Hok. destruct fuel as [|fuel]; [lia|]. simpl in *.
      rewrite (bind_done _ _ x (snd (api_place_order h x)) (Ok tt)
                 [PlaceOrder h true]); [reflexivity|].
      apply attempt_done. rewrite Hc, place_order_eval, Hok. reflexivity.
  - destruct (Hrej 0) as [e He]; [lia|]. simpl in He.
    assert (Hstep : forall fuel',
      retry_until_placed X elapse (S fuel') c x
      = Ran (outcome_of (retry_until_placed X elapse fuel' c
                           (elapse 1 (snd (api_place_order h x)))))
          (state_of (retry_until_placed X elapse fuel' c
                       (elapse 1 (snd (api_place_order h x)))))
          (PlaceOrder h false :: Sleep 1
             :: trace_of (retry_until_placed X elapse fuel' c
                            (elapse 1 (snd (api_place_order h x)))))).
    { intros fuel'. simpl.
      rewrite (bind_done _ _ x (snd (api_place_order h x)) (Raise e)
                 [PlaceOrder h false])
        by (apply attempt_raised; rewrite Hc, place_order_eval, He; reflexivity).
      rewrite (bind_done (sleep X elapse 1) _ (snd (api_place_order h x))
                 (elapse 1 (snd (api_place_order h x))) tt [Sleep 1] eq_refl).
      reflexivity. }
    destruct (IH (elapse 1 (snd (api_place_order h x)))) with (fuel := pred fuel)
      as [Ha Hb].
    { intros i Hi. apply (Hrej (S i)). lia. }
    split.
    + intros Hf. destruct fuel as [|fuel]; [reflexivity|].
      rewrite Hstep. simpl in Ha. rewrite Ha by lia. reflexivity.
    + intros Hf Hok. destruct fuel as [|fuel]; [lia|].
      rewrite Hstep. simpl in Hb, Hok. rewrite Hb by (lia || exact Hok).
      reflexivity.
Qed.

(** An accepted rung and the retry loop of its counter-order. *)
Lemma rung_then_hedge_exact (rung h : order_request) (c hedge : M X unit)
    (fuel k : nat) (x x0 : X) :
  c x = Ran (Done tt) x0 [PlaceOrder rung true] ->
  (forall y, hedge y = place_order X api_place_order h y) ->
  (forall i, i < k ->
             exists e, fst (api_place_order h
                              (Variants.hedge_state X elapse api_place_order
                                 h i x0)) = Raise e) ->
  (fuel <= k ->
   bind X (attempt X c)
     (fun r => match r with
               | Raise _ => ret X tt
               | Ok _ => retry_until_placed X elapse fuel hedge
               end) x
   = Ran OutOfFuel (Variants.hedge_state X elapse api_place_order h fuel x0)
       (PlaceOrder rung true
          :: mjoin (replicate fuel [PlaceOrder h false; Sleep 1]))) /\
  (k < fuel ->
   fst (api_place_order h
          (Variants.hedge_state X elapse api_place_order h k x0)) = Ok tt ->
   bind X (attempt X c)
     (fun r => match r with
               | Raise _ => ret X tt
               | Ok _ => retry_until_placed X elapse fuel hedge
               end) x
   = Ran (Done tt)
       (snd (api_place_order h
               (Variants.hedge_state X elapse api_place_order h k x0)))
       (PlaceOrder rung true
          :: mjoin (replicate k [PlaceOrder h false; Sleep 1])
          ++ [PlaceOrder h true])%list).
Proof.
  intros Hx Hh Hrej.
  destruct (retry_until_placed_exact h hedge Hh k x0 fuel Hrej) as [Ha Hb].
  rewrite (bind_done _ _ x x0 (Ok tt) [PlaceOrder rung true])
    by (apply attempt_done; exact Hx).
  split.
  - intros Hf. rewrite (Ha Hf). reflexivity.
  - intros Hf Hok. rewrite (Hb Hf Hok). reflexivity.
Qed.

(** C2: (1) in every run of either loop, whatever the exchange answers and
    however long the run, the trace has the shape in which an accepted
    rung is followed by nothing but attempts at its counter-order (the
    opposite side, the rung price times [1 - rate] in [run_sell] and
    [1 + rate] in [run_buy], the same size), each rejected attempt by a
    sleep of 1 and the next attempt, and polling, reading or a new rung
    only come after an accepted attempt.  (2) The attempts do follow: when
    an iteration's rung is accepted and the exchange then rejects the
    counter-order [k] times, the iteration posts the rung, then the
    counter-order [k] times with a sleep of 1 after each, is still in the
    loop while its budget is at most [k], and leaves it with the first
    accepted attempt, having done nothing else.  This is shown for both
    branches of [run_sell] and for the rung branch of [run_buy], whose
    seed branch has no accepted rung. *)
Theorem hedge_follows_every_rung (fuel : nat) (coin : string)
    (number rate uprate : float) (x : X) :
  (exists ph,
      steps "sell" (sell_hedge rate) Poll
        (trace_of (run_sell X elapse api_get_prices api_get_open_orders
                     api_place_order fuel coin number rate uprate x)) ph) /\
  (exists ph,
      steps "buy" (buy_hedge rate) Poll
        (trace_of (run_buy X elapse api_get_prices api_get_open_orders
                     api_place_order fuel coin number rate uprate x)) ph) /\
  (forall (prices : orderbook) (open_orders buy_orders : list order)
          (p : float) (x0 : X) (k : nat),
      first_price (bids prices) = Ok p ->
      length buy_orders = 0 \/
      (length buy_orders < 5 /\
       (get_max_order_price open_orders "buy" * (1 + uprate) <? p)%float = true) ->
      api_place_order (limit_order coin "sell" p number) x = (Ok tt, x0) ->
      (forall i, i < k ->
         exists e,
           fst (api_place_order
                  (limit_order coin "buy" (p * (1 - rate))%float number)
                  (Variants.hedge_state X elapse api_place_order
                     (limit_order coin "buy" (p * (1 - rate))%float number)
                     i x0)) = Raise e) ->
      (fuel <= k ->
       run_sell_act X elapse api_place_order fuel coin number rate uprate
         prices open_orders buy_orders x
       = Ran OutOfFuel
           (Variants.hedge_state X elapse api_place_order
              (limit_order coin "buy" (p * (1 - rate))%float number) fuel x0)
           (PlaceOrder (limit_order coin "sell" p number) true
              :: mjoin (replicate fuel
                          [PlaceOrder
                             (limit_order coin "buy" (p * (1 - rate))%float
                                number) false;
                           Sleep 1]))) /\
      (k < fuel ->
       fst (api_place_order
              (limit_order coin "buy" (p * (1 - rate))%float number)
              (Variants.hedge_state X elapse api_place_order
                 (limit_order coin "buy" (p * (1 - rate))%float number)
                 k x0)) = Ok tt ->
       run_sell_act X elapse api_place_order fuel coin number rate uprate
         prices open_orders buy_orders x
       = Ran (Done tt)
           (snd (api_place_order
                   (limit_order coin "buy" (p * (1 - rate))%float number)
                   (Variants.hedge_state X elapse api_place_order
                      (limit_order coin "buy" (p * (1 - rate))%float number)
                      k x0)))
           (PlaceOrder (limit_order coin "sell" p number) true
              :: mjoin (replicate k
                          [PlaceOrder
                             (limit_order coin "buy" (p * (1 - rate))%float
                                number) false;
                           Sleep 1])
              ++ [PlaceOrder
                    (limit_order coin "buy" (p * (1 - rate))%float number)
                    true])%list)) /\
  (forall (prices : orderbook) (open_orders sell_orders : list order)
          (p : float) (x0 : X) (k : nat),
      first_price (asks prices) = Ok p ->
      0 < length sell_orders < 5 ->
      (p <? get_min_order_price open_orders "sell" * (1 - uprate))%float = true ->
      api_place_order (limit_order coin "buy" p number) x = (Ok tt, x0) ->
      (forall i, i < k ->
         exists e,
           fst (api_place_order
                  (limit_order coin "sell" (p * (1 + rate))%float number)
                  (Variants.hedge_state X elapse api_place_order
                     (limit_order coin "sell" (p * (1 + rate))%float number)
                     i x0)) = Raise e) ->
      (fuel <= k ->
       run_buy_act X elapse api_place_order fuel coin number rate uprate
         prices open_orders sell_orders x
       = Ran OutOfFuel
           (Variants.hedge_state X elapse api_place_order
              (limit_order coin "sell" (p * (1 + rate))%float number) fuel x0)
           (PlaceOrder (limit_order coin "buy" p number) true
              :: mjoin (replicate fuel
                          [PlaceOrder
                             (limit_order coin "sell" (p * (1 + rate))%float
                                number) false;
                           Sleep 1]))) /\
      (k < fuel ->
       fst (api_place_order
              (limit_order coin "sell" (p * (1 + rate))%float number)
              (Variants.hedge_state X elapse api_place_order
                 (limit_order coin "sell" (p * (1 + rate))%float number)
                 k x0)) = Ok tt ->
       run_buy_act X elapse api_place_order fuel coin number rate uprate
         prices open_orders sell_orders x
       = Ran (Done tt)
           (snd (api_place_order
                   (limit_order coin "sell" (p * (1 + rate))%float number)
                   (Variants.hedge_state X elapse api_place_order
                      (limit_order coin "sell" (p * (1 + rate))%float number)
                      k x0)))
           (PlaceOrder (limit_order coin "buy" p number) true
              :: mjoin (replicate k
                          [PlaceOrder
                             (limit_order coin "sell" (p * (1 + rate))%float
                                number) false;
                           Sleep 1])
              ++ [PlaceOrder
                    (limit_order coin "sell" (p * (1 + rate))%float number)
                    true])%list)).
Proof.
  assert (Hsafe :
    (exists ph,
        steps "sell" (sell_hedge rate) Poll
          (trace_of (run_sell X elapse api_get_prices api_get_open_orders
                       api_place_order fuel coin number rate uprate x)) ph) /\
    (exists ph,
        steps "buy" (buy_hedge rate) Poll
          (trace_of (run_buy X elapse api_get_prices api_get_open_orders
                       api_place_order fuel coin number rate uprate x)) ph)).
  { split.
  - revert x. induction fuel as [|fuel IH]; intros x.
    + exists Poll. apply steps_nil.
    + simpl. rewrite trace_bind.
      destruct (run_sell_body_steps fuel coin number rate uprate x)
        as (ph & Hs & Hd).
      destruct (outcome_of
                  (run_sell_body X elapse api_get_prices api_get_open_orders
                     api_place_order fuel coin number rate uprate x))
        as [[]|e|].
      * rewrite (Hd eq_refl) in Hs.
        destruct (IH (state_of
                        (run_sell_body X elapse api_get_prices
                           api_get_open_orders api_place_order fuel coin
                           number rate uprate x))) as (ph' & Hs').
        exists ph'. eapply steps_app; [exact Hs|exact Hs'].
      * exists ph. now rewrite app_nil_r.
      * exists ph. now rewrite app_nil_r.
  - revert x. induction fuel as [|fuel IH]; intros x.
    + exists Poll. apply steps_nil.
    + simpl. rewrite trace_bind.
      destruct (run_buy_body_steps fuel coin number rate uprate x)
        as (ph & Hs & Hd).
      destruct (outcome_of
                  (run_buy_body X elapse api_get_prices api_get_open_orders
                     api_place_order fuel coin number rate uprate x))
        as [[]|e|].
      * rewrite (Hd eq_refl) in Hs.
        destruct (IH (state_of
                        (run_buy_body X elapse api_get_prices
                           api_get_open_orders api_place_order fuel coin
                           number rate uprate x))) as (ph' & Hs').
        exists ph'. eapply steps_app; [exact Hs|exact Hs'].
      * exists ph. now rewrite app_nil_r.
      * exists ph. now rewrite app_nil_r. }
  destruct Hsafe as [Hsell Hbuy].
  split; [exact Hsell|]. split; [exact Hbuy|]. split.
  - intros prices open_orders buy_orders p x0 k Hp Hcase Hrung Hrej.
    assert (Hplaced : forall c,
      (forall y, c y = place_order X api_place_order
                         (limit_order coin "sell" p number) y) ->
      c x = Ran (Done tt) x0 [PlaceOrder (limit_order coin "sell" p number) true]).
    { intros c Hc. rewrite Hc, place_order_eval, Hrung. reflexivity. }
    unfold run_sell_act.
    destruct (Nat.eqb_spec (length buy_orders) 0) as [E0|E0].
    + apply (rung_then_hedge_exact (limit_order coin "sell" p number)
               (limit_order coin "buy" (p * (1 - rate))%float number)
               _ _ fuel k x x0).
      * apply Hplaced. intros y.
        apply (call_place_order_first_price_eval (bids prices) p
                 (fun q => limit_order coin "sell" q number) y Hp).
      * intros y.
        apply (call_place_order_first_price_eval (bids prices) p
                 (fun q => limit_order coin "buy" (q * (1 - rate))%float number)
                 y Hp).
      * exact Hrej.
    + destruct Hcase as [Hz|[H5 Htrig]]; [contradiction|].
      replace (5 <=? length buy_orders)%nat with false
        by (symmetry; apply Nat.leb_gt; lia).
      rewrite Hp. simpl lift. rewrite bind_ret_eq, Htrig.
      destruct (rung_then_hedge_exact (limit_order coin "sell" p number)
                  (limit_order coin "buy" (p * (1 - rate))%float number)
                  (call_order_method X api_place_order "place_order"
                     (ret X (limit_order coin "sell" p number)))
                  (call_order_method X api_place_order "place_order"
                     (ret X (limit_order coin "buy" (p * (1 - rate))%float
                               number)))
                  fuel k x x0) as [Ha Hb].
      * apply Hplaced. intros y. apply call_place_order_eval.
      * intros y. apply call_place_order_eval.
      * exact Hrej.
      * split.
        -- intros Hf. rewrite (Ha Hf). reflexivity.
        -- intros Hf Hok. rewrite (Hb Hf Hok). reflexivity.
  - intros prices open_orders sell_orders p x0 k Hp Hn Htrig Hrung Hrej.
    unfold run_buy_act.
    replace (length sell_orders =? 0)%nat with false
      by (symmetry; apply Nat.eqb_neq; lia).
    replace (5 <=? length sell_orders)%nat with false
      by (symmetry; apply Nat.leb_gt; lia).
    rewrite Hp. simpl lift. rewrite bind_ret_eq, Htrig.
    destruct (rung_then_hedge_exact (limit_order coin "buy" p number)
                (limit_order coin "sell" (p * (1 + rate))%float number)
                (call_order_method X api_place_order "place_order"
                   (ret X (limit_order coin "buy" p number)))
                (call_order_method X api_place_order "place_order"
                   (ret X (limit_order coin "sell" (p * (1 + rate))%float
                             number)))
                fuel k x x0) as [Ha Hb].
    + rewrite call_place_order_eval, place_order_eval, Hrung. reflexivity.
    + intros y. apply call_place_order_eval.
    + exact Hrej.
    + split.
      * intros Hf. rewrite (Ha Hf). reflexivity.
      * intros Hf Hok. rewrite (Hb Hf Hok). reflexivity.
Qed.

End LoopFacts.

Section LoopExamples.
Import Engine Scenario.

(** C1 as stated fails: in [run_sell], with five sell orders (the side the
    mode places first) and one buy at 100 open, a best bid of 200 makes the
    iteration post a sixth sell and its hedge. *)
Lemma run_sell_ignores_open_sells :
  length (get_orders_of_side five_sells_one_buy "sell") = 5 /\
  trace_of (run_sell_body unit no_clock (steady_prices (book_at 200 201))
              (steady_orders five_sells_one_buy) accept_all 1 "BTC-PERP" 1
              0.001 0.01 tt)
  = [ Sleep 2; GetPrices "BTC-PERP"; GetOpenOrders "BTC-PERP";
      PlaceOrder (limit_order "BTC-PERP" "sell" 200 1) true;
      PlaceOrder (limit_order "BTC-PERP" "buy" (200 * (1 - 0.001)) 1) true ].
Proof. split; vm_compute; reflexivity. Qed.

(** C5 as stated fails when the rungs are the open sells: with five buys
    open, no sell at all, and a best bid above the threshold, the iteration
    posts nothing. *)
Lemma run_sell_full_of_buys_places_nothing :
  length (get_orders_of_side five_buys "sell") = 0 /\
  length (get_orders_of_side five_buys "buy") = 5 /\
  (get_max_order_price five_buys "buy" * (1 + 0.01) <? 101.5)%float = true /\
  run_sell_act unit no_clock accept_all 1 "BTC-PERP" 1 0.001 0.01
    (book_at 101.5 102) five_buys (get_orders_of_side five_buys "buy") tt
  = Ran (Done tt) tt [].
Proof. repeat split; vm_compute; reflexivity. Qed.

Lemma one_buy_at_100_positive (o : order) :
  o ∈ [buy_at 100] -> o_side o = "buy" -> (0 <? o_price o)%float = true.
Proof. intros H _. apply list_elem_of_singleton in H. now subst o. Qed.

(** The example of C5: trigger rate 0.01 and one open buy at 100. *)
Lemma sell_rung_trigger_witness :
  run_sell_act unit no_clock accept_all 1 "BTC-PERP" 1 0.001 0.01
    (book_at 100.5 100.6) [buy_at 100] (get_orders_of_side [buy_at 100] "buy") tt
  = Ran (Done tt) tt [] /\
  exists ok rest,
    trace_of (run_sell_act unit no_clock accept_all 1 "BTC-PERP" 1 0.001 0.01
                (book_at 101.5 101.6) [buy_at 100]
                (get_orders_of_side [buy_at 100] "buy") tt)
    = PlaceOrder (limit_order "BTC-PERP" "sell" 101.5 1) ok :: rest /\
    (ok = false -> rest = []) /\
    (ok = true ->
     exists ok' rest',
       rest = PlaceOrder (limit_order "BTC-PERP" "buy" (101.5 * (1 - 0.001)) 1)
                ok' :: rest').
Proof.
  split.
  - apply (sell_rung_trigger unit no_clock accept_all 0 "BTC-PERP" 1 0.001 0.01
             (book_at 100.5 100.6) [buy_at 100] 100.5 tt).
    + vm_compute. lia.
    + reflexivity.
    + exact one_buy_at_100_positive.
    + vm_compute. reflexivity.
  - apply (sell_rung_trigger unit no_clock accept_all 0 "BTC-PERP" 1 0.001 0.01
             (book_at 101.5 101.6) [buy_at 100] 101.5 tt).
    + vm_compute. lia.
    + reflexivity.
    + exact one_buy_at_100_positive.
    + vm_compute. reflexivity.
Defined.

End LoopExamples.

(** ** Start-up *)

Section StartupFacts.
Import Script.

Variable float_of_string : string -> result float.

(** C10: running the file never enters [run_sell] or [run_buy]: it always
    ends with an exception; and once the six arguments are there and the
    three numbers parse, the client is built, the five functions are
    defined, and the last line raises [NameError] for [run], a name bound
    neither by the module nor by the builtins. *)
Theorem startup_raises_name_error (argv : list string) :
  (exists e, main float_of_string argv = Raise e) /\
  (forall script apiKey secretKey coin number rate uprate rest n r u,
      argv = script :: apiKey :: secretKey :: coin :: number :: rate
               :: uprate :: rest ->
      float_of_string number = Ok n ->
      float_of_string rate = Ok r ->
      float_of_string uprate = Ok u ->
      main float_of_string argv = Raise (NameError "run")) /\
  ~ In "run" Script.builtins /\
  ~ In (FunctionDef "run") program /\
  In (FunctionDef "run_sell") program /\ In (FunctionDef "run_buy") program.
Proof.
  split; [|split; [|split; [|split; [|split]]]].
  - unfold main.
    destruct argv as [|a0 [|a1 [|a2 [|a3 [|a4 [|a5 [|a6 rest]]]]]]];
      vm_compute;
      repeat match goal with
             | |- context [float_of_string ?a] => destruct (float_of_string a)
             end;
      eexists; reflexivity.
  - intros script apiKey secretKey coin number rate uprate rest n r u -> Hn Hr Hu.
    unfold main. vm_compute. rewrite Hn, Hr, Hu. reflexivity.
  - vm_compute. intuition discriminate.
  - vm_compute. intuition discriminate.
  - vm_compute. tauto.
  - vm_compute. tauto.
Qed.

End StartupFacts.

Section RunExamples.
Import Engine Scenario.

(** A run of [run_sell] on an exchange that accepts the seed sell, rejects
    its hedge twice and then accepts it: the loop retries the same buy,
    sleeping 1 after each rejection, and polls again only afterwards. *)
Lemma run_sell_retries_the_hedge :
  trace_of (run_sell nat no_clock (steady_prices (book_at 200 201))
              (steady_orders []) (scripted [true; false; false; true]) 4
              "BTC-PERP" 1 0.001 0.01 0)
  = [ Sleep 2; GetPrices "BTC-PERP"; GetOpenOrders "BTC-PERP";
      PlaceOrder (limit_order "BTC-PERP" "sell" 200 1) true;
      PlaceOrder (limit_order "BTC-PERP" "buy" (200 * (1 - 0.001)) 1) false;
      Sleep 1;
      PlaceOrder (limit_order "BTC-PERP" "buy" (200 * (1 - 0.001)) 1) false;
      Sleep 1;
      PlaceOrder (limit_order "BTC-PERP" "buy" (200 * (1 - 0.001)) 1) true;
      Sleep 2; GetPrices "BTC-PERP"; GetOpenOrders "BTC-PERP";
      PlaceOrder (limit_order "BTC-PERP" "sell" 200 1) true;
      PlaceOrder (limit_order "BTC-PERP" "buy" (200 * (1 - 0.001)) 1) true;
      Sleep 2; GetPrices "BTC-PERP"; GetOpenOrders "BTC-PERP";
      PlaceOrder (limit_order "BTC-PERP" "sell" 200 1) true;
      PlaceOrder (limit_order "BTC-PERP" "buy" (200 * (1 - 0.001)) 1) true;
      Sleep 2; GetPrices "BTC-PERP"; GetOpenOrders "BTC-PERP";
      PlaceOrder (limit_order "BTC-PERP" "sell" 200 1) true ].
Proof. vm_compute. reflexivity. Qed.

(** C2 on that run and on a run of [run_buy], and on one iteration of each
    loop against an exchange that accepts the rung, rejects its
    counter-order twice and then accepts it. *)
Lemma hedge_follows_every_rung_witness :
  (exists ph,
      steps "sell" (sell_hedge 0.001) Poll
        (trace_of (run_sell nat no_clock (steady_prices (book_at 200 201))
                     (steady_orders []) (scripted [true; false; false; true])
                     4 "BTC-PERP" 1 0.001 0.01 0)) ph) /\
  (exists ph,
      steps "buy" (buy_hedge 0.001) Poll
        (trace_of (run_buy nat no_clock (steady_prices (book_at 200 201))
                     (steady_orders [sell_at 300])
                     (scripted [true; false; false; true]) 4 "BTC-PERP" 1
                     0.001 0.01 0)) ph) /\
  run_sell_act nat no_clock (scripted [true; false; false; true]) 4
    "BTC-PERP" 1 0.001 0.01 (book_at 200 201) [] [] 0
  = Ran (Done tt) 4
      [ PlaceOrder (limit_order "BTC-PERP" "sell" 200 1) true;
        PlaceOrder (limit_order "BTC-PERP" "buy" (200 * (1 - 0.001)) 1) false;
        Sleep 1;
        PlaceOrder (limit_order "BTC-PERP" "buy" (200 * (1 - 0.001)) 1) false;
        Sleep 1;
        PlaceOrder (limit_order "BTC-PERP" "buy" (200 * (1 - 0.001)) 1) true ] /\
  run_buy_act nat no_clock (scripted [true; false; false; true]) 2
    "BTC-PERP" 1 0.001 0.01 (book_at 200 201) [sell_at 300] [sell_at 300] 0
  = Ran OutOfFuel 3
      [ PlaceOrder (limit_order "BTC-PERP" "buy" 201 1) true;
        PlaceOrder (limit_order "BTC-PERP" "sell" (201 * (1 + 0.001)) 1) false;
        Sleep 1;
        PlaceOrder (limit_order "BTC-PERP" "sell" (201 * (1 + 0.001)) 1) false;
        Sleep 1 ].
Proof.
  assert (Hrej : forall (h : order_request) (i : nat), i < 2 ->
            exists e,
              fst (scripted [true; false; false; true] h
                     (Variants.hedge_state nat no_clock
                        (scripted [true; false; false; true]) h i 1))
              = Raise e).
  { intros h i Hi. exists ConnectionError.
    destruct i as [|[|i]]; [reflexivity | reflexivity | lia]. }
  split; [|split; [|split]].
  - apply (proj1 (hedge_follows_every_rung nat no_clock
                    (steady_prices (book_at 200 201)) (steady_orders [])
                    (scripted [true; false; false; true]) 4 "BTC-PERP" 1
                    0.001 0.01 0)).
  - apply (proj1 (proj2 (hedge_follows_every_rung nat no_clock
                    (steady_prices (book_at 200 201))
                    (steady_orders [sell_at 300])
                    (scripted [true; false; false; true]) 4 "BTC-PERP" 1
                    0.001 0.01 0))).
  - refine (proj2 (proj1 (proj2 (proj2 (hedge_follows_every_rung nat no_clock
                    (steady_prices (book_at 200 201)) (steady_orders [])
                    (scripted [true; false; false; true]) 4 "BTC-PERP" 1
                    0.001 0.01 0)))
                    (book_at 200 201) [] [] 200%float 1 2 eq_refl
                    (or_introl eq_refl) eq_refl (Hrej _)) _ eq_refl).
    lia.
  - refine (proj1 (proj2 (proj2 (proj2 (hedge_follows_every_rung nat no_clock
                    (steady_prices (book_at 200 201))
                    (steady_orders [sell_at 300])
                    (scripted [true; false; false; true]) 2 "BTC-PERP" 1
                    0.001 0.01 0)))
                    (book_at 200 201) [sell_at 300] [sell_at 300] 201%float
                    1 2 eq_refl _ eq_refl eq_refl (Hrej _)) _).
    + simpl. lia.
    + lia.
Defined.

(** The shape of C2 is not met by every trace: polling right after an
    accepted rung is refused. *)
Lemma steps_refuse_polling_before_the_hedge (rq : order_request) (ph : phase) :
  rq_side rq = "sell" ->
  ~ steps "sell" (sell_hedge 0.001) Poll [PlaceOrder rq true; Sleep 2] ph.
Proof.
  intros _ H. inversion H as [|? ? ? ? ? Hfirst Hrest]; subst.
  inversion Hfirst; subst.
  inversion Hrest as [|? ? ? ? ? Hsecond Hend]; subst. inversion Hsecond.
Qed.

(** The start-up on a complete command line. *)
Lemma startup_raises_name_error_witness :
  Script.main (fun _ => Ok 1%float)
    ["ftx.py"; "key"; "secret"; "BTC-PERP"; "1"; "0.001"; "0.01"]
  = Raise (NameError "run").
Proof.
  apply (proj1 (proj2 (startup_raises_name_error (fun _ => Ok 1%float)
                         ["ftx.py"; "key"; "secret"; "BTC-PERP"; "1"; "0.001";
                          "0.01"]))
           "ftx.py" "key" "secret" "BTC-PERP" "1" "0.001" "0.01" []
           1%float 1%float 1%float); reflexivity.
Defined.

End RunExamples.

(** * Further properties *)

(** ** Malformed envelopes *)

Section EnvelopeEdges.
Import Client Cases.

(** X1: a JSON body that is no object raises [TypeError]; an object
    without [success] raises [KeyError]; so does a successful envelope
    without [result] and a failed one without [error]. *)
Theorem process_response_malformed (response : Response) (data : json)
    (H : json_body response = Some data) :
  ((forall m, data <> JObj m) -> _process_response response = Raise TypeError) /\
  (forall m, data = JObj m -> m !! "success" = None ->
             _process_response response = Raise (KeyError "success")) /\
  (forall m s, data = JObj m -> m !! "success" = Some s -> truthy s = true ->
               m !! "result" = None ->
               _process_response response = Raise (KeyError "result")) /\
  (forall m s, data = JObj m -> m !! "success" = Some s -> truthy s = false ->
               m !! "error" = None ->
               _process_response response = Raise (KeyError "error")).
Proof.
  rewrite (process_response_parsed _ _ H). split; [|split; [|split]].
  - intros Hno. destruct data; try reflexivity. now destruct (Hno m).
  - intros m -> Hs. simpl. now rewrite Hs.
  - intros m s -> Hs Ht Hr. simpl. rewrite Hs. simpl. rewrite Ht. simpl.
    now rewrite Hr.
  - intros m s -> Hs Ht He. simpl. rewrite Hs. simpl. rewrite Ht. simpl.
    now rewrite He.
Qed.

Lemma process_response_malformed_witness :
  _process_response (response_of (JList [JInt 1])) = Raise TypeError /\
  _process_response (response_of (JObj {[ "result" := JInt 1 ]}))
    = Raise (KeyError "success") /\
  _process_response (response_of (JObj {[ "success" := JBool true ]}))
    = Raise (KeyError "result") /\
  _process_response (response_of (JObj {[ "success" := JBool false ]}))
    = Raise (KeyError "error").
Proof.
  split; [|split; [|split]].
  - apply (proj1 (process_response_malformed
                    (response_of (JList [JInt 1])) _ eq_refl)).
    intros m. discriminate.
  - apply (proj1 (proj2 (process_response_malformed
                           (response_of (JObj {[ "result" := JInt 1 ]})) _
                           eq_refl)) _ eq_refl).
    vm_compute. reflexivity.
  - apply (proj1 (proj2 (proj2 (process_response_malformed
                                  (response_of (JObj {[ "success" := JBool true ]}))
                                  _ eq_refl))) _ (JBool true) eq_refl).
    + vm_compute. reflexivity.
    + reflexivity.
    + vm_compute. reflexivity.
  - apply (proj2 (proj2 (proj2 (process_response_malformed
                                  (response_of (JObj {[ "success" := JBool false ]}))
                                  _ eq_refl))) _ (JBool false) eq_refl).
    + vm_compute. reflexivity.
    + reflexivity.
    + vm_compute. reflexivity.
Defined.

(** X2: [success] is tested for truth, not for being [True]: any truthy
    value (a non-zero number, a non-empty string) makes the client return
    [result], any falsy one (null, 0, the empty string) makes it raise
    [Exception] with the envelope's [error], whatever JSON value that is. *)
Theorem process_response_truthiness (response : Response)
    (m : gmap string json) (s : json)
    (H : json_body response = Some (JObj m))
    (Hs : m !! "success" = Some s) :
  (truthy s = true ->
   forall x, m !! "result" = Some x -> _process_response response = Ok x) /\
  (truthy s = false ->
   forall e, m !! "error" = Some e ->
             _process_response response = Raise (Exception e)).
Proof.
  rewrite (process_response_parsed _ _ H). simpl. rewrite Hs. simpl.
  split; intros Ht; rewrite Ht; simpl; intros v Hv; now rewrite Hv.
Qed.

Lemma process_response_truthiness_witness :
  _process_response
    (response_of (JObj {[ "success" := JStr "no"; "result" := JInt 7 ]}))
  = Ok (JInt 7) /\
  _process_response
    (response_of (JObj {[ "success" := JInt 0; "result" := JInt 7;
                          "error" := JList [JStr "a"; JStr "b"] ]}))
  = Raise (Exception (JList [JStr "a"; JStr "b"])).
Proof.
  split.
  - assert (Hs : ({[ "success" := JStr "no"; "result" := JInt 7 ]}
                  : gmap string json) !! "success" = Some (JStr "no"))
      by (vm_compute; reflexivity).
    apply (proj1 (process_response_truthiness
                    (response_of (JObj {[ "success" := JStr "no";
                                          "result" := JInt 7 ]}))
                    _ _ eq_refl Hs)).
    + reflexivity.
    + vm_compute. reflexivity.
  - assert (Hs : ({[ "success" := JInt 0; "result" := JInt 7;
                     "error" := JList [JStr "a"; JStr "b"] ]}
                  : gmap string json) !! "success" = Some (JInt 0))
      by (vm_compute; reflexivity).
    apply (proj2 (process_response_truthiness
                    (response_of (JObj {[ "success" := JInt 0; "result" := JInt 7;
                                          "error" := JList [JStr "a"; JStr "b"] ]}))
                    _ _ eq_refl Hs)).
    + reflexivity.
    + vm_compute. reflexivity.
Defined.

End EnvelopeEdges.

(** ** What signing and sending leave alone *)

Section RequestFacts.
Import Client.

Variable hmac_sha256_hexdigest : list Byte.byte -> list Byte.byte -> string.
Variable quote : string -> string.
Variable prepare : Request -> PreparedRequest.

Lemma sign_request_untouched (self : FtxClient) (ts : Z) (request : Request) :
  r_method (_sign_request hmac_sha256_hexdigest quote prepare self ts request)
    = r_method request /\
  r_url (_sign_request hmac_sha256_hexdigest quote prepare self ts request)
    = r_url request /\
  r_params (_sign_request hmac_sha256_hexdigest quote prepare self ts request)
    = r_params request /\
  r_json (_sign_request hmac_sha256_hexdigest quote prepare self ts request)
    = r_json request /\
  (forall k,
      k <> "FTX-KEY" -> k <> "FTX-SIGN" -> k <> "FTX-TS" ->
      k <> "FTX-SUBACCOUNT" ->
      headers (_sign_request hmac_sha256_hexdigest quote prepare self ts request)
        !! k = headers request !! k).
Proof.
  assert (Hfields :
    forall r, r = _sign_request hmac_sha256_hexdigest quote prepare self ts request ->
              r_method r = r_method request /\ r_url r = r_url request /\
              r_params r = r_params request /\ r_json r = r_json request).
  { intros r ->. unfold _sign_request.
    destruct (_subaccount_name self) as [name|]; [destruct (String.eqb name "")|];
      simpl; auto. }
  destruct (Hfields _ eq_refl) as (Hm & Hu & Hp & Hj).
  split; [exact Hm|]. split; [exact Hu|]. split; [exact Hp|]. split; [exact Hj|].
  intros k H1 H2 H3 H4. rewrite sign_request_headers_lookup.
  destruct (String.eqb_spec k "FTX-SUBACCOUNT"); [contradiction|].
  destruct (String.eqb_spec k "FTX-TS"); [contradiction|].
  destruct (String.eqb_spec k "FTX-SIGN"); [contradiction|].
  destruct (String.eqb_spec k "FTX-KEY"); [contradiction|]. reflexivity.
Qed.

(** X3: [_sign_request] changes nothing of a request but the four FTX
    headers: method, url, query parameters and JSON body stay, and so does
    every other header the request already had; earlier values of
    [FTX-KEY], [FTX-SIGN] and [FTX-TS] are overwritten. *)
Theorem sign_request_frame (self : FtxClient) (ts : Z) (request : Request) :
  r_method (_sign_request hmac_sha256_hexdigest quote prepare self ts request)
    = r_method request /\
  r_url (_sign_request hmac_sha256_hexdigest quote prepare self ts request)
    = r_url request /\
  r_params (_sign_request hmac_sha256_hexdigest quote prepare self ts request)
    = r_params request /\
  r_json (_sign_request hmac_sha256_hexdigest quote prepare self ts request)
    = r_json request /\
  (forall k,
      k <> "FTX-KEY" -> k <> "FTX-SIGN" -> k <> "FTX-TS" ->
      k <> "FTX-SUBACCOUNT" ->
      headers (_sign_request hmac_sha256_hexdigest quote prepare self ts request)
        !! k = headers request !! k) /\
  (forall old_key old_sign old_ts,
      headers request !! "FTX-KEY" = Some old_key ->
      headers request !! "FTX-SIGN" = Some old_sign ->
      headers request !! "FTX-TS" = Some old_ts ->
      headers (_sign_request hmac_sha256_hexdigest quote prepare self ts request)
        !! "FTX-KEY" = Some (_api_key self) /\
      headers (_sign_request hmac_sha256_hexdigest quote prepare self ts request)
        !! "FTX-TS" = Some (pretty ts) /\
      headers (_sign_request hmac_sha256_hexdigest quote prepare self ts request)
        !! "FTX-SIGN"
      = Some (hmac_sha256_hexdigest (encode (_api_secret self))
                (signature_payload ts (prepare request)))).
Proof.
  destruct (sign_request_untouched self ts request) as (Hm & Hu & Hp & Hj & Hk).
  split; [exact Hm|]. split; [exact Hu|]. split; [exact Hp|]. split; [exact Hj|].
  split; [exact Hk|].
  intros old_key old_sign old_ts _ _ _.
  rewrite !sign_request_headers_lookup. simpl. auto.
Qed.

(** X4: [_request] prepares and sends one request object: the given
    method, the url [https://ftx.com/api/] followed by the path, the
    parameters as [_get] passes them (query, no body) or as [_post] and
    [_delete] do (JSON body, no query), and on the object no header but
    the FTX ones the client has set.  What goes out is [prepare] of that
    object, with whatever headers [prepare] adds of its own; where
    [prepare] carries the FTX headers over, the key, the time stamp and the
    signature of the request as it was before signing go out with it.  A
    failure of the transport is raised to the caller unchanged, and a
    response goes through [_process_response]. *)
Theorem request_hands_over_one_signed_request (self : FtxClient) (ts : Z)
    (m path : string) (params js : option json) :
  exists request,
    r_method request = m /\
    r_url request = "https://ftx.com/api/" +:+ path /\
    r_params request = params /\
    r_json request = js /\
    (forall k, is_Some (headers request !! k) ->
               k = "FTX-KEY" \/ k = "FTX-SIGN" \/ k = "FTX-TS" \/
               k = "FTX-SUBACCOUNT") /\
    ((forall r k v,
         k ∈ ["FTX-KEY"; "FTX-SIGN"; "FTX-TS"; "FTX-SUBACCOUNT"] ->
         headers r !! k = Some v ->
         prepared_headers (prepare r) !! k = Some v) ->
     prepared_headers (prepare request) !! "FTX-KEY" = Some (_api_key self) /\
     prepared_headers (prepare request) !! "FTX-TS" = Some (pretty ts) /\
     prepared_headers (prepare request) !! "FTX-SIGN"
     = Some (hmac_sha256_hexdigest (encode (_api_secret self))
               (signature_payload ts
                  (prepare (Request_new m ("https://ftx.com/api/" +:+ path)
                              params js))))) /\
    forall send : PreparedRequest -> result Response,
      (_request hmac_sha256_hexdigest quote prepare send self ts m path params js
       = match send (prepare request) with
         | Ok response => _process_response response
         | Raise e => Raise e
         end) /\
      (m = "GET" -> js = None ->
       _get hmac_sha256_hexdigest quote prepare send self ts path params
       = match send (prepare request) with
         | Ok response => _process_response response
         | Raise e => Raise e
         end) /\
      (m = "POST" -> params = None ->
       _post hmac_sha256_hexdigest quote prepare send self ts path js
       = match send (prepare request) with
         | Ok response => _process_response response
         | Raise e => Raise e
         end) /\
      (m = "DELETE" -> params = None ->
       _delete hmac_sha256_hexdigest quote prepare send self ts path js
       = match send (prepare request) with
         | Ok response => _process_response response
         | Raise e => Raise e
         end).
Proof.
  exists (_sign_request hmac_sha256_hexdigest quote prepare self ts
            (Request_new m (_ENDPOINT +:+ path) params js)).
  destruct (sign_request_untouched self ts
              (Request_new m (_ENDPOINT +:+ path) params js))
    as (Hm & Hu & Hp & Hj & Hk).
  split; [exact Hm|]. split; [exact Hu|]. split; [exact Hp|]. split; [exact Hj|].
  split; [|split].
  - intros k [v Hv].
    destruct (String.eqb_spec k "FTX-KEY") as [|H1]; [now left|].
    destruct (String.eqb_spec k "FTX-SIGN") as [|H2]; [right; now left|].
    destruct (String.eqb_spec k "FTX-TS") as [|H3]; [right; right; now left|].
    destruct (String.eqb_spec k "FTX-SUBACCOUNT") as [|H4];
      [right; right; now right|].
    rewrite (Hk k H1 H2 H3 H4) in Hv. simpl in Hv.
    rewrite lookup_empty in Hv. discriminate.
  - intros Hkeep.
    split; [|split]; apply Hkeep;
      try (rewrite sign_request_headers_lookup; reflexivity);
      repeat constructor.
  - intros send. split; [reflexivity|].
    split; [intros -> ->; reflexivity|].
    split; intros -> ->; reflexivity.
Qed.

End RequestFacts.

(** ** Order management calls *)

Section OrderCalls.
Import Orders.

Variable _post : string -> json -> result json.

(** X5: [modify_order] sends nothing unless exactly one of the two ids is
    given and price and size are not both given; otherwise it posts to the
    path of the id that is given a body holding exactly the fields that
    were given - which may be none of price and size, although the message
    of the check speaks of modifying one of them. *)
Theorem modify_order_checks (existing_order_id existing_client_order_id : option string)
    (price size : option float) (client_order_id : option string) :
  (is_none existing_order_id = is_none existing_client_order_id ->
   modify_order _post existing_order_id existing_client_order_id price size
     client_order_id
   = AssertionError "Must supply exactly one ID for the order to modify") /\
  (is_none existing_order_id <> is_none existing_client_order_id ->
   is_none price = false -> is_none size = false ->
   modify_order _post existing_order_id existing_client_order_id price size
     client_order_id
   = AssertionError "Must modify price or size of order") /\
  (is_none existing_order_id <> is_none existing_client_order_id ->
   is_none price = true \/ is_none size = true ->
   exists body,
     modify_order _post existing_order_id existing_client_order_id price size
       client_order_id
     = Passed
         (_post
            match existing_order_id, existing_client_order_id with
            | Some i, _ => "orders/" +:+ i +:+ "/modify"
            | None, Some c => "orders/by_client_id/" +:+ c +:+ "/modify"
            | None, None => ""
            end (JObj body)) /\
     body !! "price" = JFloat <$> price /\
     body !! "size" = JFloat <$> size /\
     body !! "clientId" = JStr <$> client_order_id /\
     forall k, k <> "price" -> k <> "size" -> k <> "clientId" ->
               body !! k = None).
Proof.
  unfold modify_order. split; [|split].
  - intros E. rewrite E. now destruct (is_none existing_client_order_id).
  - intros E Hp Hs.
    replace (xorb (is_none existing_order_id) (is_none existing_client_order_id))
      with true
      by (destruct (is_none existing_order_id),
                   (is_none existing_client_order_id); simpl; congruence).
    now rewrite Hp, Hs.
  - intros E Hps.
    replace (xorb (is_none existing_order_id) (is_none existing_client_order_id))
      with true
      by (destruct (is_none existing_order_id),
                   (is_none existing_client_order_id); simpl; congruence).
    replace (is_none price || is_none size) with true
      by (destruct Hps as [-> | ->]; [reflexivity|now rewrite orb_true_r]).
    simpl. eexists. split.
    + destruct existing_order_id as [i|], existing_client_order_id as [c|];
        simpl in *; try congruence; reflexivity.
    + unfold dict_merge, entry_if_given.
      destruct price, size, client_order_id; simpl;
        repeat split;
        try (intros k H1 H2 H3);
        rewrite ?lookup_union, ?lookup_empty, ?lookup_singleton_ne,
                ?lookup_singleton_eq by congruence;
        reflexivity.
Qed.

(** X6: [place_conditional_order] refuses a type other than [stop],
    [take_profit] and [trailing_stop], a stop or take-profit without a
    trigger price, and a trailing stop with a trigger price or without a
    trail value; whatever it accepts, it posts with the type [stop], and
    the trail value is in no field of the body: the request does not
    depend on the type or the trail value asked for. *)
Theorem place_conditional_order_posts_a_stop (market side : string)
    (size : float) (type : string) (limit_price : option float)
    (reduce_only cancel : bool) (trigger_price trail_value : option float) :
  (str_in type ["stop"; "take_profit"; "trailing_stop"] = false ->
   place_conditional_order _post market side size type limit_price reduce_only
     cancel trigger_price trail_value
   = AssertionError "") /\
  (str_in type ["stop"; "take_profit"] = true -> trigger_price = None ->
   place_conditional_order _post market side size type limit_price reduce_only
     cancel trigger_price trail_value
   = AssertionError "Need trigger prices for stop losses and take profits") /\
  (type = "trailing_stop" ->
   is_none trigger_price = false \/ trail_value = None ->
   place_conditional_order _post market side size type limit_price reduce_only
     cancel trigger_price trail_value
   = AssertionError
       "Trailing stops need a trail value and cannot take a trigger price") /\
  (forall r,
      place_conditional_order _post market side size type limit_price
        reduce_only cancel trigger_price trail_value = Passed r ->
      exists body,
        r = _post "conditional_orders" (JObj body) /\
        body !! "type" = Some (JStr "stop") /\
        body !! "triggerPrice" = Some (float_or_null trigger_price) /\
        body !! "orderPrice" = Some (float_or_null limit_price) /\
        body !! "trailValue" = None /\
        forall type' trail_value' r',
          place_conditional_order _post market side size type' limit_price
            reduce_only cancel trigger_price trail_value' = Passed r' ->
          r' = r).
Proof.
  unfold place_conditional_order. split; [|split; [|split]].
  - intros H. now rewrite H.
  - intros H ->.
    replace (str_in type ["stop"; "take_profit"; "trailing_stop"]) with true
      by (unfold str_in in *; simpl in *;
          destruct (String.eqb type "stop"), (String.eqb type "take_profit");
          simpl in *; congruence).
    now rewrite H.
  - intros -> H. simpl.
    destruct H as [H| ->]; [rewrite H; reflexivity|].
    now destruct (is_none trigger_price).
  - intros r H.
    destruct (str_in type ["stop"; "take_profit"; "trailing_stop"]);
      [|discriminate].
    destruct (negb (str_in type ["stop"; "take_profit"])
              || negb (is_none trigger_price)); [|discriminate].
    destruct (negb (str_in type ["trailing_stop"])
              || is_none trigger_price && negb (is_none trail_value));
      [|discriminate].
    simpl in H. injection H as <-.
    eexists. split; [reflexivity|].
    split; [vm_compute; reflexivity|].
    split; [now rewrite lookup_insert_ne, lookup_insert_ne, lookup_insert_eq
              by discriminate|].
    split.
    { do 7 (rewrite lookup_insert_ne by discriminate).
      now rewrite lookup_singleton_eq. }
    split.
    { do 7 (rewrite lookup_insert_ne by discriminate).
      now rewrite lookup_singleton_ne by discriminate. }
    intros type' trail_value' r' H'.
    destruct (str_in type' ["stop"; "take_profit"; "trailing_stop"]);
      [|discriminate].
    destruct (negb (str_in type' ["stop"; "take_profit"])
              || negb (is_none trigger_price)); [|discriminate].
    destruct (negb (str_in type' ["trailing_stop"])
              || is_none trigger_price && negb (is_none trail_value'));
      [|discriminate].
    simpl in H'. now injection H' as <-.
Qed.

End OrderCalls.

Section PositionLookup.
Import Orders Cases.

Variable get_positions : bool -> result (list json).

Lemma first_position_skips (name : string) (pre rest : list json) :
  Forall (fun p => exists f, getitem p "future" = Ok f /\
                             equals_str f name = false) pre ->
  first_position (pre ++ rest)%list name = first_position rest name.
Proof.
  induction 1 as [|p pre (f & Hf & Hne) _ IH]; simpl; [reflexivity|].
  rewrite Hf. simpl. now rewrite Hne.
Qed.

(** X7: [get_position] answers the first listed position whose [future]
    is the name, without looking at the positions after it; [None] when no
    position has that name; and it raises the failure of [get_positions],
    or [KeyError] at the first position without a [future] field. *)
Theorem get_position_first_match (name : string) (show_avg_price : bool)
    (pre : list json)
    (Hpre : Forall (fun p => exists f, getitem p "future" = Ok f /\
                                       equals_str f name = false) pre) :
  (forall x post,
      get_positions show_avg_price = Ok (pre ++ x :: post)%list ->
      getitem x "future" = Ok (JStr name) ->
      get_position get_positions name show_avg_price = Ok x) /\
  (get_positions show_avg_price = Ok pre ->
   get_position get_positions name show_avg_price = Ok JNull) /\
  (forall m post,
      get_positions show_avg_price = Ok (pre ++ JObj m :: post)%list ->
      m !! "future" = None ->
      get_position get_positions name show_avg_price = Raise (KeyError "future")) /\
  (forall e,
      get_positions show_avg_price = Raise e ->
      get_position get_positions name show_avg_price = Raise e).
Proof.
  unfold get_position. split; [|split; [|split]].
  - intros x post -> Hx. simpl. rewrite (first_position_skips name pre _ Hpre).
    simpl. rewrite Hx. simpl. now rewrite String.eqb_refl.
  - intros ->. simpl. rewrite <- (app_nil_r pre).
    now rewrite (first_position_skips name pre [] Hpre).
  - intros m post -> Hm. simpl. rewrite (first_position_skips name pre _ Hpre).
    simpl. now rewrite Hm.
  - intros e ->. reflexivity.
Qed.

End PositionLookup.

Section PositionExamples.
Import Orders Cases.

Lemma get_position_first_match_witness :
  get_position
    (fun _ => Ok [ position_of "ETH-PERP" 3; position_of "BTC-PERP" 1;
                   position_of "BTC-PERP" 2; JInt 0 ])
    "BTC-PERP" false
  = Ok (position_of "BTC-PERP" 1) /\
  get_position (fun _ => Ok [position_of "ETH-PERP" 3]) "BTC-PERP" false
  = Ok JNull.
Proof.
  assert (Hpre : Forall (fun p => exists f, getitem p "future" = Ok f /\
                                            equals_str f "BTC-PERP" = false)
                   [position_of "ETH-PERP" 3]).
  { constructor; [|constructor]. exists (JStr "ETH-PERP").
    split; vm_compute; reflexivity. }
  split.
  - apply (proj1 (get_position_first_match
                    (fun _ => Ok [ position_of "ETH-PERP" 3;
                                   position_of "BTC-PERP" 1;
                                   position_of "BTC-PERP" 2; JInt 0 ])
                    "BTC-PERP" false [position_of "ETH-PERP" 3] Hpre)
             (position_of "BTC-PERP" 1) [position_of "BTC-PERP" 2; JInt 0]).
    + reflexivity.
    + vm_compute. reflexivity.
  - apply (proj1 (proj2 (get_position_first_match
                           (fun _ => Ok [position_of "ETH-PERP" 3])
                           "BTC-PERP" false [position_of "ETH-PERP" 3] Hpre))).
    reflexivity.
Defined.

End PositionExamples.

(** ** The price scans and the side filter *)

Section ScanFacts.
Import Engine.

(** The running minimum of [get_min_order_price], from any start [m]. *)
Lemma min_fold_spec (side : string) (orders : list order) :
  forall m r : float,
    r = fold_left
          (fun min_order_price i =>
             if String.eqb (fst i) side && (snd i <? min_order_price)%float
             then snd i else min_order_price)
          (combine (map o_side orders) (map o_price orders)) m ->
    (r = m \/ exists o, o ∈ orders /\ o_side o = side /\ o_price o = r) /\
    (forall p, (p <? m)%float = false -> (p <? r)%float = false) /\
    (forall o, o ∈ orders -> o_side o = side -> (o_price o <? r)%float = false).
Proof.
  induction orders as [|o orders IH]; intros m r Hr; simpl in Hr.
  - subst r. split; [now left|]. split; [auto|]. intros o Ho. inversion Ho.
  - destruct (IH _ _ Hr) as (Hcase & Hmono & Hall). clear Hr IH.
    destruct (String.eqb_spec (o_side o) side) as [Eside|Eside]; simpl in *.
    + destruct (o_price o <? m)%float eqn:Elt.
      * split; [|split].
        -- right. destruct Hcase as [->|(o' & Ho' & Hs & Hp)].
           ++ exists o. split; [left|now split].
           ++ exists o'. split; [now right|now split].
        -- intros p Hp. apply Hmono.
           destruct (p <? o_price o)%float eqn:E; [|reflexivity].
           rewrite (float_ltb_trans _ _ _ E Elt) in Hp. discriminate.
        -- intros o' Ho' Hs. apply elem_of_cons in Ho' as [->|Ho'].
           ++ apply Hmono, float_ltb_irrefl.
           ++ now apply Hall.
      * split; [|split].
        -- destruct Hcase as [->|(o' & Ho' & Hs & Hp)]; [now left|].
           right. exists o'. split; [now right|now split].
        -- exact Hmono.
        -- intros o' Ho' Hs. apply elem_of_cons in Ho' as [->|Ho'].
           ++ now apply Hmono.
           ++ now apply Hall.
    + split; [|split].
      * destruct Hcase as [->|(o' & Ho' & Hs & Hp)]; [now left|].
        right. exists o'. split; [now right|now split].
      * exact Hmono.
      * intros o' Ho' Hs. apply elem_of_cons in Ho' as [->|Ho'].
        -- contradiction.
        -- now apply Hall.
Qed.

(** X8: when some order of the side is priced above 0.0,
    [get_max_order_price] is the price of an order of the side and no
    order of the side is priced higher; when some order of the side is
    priced below 999999, [get_min_order_price] is the price of an order of
    the side and none is priced lower. *)
Theorem price_scans_find_the_extreme (orders : list order) (side : string) :
  ((exists o, o ∈ orders /\ o_side o = side /\ (0 <? o_price o)%float = true) ->
   (exists o, o ∈ orders /\ o_side o = side /\
              o_price o = get_max_order_price orders side) /\
   (forall o, o ∈ orders -> o_side o = side ->
              (get_max_order_price orders side <? o_price o)%float = false)) /\
  ((exists o, o ∈ orders /\ o_side o = side /\
              (o_price o <? 999999)%float = true) ->
   (exists o, o ∈ orders /\ o_side o = side /\
              o_price o = get_min_order_price orders side) /\
   (forall o, o ∈ orders -> o_side o = side ->
              (o_price o <? get_min_order_price orders side)%float = false)).
Proof.
  split.
  - apply get_max_order_price_is_max.
  - intros (o & Ho & Hs & Hlt).
    destruct (min_fold_spec side orders 999999%float _ eq_refl)
      as (Hcase & _ & Hall).
    fold (get_min_order_price orders side) in Hcase, Hall.
    split; [|exact Hall].
    destruct Hcase as [E|Hcase]; [|exact Hcase].
    specialize (Hall o Ho Hs). rewrite E in Hall. congruence.
Qed.

(** X9: the scans never leave their start value on the wrong side:
    [get_max_order_price] is never below 0.0 and [get_min_order_price]
    never above 999999; orders of the side that are not priced above 0.0
    (not below 999999) are passed over, so that with only such orders the
    scan answers its start value although orders of the side exist. *)
Theorem price_scans_keep_their_start (orders : list order) (side : string) :
  (get_max_order_price orders side <? 0)%float = false /\
  (999999 <? get_min_order_price orders side)%float = false /\
  ((forall o, o ∈ orders -> o_side o = side -> (0 <? o_price o)%float = false) ->
   get_max_order_price orders side = 0%float) /\
  ((forall o, o ∈ orders -> o_side o = side ->
              (o_price o <? 999999)%float = false) ->
   get_min_order_price orders side = 999999%float).
Proof.
  split; [|split; [|split]].
  - destruct (max_fold_spec side orders 0%float _ eq_refl) as (_ & Hmono & _).
    apply Hmono. reflexivity.
  - destruct (min_fold_spec side orders 999999%float _ eq_refl)
      as (_ & Hmono & _).
    apply Hmono. reflexivity.
  - unfold get_max_order_price. generalize 0%float.
    induction orders as [|o orders IH]; intros m H; simpl; [reflexivity|].
    destruct (String.eqb_spec (o_side o) side) as [E|E]; simpl.
    + rewrite (H o) by (left || exact E).
      apply IH. intros o' Ho'. apply H. now right.
    + apply IH. intros o' Ho'. apply H. now right.
  - unfold get_min_order_price. generalize 999999%float.
    induction orders as [|o orders IH]; intros m H; simpl; [reflexivity|].
    destruct (String.eqb_spec (o_side o) side) as [E|E]; simpl.
    + rewrite (H o) by (left || exact E).
      apply IH. intros o' Ho'. apply H. now right.
    + apply IH. intros o' Ho'. apply H. now right.
Qed.

End ScanFacts.

Section ScanExamples.
Import Engine Cases.

(** Three sells and two buys: the highest buy and the lowest sell. *)
Lemma price_scans_find_the_extreme_witness :
  (exists o, o ∈ orders_mixed /\ o_side o = "buy" /\
             o_price o = get_max_order_price orders_mixed "buy") /\
  (exists o, o ∈ orders_mixed /\ o_side o = "sell" /\
             o_price o = get_min_order_price orders_mixed "sell").
Proof.
  split.
  - apply (proj1 (price_scans_find_the_extreme orders_mixed "buy")).
    exists (order_at "buy" 99). split; [right; left|]. split; reflexivity.
  - apply (proj2 (price_scans_find_the_extreme orders_mixed "sell")).
    exists (order_at "sell" 105). split; [left|]. split; reflexivity.
Defined.

(** Sells at 1000000 and 2000000 and a buy at -1 are all passed over. *)
Lemma price_scans_keep_their_start_witness :
  get_max_order_price orders_out_of_range "buy" = 0%float /\
  get_min_order_price orders_out_of_range "sell" = 999999%float.
Proof.
  split.
  - apply (proj1 (proj2 (proj2 (price_scans_keep_their_start
                                  orders_out_of_range "buy")))).
    intros o Ho Hs. unfold orders_out_of_range in Ho.
    repeat (apply elem_of_cons in Ho as [->|Ho]; [try discriminate; reflexivity|]).
    inversion Ho.
  - apply (proj2 (proj2 (proj2 (price_scans_keep_their_start
                                  orders_out_of_range "sell")))).
    intros o Ho Hs. unfold orders_out_of_range in Ho.
    repeat (apply elem_of_cons in Ho as [->|Ho]; [try discriminate; reflexivity|]).
    inversion Ho.
Defined.

End ScanExamples.

Section SideFilter.
Import Engine.

Lemma get_orders_of_side_filter (orders : list order) (side : string) :
  get_orders_of_side orders side
  = filter (fun o => o_side o = side) orders.
Proof.
  induction orders as [|o orders IH]; simpl; [reflexivity|].
  rewrite IH. destruct (String.eqb_spec (o_side o) side) as [E|E].
  - now rewrite filter_cons_True.
  - now rewrite filter_cons_False.
Qed.

(** X10: [get_orders_of_side] keeps the orders of the side in the order
    they are listed; filtering again by the same side changes nothing and
    by another side leaves nothing; and when every order is a buy or a
    sell, the buys and the sells together are as many as the orders. *)
Theorem get_orders_of_side_partitions (orders : list order) :
  (forall side, get_orders_of_side orders side `sublist_of` orders) /\
  (forall side,
      get_orders_of_side (get_orders_of_side orders side) side
      = get_orders_of_side orders side) /\
  (forall side side', side <> side' ->
      get_orders_of_side (get_orders_of_side orders side) side' = []) /\
  ((forall o, o ∈ orders -> o_side o = "buy" \/ o_side o = "sell") ->
   length (get_orders_of_side orders "buy")
   + length (get_orders_of_side orders "sell") = length orders).
Proof.
  split; [|split; [|split]].
  - intros side. rewrite get_orders_of_side_filter. apply sublist_filter.
  - intros side. induction orders as [|o orders IH]; simpl; [reflexivity|].
    destruct (String.eqb_spec (o_side o) side) as [E|E]; simpl.
    + destruct (String.eqb_spec (o_side o) side); [|contradiction].
      now rewrite IH.
    + exact IH.
  - intros side side' Hne. induction orders as [|o orders IH]; simpl;
      [reflexivity|].
    destruct (String.eqb_spec (o_side o) side) as [E|E]; simpl; [|exact IH].
    destruct (String.eqb_spec (o_side o) side'); [congruence|exact IH].
  - induction orders as [|o orders IH]; intros H; simpl; [reflexivity|].
    assert (IH' := IH (fun o' Ho' => H o' (list_elem_of_further _ _ _ Ho'))).
    destruct (H o (list_elem_of_here _ _)) as [E|E]; rewrite E; simpl; lia.
Qed.

End SideFilter.

(** ** More on the loops *)

Section LoopEdges.
Import Engine.

Variable X : Type.
Variable elapse : Z -> X -> X.
Variable api_get_prices : string -> X -> result orderbook * X.
Variable api_get_open_orders : string -> X -> result (list order) * X.
Variable api_place_order : order_request -> X -> result unit * X.

Lemma first_price_raises (levels : list (float * float)) (e : exn) :
  first_price levels = Raise e -> e = IndexError /\ levels = [].
Proof. destruct levels as [|[p s] l]; simpl; intros H; now inversion H. Qed.

(** No exception leaves the retry loop, whatever is retried. *)
Lemma retry_until_placed_outcome (c : M X unit) (fuel : nat) (x : X) :
  outcome_of (retry_until_placed X elapse fuel c x) = Done tt \/
  outcome_of (retry_until_placed X elapse fuel c x) = OutOfFuel.
Proof.
  revert x. induction fuel as [|fuel IH]; intros x; [now right|].
  simpl. destruct (c x) as [[[]|e|] x' t] eqn:Hx.
  - rewrite (bind_done X _ _ x x' (Ok tt) t)
      by (now rewrite (attempt_eval X _ _ _ _ _ Hx)).
    now left.
  - rewrite (bind_done X _ _ x x' (Raise e) t)
      by (now rewrite (attempt_eval X _ _ _ _ _ Hx)).
    rewrite (bind_done X (sleep X elapse 1) _ x' (elapse 1 x') tt [Sleep 1]
               eq_refl).
    simpl. apply IH.
  - right. unfold bind. rewrite (attempt_eval X _ _ _ _ _ Hx). reflexivity.
Qed.

Lemma rung_then_hedge_outcome (c hedge : M X unit) (fuel : nat) (x : X) :
  outcome_of
    (bind X (attempt X c)
       (fun r => match r with
                 | Raise _ => ret X tt
                 | Ok _ => retry_until_placed X elapse fuel hedge
                 end) x) = Done tt \/
  outcome_of
    (bind X (attempt X c)
       (fun r => match r with
                 | Raise _ => ret X tt
                 | Ok _ => retry_until_placed X elapse fuel hedge
                 end) x) = OutOfFuel.
Proof.
  destruct (c x) as [[[]|e|] x' t] eqn:Hx.
  - rewrite (bind_done X _ _ x x' (Ok tt) t)
      by (now rewrite (attempt_eval X _ _ _ _ _ Hx)).
    simpl. apply retry_until_placed_outcome.
  - rewrite (bind_done X _ _ x x' (Raise e) t)
      by (now rewrite (attempt_eval X _ _ _ _ _ Hx)).
    now left.
  - right. unfold bind. rewrite (attempt_eval X _ _ _ _ _ Hx). reflexivity.
Qed.

Lemma run_sell_act_outcome (fuel : nat) (coin : string)
    (number rate uprate : float) (prices : orderbook)
    (open_orders buy_orders : list order) (x : X) :
  outcome_of (run_sell_act X elapse api_place_order fuel coin number rate
                uprate prices open_orders buy_orders x) = Done tt \/
  outcome_of (run_sell_act X elapse api_place_order fuel coin number rate
                uprate prices open_orders buy_orders x) = OutOfFuel \/
  outcome_of (run_sell_act X elapse api_place_order fuel coin number rate
                uprate prices open_orders buy_orders x) = Raised IndexError.
Proof.
  unfold run_sell_act.
  destruct (length buy_orders =? 0)%nat.
  - destruct (rung_then_hedge_outcome
                (call_order_method X api_place_order "place_order"
                   (bind X (lift X (first_price (bids prices)))
                      (fun p => ret X (limit_order coin "sell" p number))))
                (call_order_method X api_place_order "place_order"
                   (bind X (lift X (first_price (bids prices)))
                      (fun p => ret X (limit_order coin "buy"
                                         (p * (1 - rate))%float number))))
                fuel x) as [H|H]; rewrite H; auto.
  - destruct (5 <=? length buy_orders)%nat; [now left|].
    destruct (first_price (bids prices)) as [current_price|e] eqn:Hp.
    + simpl lift. rewrite bind_ret_eq. simpl.
      destruct (get_max_order_price open_orders "buy" * (1 + uprate)
                <? current_price)%float; [|now left].
      destruct (rung_then_hedge_outcome
                  (call_order_method X api_place_order "place_order"
                     (ret X (limit_order coin "sell" current_price number)))
                  (call_order_method X api_place_order "place_order"
                     (ret X (limit_order coin "buy"
                               (current_price * (1 - rate))%float number)))
                  fuel x) as [H|H]; rewrite H; auto.
    + apply first_price_raises in Hp as [-> _]. right. now right.
Qed.

Lemma run_buy_act_outcome (fuel : nat) (coin : string)
    (number rate uprate : float) (prices : orderbook)
    (open_orders sell_orders : list order) (x : X) :
  outcome_of (run_buy_act X elapse api_place_order fuel coin number rate
                uprate prices open_orders sell_orders x) = Done tt \/
  outcome_of (run_buy_act X elapse api_place_order fuel coin number rate
                uprate prices open_orders sell_orders x) = OutOfFuel \/
  outcome_of (run_buy_act X elapse api_place_order fuel coin number rate
                uprate prices open_orders sell_orders x) = Raised IndexError.
Proof.
  unfold run_buy_act.
  destruct (length sell_orders =? 0)%nat.
  - destruct (rung_then_hedge_outcome
                (call_order_method X api_place_order "palce_order"
                   (bind X (lift X (first_price (asks prices)))
                      (fun p => ret X (limit_order coin "buy" p number))))
                (call_order_method X api_place_order "place_order"
                   (bind X (lift X (first_price (asks prices)))
                      (fun p => ret X (limit_order coin "sell"
                                         (p * (1 + rate))%float number))))
                fuel x) as [H|H]; rewrite H; auto.
  - destruct (5 <=? length sell_orders)%nat; [now left|].
    destruct (first_price (asks prices)) as [current_price|e] eqn:Hp.
    + simpl lift. rewrite bind_ret_eq. simpl.
      destruct (current_price
                <? get_min_order_price open_orders "sell" * (1 - uprate))%float;
        [|now left].
      destruct (rung_then_hedge_outcome
                  (call_order_method X api_place_order "place_order"
                     (ret X (limit_order coin "buy" current_price number)))
                  (call_order_method X api_place_order "place_order"
                     (ret X (limit_order coin "sell"
                               (current_price * (1 + rate))%float number)))
                  fuel x) as [H|H]; rewrite H; auto.
    + apply first_price_raises in Hp as [-> _]. right. now right.
Qed.

Lemma run_sell_body_outcome (fuel : nat) (coin : string)
    (number rate uprate : float) (x : X) :
  outcome_of (run_sell_body X elapse api_get_prices api_get_open_orders
                api_place_order fuel coin number rate uprate x) = Done tt \/
  outcome_of (run_sell_body X elapse api_get_prices api_get_open_orders
                api_place_order fuel coin number rate uprate x) = OutOfFuel \/
  outcome_of (run_sell_body X elapse api_get_prices api_get_open_orders
                api_place_order fuel coin number rate uprate x)
    = Raised IndexError.
Proof.
  pose proof (run_sell_body_eval X elapse api_get_prices api_get_open_orders
                api_place_order fuel coin number rate uprate x) as E.
  destruct (api_get_prices coin (elapse 2 x)) as [[prices|e] x1];
    [|rewrite E; now left].
  destruct (api_get_open_orders coin x1) as [[open_orders|e] x2];
    [|rewrite E; now left].
  rewrite (E _ eq_refl). simpl. apply run_sell_act_outcome.
Qed.

Lemma run_buy_body_outcome (fuel : nat) (coin : string)
    (number rate uprate : float) (x : X) :
  outcome_of (run_buy_body X elapse api_get_prices api_get_open_orders
                api_place_order fuel coin number rate uprate x) = Done tt \/
  outcome_of (run_buy_body X elapse api_get_prices api_get_open_orders
                api_place_order fuel coin number rate uprate x) = OutOfFuel \/
  outcome_of (run_buy_body X elapse api_get_prices api_get_open_orders
                api_place_order fuel coin number rate uprate x)
    = Raised IndexError.
Proof.
  pose proof (run_buy_body_eval X elapse api_get_prices api_get_open_orders
                api_place_order fuel coin number rate uprate x) as E.
  destruct (api_get_prices coin (elapse 2 x)) as [[prices|e] x1];
    [|rewrite E; now left].
  destruct (api_get_open_orders coin x1) as [[open_orders|e] x2];
    [|rewrite E; now left].
  rewrite (E _ eq_refl). simpl. apply run_buy_act_outcome.
Qed.

(** An iteration whose reads have succeeded raises only at the read of
    the first level of the book, outside every [try]. *)
Lemma run_sell_act_dies (fuel : nat) (coin : string)
    (number rate uprate : float) (prices : orderbook)
    (open_orders buy_orders : list order) (x : X) (e : exn) :
  outcome_of (run_sell_act X elapse api_place_order fuel coin number rate
                uprate prices open_orders buy_orders x) = Raised e ->
  e = IndexError /\ bids prices = [] /\ 0 < length buy_orders < 5 /\
  run_sell_act X elapse api_place_order fuel coin number rate uprate prices
    open_orders buy_orders x = Ran (Raised IndexError) x [].
Proof.
  unfold run_sell_act.
  destruct (Nat.eqb_spec (length buy_orders) 0) as [E0|E0].
  - intros H.
    destruct (rung_then_hedge_outcome
                (call_order_method X api_place_order "place_order"
                   (bind X (lift X (first_price (bids prices)))
                      (fun p => ret X (limit_order coin "sell" p number))))
                (call_order_method X api_place_order "place_order"
                   (bind X (lift X (first_price (bids prices)))
                      (fun p => ret X (limit_order coin "buy"
                                         (p * (1 - rate))%float number))))
                fuel x) as [H'|H']; rewrite H' in H; discriminate.
  - destruct (Nat.leb_spec 5 (length buy_orders)) as [E5|E5];
      [intros H; discriminate|].
    destruct (first_price (bids prices)) as [current_price|e0] eqn:Hp.
    + simpl lift. rewrite bind_ret_eq. simpl.
      destruct (get_max_order_price open_orders "buy" * (1 + uprate)
                <? current_price)%float; [|intros H; discriminate].
      intros H.
      destruct (rung_then_hedge_outcome
                  (call_order_method X api_place_order "place_order"
                     (ret X (limit_order coin "sell" current_price number)))
                  (call_order_method X api_place_order "place_order"
                     (ret X (limit_order coin "buy"
                               (current_price * (1 - rate))%float number)))
                  fuel x) as [H'|H']; rewrite H' in H; discriminate.
    + apply first_price_raises in Hp as [-> Hb]. intros H.
      inversion H; subst e. repeat split; [exact Hb|lia|lia].
Qed.

Lemma run_buy_act_dies (fuel : nat) (coin : string)
    (number rate uprate : float) (prices : orderbook)
    (open_orders sell_orders : list order) (x : X) (e : exn) :
  outcome_of (run_buy_act X elapse api_place_order fuel coin number rate
                uprate prices open_orders sell_orders x) = Raised e ->
  e = IndexError /\ asks prices = [] /\ 0 < length sell_orders < 5 /\
  run_buy_act X elapse api_place_order fuel coin number rate uprate prices
    open_orders sell_orders x = Ran (Raised IndexError) x [].
Proof.
  unfold run_buy_act.
  destruct (Nat.eqb_spec (length sell_orders) 0) as [E0|E0].
  - intros H.
    destruct (rung_then_hedge_outcome
                (call_order_method X api_place_order "palce_order"
                   (bind X (lift X (first_price (asks prices)))
                      (fun p => ret X (limit_order coin "buy" p number))))
                (call_order_method X api_place_order "place_order"
                   (bind X (lift X (first_price (asks prices)))
                      (fun p => ret X (limit_order coin "sell"
                                         (p * (1 + rate))%float number))))
                fuel x) as [H'|H']; rewrite H' in H; discriminate.
  - destruct (Nat.leb_spec 5 (length sell_orders)) as [E5|E5];
      [intros H; discriminate|].
    destruct (first_price (asks prices)) as [current_price|e0] eqn:Hp.
    + simpl lift. rewrite bind_ret_eq. simpl.
      destruct (current_price
                <? get_min_order_price open_orders "sell" * (1 - uprate))%float;
        [|intros H; discriminate].
      intros H.
      destruct (rung_then_hedge_outcome
                  (call_order_method X api_place_order "place_order"
                     (ret X (limit_order coin "buy" current_price number)))
                  (call_order_method X api_place_order "place_order"
                     (ret X (limit_order coin "sell"
                               (current_price * (1 + rate))%float number)))
                  fuel x) as [H'|H']; rewrite H' in H; discriminate.
    + apply first_price_raises in Hp as [-> Hb]. intros H.
      inversion H; subst e. repeat split; [exact Hb|lia|lia].
Qed.

Lemma run_sell_body_dies (fuel : nat) (coin : string)
    (number rate uprate : float) (x : X) (e : exn) :
  outcome_of (run_sell_body X elapse api_get_prices api_get_open_orders
                api_place_order fuel coin number rate uprate x) = Raised e ->
  exists prices open_orders x1 x2,
    api_get_prices coin (elapse 2 x) = (Ok prices, x1) /\
    api_get_open_orders coin x1 = (Ok open_orders, x2) /\
    bids prices = [] /\
    0 < length (get_orders_of_side open_orders "buy") < 5 /\
    run_sell_body X elapse api_get_prices api_get_open_orders api_place_order
      fuel coin number rate uprate x
    = Ran (Raised IndexError) x2 [Sleep 2; GetPrices coin; GetOpenOrders coin].
Proof.
  pose proof (run_sell_body_eval X elapse api_get_prices api_get_open_orders
                api_place_order fuel coin number rate uprate x) as E.
  destruct (api_get_prices coin (elapse 2 x)) as [[prices|e0] x1] eqn:Hp;
    [|rewrite E; discriminate].
  destruct (api_get_open_orders coin x1) as [[open_orders|e0] x2] eqn:Ho;
    [|rewrite E; discriminate].
  rewrite (E _ eq_refl). simpl outcome_of. intros H.
  apply run_sell_act_dies in H as (_ & Hb & Hn & Hr).
  exists prices, open_orders, x1, x2. rewrite Hr.
  split; [reflexivity|]. split; [exact Ho|]. split; [exact Hb|].
  split; [exact Hn|reflexivity].
Qed.

Lemma run_buy_body_dies (fuel : nat) (coin : string)
    (number rate uprate : float) (x : X) (e : exn) :
  outcome_of (run_buy_body X elapse api_get_prices api_get_open_orders
                api_place_order fuel coin number rate uprate x) = Raised e ->
  exists prices open_orders x1 x2,
    api_get_prices coin (elapse 2 x) = (Ok prices, x1) /\
    api_get_open_orders coin x1 = (Ok open_orders, x2) /\
    asks prices = [] /\
    0 < length (get_orders_of_side open_orders "sell") < 5 /\
    run_buy_body X elapse api_get_prices api_get_open_orders api_place_order
      fuel coin number rate uprate x
    = Ran (Raised IndexError) x2 [Sleep 2; GetPrices coin; GetOpenOrders coin].
Proof.
  pose proof (run_buy_body_eval X elapse api_get_prices api_get_open_orders
                api_place_order fuel coin number rate uprate x) as E.
  destruct (api_get_prices coin (elapse 2 x)) as [[prices|e0] x1] eqn:Hp;
    [|rewrite E; discriminate].
  destruct (api_get_open_orders coin x1) as [[open_orders|e0] x2] eqn:Ho;
    [|rewrite E; discriminate].
  rewrite (E _ eq_refl). simpl outcome_of. intros H.
  apply run_buy_act_dies in H as (_ & Hb & Hn & Hr).
  exists prices, open_orders, x1, x2. rewrite Hr.
  split; [reflexivity|]. split; [exact Ho|]. split; [exact Hb|].
  split; [exact Hn|reflexivity].
Qed.

(** X11: whatever [get_prices], [get_open_orders] and [place_order] raise,
    and however often, it never ends either loop.  Against an exchange
    whose answers have the shape the code reads (a book of two lists of
    price-size pairs, orders with a side and a price), a run of [run_sell]
    or [run_buy] is still going when its budget is spent, or it has died in
    this one way: in some iteration both reads succeeded, the side of the
    book it reads (bids for [run_sell], asks for [run_buy]) was empty while
    one to four orders of the counter side were open, and the [IndexError]
    of reading the first level, raised outside every [try], ended the run
    right after the two reads, with nothing posted in that iteration. *)
Theorem loops_die_only_of_index_error (fuel : nat) (coin : string)
    (number rate uprate : float) (x : X) :
  (outcome_of (run_sell X elapse api_get_prices api_get_open_orders
                 api_place_order fuel coin number rate uprate x) = OutOfFuel \/
   exists x' prices open_orders x1 x2 t,
     api_get_prices coin (elapse 2 x') = (Ok prices, x1) /\
     api_get_open_orders coin x1 = (Ok open_orders, x2) /\
     bids prices = [] /\
     0 < length (get_orders_of_side open_orders "buy") < 5 /\
     run_sell X elapse api_get_prices api_get_open_orders api_place_order
       fuel coin number rate uprate x
     = Ran (Raised IndexError) x2
         (t ++ [Sleep 2; GetPrices coin; GetOpenOrders coin])%list) /\
  (outcome_of (run_buy X elapse api_get_prices api_get_open_orders
                 api_place_order fuel coin number rate uprate x) = OutOfFuel \/
   exists x' prices open_orders x1 x2 t,
     api_get_prices coin (elapse 2 x') = (Ok prices, x1) /\
     api_get_open_orders coin x1 = (Ok open_orders, x2) /\
     asks prices = [] /\
     0 < length (get_orders_of_side open_orders "sell") < 5 /\
     run_buy X elapse api_get_prices api_get_open_orders api_place_order
       fuel coin number rate uprate x
     = Ran (Raised IndexError) x2
         (t ++ [Sleep 2; GetPrices coin; GetOpenOrders coin])%list).
Proof.
  split; revert x; induction fuel as [|fuel IH]; intros x; try (now left);
    simpl.
  - destruct (run_sell_body X elapse api_get_prices api_get_open_orders
                api_place_order fuel coin number rate uprate x)
      as [[[]|e|] xb tb] eqn:Hbody.
    + rewrite (bind_done X _ _ x xb tt tb Hbody).
      destruct (IH xb) as [Ho|(x' & prices & open_orders & x1 & x2 & t
                                & Hp & Hoo & Hb & Hn & Hr)].
      * left. exact Ho.
      * right. exists x', prices, open_orders, x1, x2, (tb ++ t)%list.
        rewrite Hr. simpl. rewrite app_assoc. now repeat split.
    + right.
      destruct (run_sell_body_dies fuel coin number rate uprate x e)
        as (prices & open_orders & x1 & x2 & Hp & Hoo & Hb & Hn & Hr);
        [now rewrite Hbody|].
      exists x, prices, open_orders, x1, x2, [].
      repeat split; try assumption; try lia.
      unfold bind. rewrite Hr. reflexivity.
    + left. rewrite outcome_bind, Hbody. reflexivity.
  - destruct (run_buy_body X elapse api_get_prices api_get_open_orders
                api_place_order fuel coin number rate uprate x)
      as [[[]|e|] xb tb] eqn:Hbody.
    + rewrite (bind_done X _ _ x xb tt tb Hbody).
      destruct (IH xb) as [Ho|(x' & prices & open_orders & x1 & x2 & t
                                & Hp & Hoo & Hb & Hn & Hr)].
      * left. exact Ho.
      * right. exists x', prices, open_orders, x1, x2, (tb ++ t)%list.
        rewrite Hr. simpl. rewrite app_assoc. now repeat split.
    + right.
      destruct (run_buy_body_dies fuel coin number rate uprate x e)
        as (prices & open_orders & x1 & x2 & Hp & Hoo & Hb & Hn & Hr);
        [now rewrite Hbody|].
      exists x, prices, open_orders, x1, x2, [].
      repeat split; try assumption; try lia.
      unfold bind. rewrite Hr. reflexivity.
    + left. rewrite outcome_bind, Hbody. reflexivity.
Qed.

(** X12: an empty side of the book.  In [run_sell], when the reads show
    no bid, the seed branch (no buy order open) swallows the [IndexError]
    and the iteration ends normally with nothing posted; with one to four
    buy orders open the [IndexError] is raised outside the [try] and ends
    the whole loop.  [run_buy] dies in the same way of an empty ask side
    with one to four sell orders open. *)
Theorem empty_book_side (fuel : nat) (coin : string)
    (number rate uprate : float) (x x1 x2 : X) (prices : orderbook)
    (open_orders : list order)
    (Hprices : api_get_prices coin (elapse 2 x) = (Ok prices, x1))
    (Horders : api_get_open_orders coin x1 = (Ok open_orders, x2)) :
  (bids prices = [] ->
   length (get_orders_of_side open_orders "buy") = 0 ->
   run_sell_body X elapse api_get_prices api_get_open_orders api_place_order
     fuel coin number rate uprate x
   = Ran (Done tt) x2 [Sleep 2; GetPrices coin; GetOpenOrders coin]) /\
  (bids prices = [] ->
   0 < length (get_orders_of_side open_orders "buy") < 5 ->
   run_sell X elapse api_get_prices api_get_open_orders api_place_order
     (S fuel) coin number rate uprate x
   = Ran (Raised IndexError) x2
       [Sleep 2; GetPrices coin; GetOpenOrders coin]) /\
  (asks prices = [] ->
   0 < length (get_orders_of_side open_orders "sell") < 5 ->
   run_buy X elapse api_get_prices api_get_open_orders api_place_order
     (S fuel) coin number rate uprate x
   = Ran (Raised IndexError) x2
       [Sleep 2; GetPrices coin; GetOpenOrders coin]).
Proof.
  pose proof (run_sell_body_eval X elapse api_get_prices api_get_open_orders
                api_place_order fuel coin number rate uprate x) as Es.
  pose proof (run_buy_body_eval X elapse api_get_prices api_get_open_orders
                api_place_order fuel coin number rate uprate x) as Eb.
  rewrite Hprices, Horders in Es, Eb.
  split; [|split].
  - intros Hb Hn. rewrite (Es _ eq_refl). unfold run_sell_act.
    rewrite Hn, Hb. reflexivity.
  - intros Hb Hn. simpl. unfold bind at 1. rewrite (Es _ eq_refl).
    unfold run_sell_act.
    replace (length (get_orders_of_side open_orders "buy") =? 0)%nat with false
      by (symmetry; apply Nat.eqb_neq; lia).
    replace (5 <=? length (get_orders_of_side open_orders "buy"))%nat with false
      by (symmetry; apply Nat.leb_gt; lia).
    rewrite Hb. reflexivity.
  - intros Ha Hn. simpl. unfold bind at 1. rewrite (Eb _ eq_refl).
    unfold run_buy_act.
    replace (length (get_orders_of_side open_orders "sell") =? 0)%nat with false
      by (symmetry; apply Nat.eqb_neq; lia).
    replace (5 <=? length (get_orders_of_side open_orders "sell"))%nat with false
      by (symmetry; apply Nat.leb_gt; lia).
    rewrite Ha. reflexivity.
Qed.

(** X13: the retry loop of a counter-order has no other way out than an
    accepted placement: it never raises, whatever it retries; and against
    an exchange that rejects the order in every state it is still running
    when any budget is spent, having posted the order and slept 1 once per
    iteration. *)
Theorem hedge_loop_never_gives_up (h : order_request) :
  (forall (c : M X unit) fuel x,
      outcome_of (retry_until_placed X elapse fuel c x) = Done tt \/
      outcome_of (retry_until_placed X elapse fuel c x) = OutOfFuel) /\
  ((forall x, exists e x', api_place_order h x = (Raise e, x')) ->
   forall fuel x,
     outcome_of (retry_until_placed X elapse fuel
                   (call_order_method X api_place_order "place_order"
                      (ret X h)) x) = OutOfFuel /\
     trace_of (retry_until_placed X elapse fuel
                 (call_order_method X api_place_order "place_order"
                    (ret X h)) x)
     = mjoin (replicate fuel [PlaceOrder h false; Sleep 1])).
Proof.
  split; [intros c fuel x; apply retry_until_placed_outcome|].
  intros Hrej. induction fuel as [|fuel IH]; intros x; [now split|].
  destruct (Hrej x) as (e & x' & Hx).
  assert (Hc : call_order_method X api_place_order "place_order" (ret X h) x
               = Ran (Raised e) x' [PlaceOrder h false]).
  { unfold call_order_method.
    change (bool_decide ("place_order" ∈ FtxClient_attrs)) with true.
    cbn [String.eqb Ascii.eqb Bool.eqb andb].
    unfold bind, ret, place_order. simpl. now rewrite Hx. }
  simpl retry_until_placed.
  rewrite (bind_done X _ _ x x' (Raise e) [PlaceOrder h false])
    by (now rewrite (attempt_eval X _ _ _ _ _ Hc)).
  rewrite (bind_done X (sleep X elapse 1) _ x' (elapse 1 x') tt [Sleep 1]
             eq_refl).
  destruct (IH (elapse 1 x')) as [Ho Ht]. simpl. rewrite Ho, Ht. now split.
Qed.

(** X14: [run_buy] cannot start a ladder: as long as the open orders it
    reads show no sell order, a run of any length posts no order at all
    (and does not die either). *)
Theorem run_buy_never_starts
    (Hnone : forall coin x open_orders x',
        api_get_open_orders coin x = (Ok open_orders, x') ->
        get_orders_of_side open_orders "sell" = [])
    (fuel : nat) (coin : string) (number rate uprate : float) (x : X) :
  outcome_of (run_buy X elapse api_get_prices api_get_open_orders
                api_place_order fuel coin number rate uprate x) = OutOfFuel /\
  Forall (fun e => is_placement e = false)
    (trace_of (run_buy X elapse api_get_prices api_get_open_orders
                 api_place_order fuel coin number rate uprate x)).
Proof.
  revert x. induction fuel as [|fuel IH]; intros x; [split; [reflexivity|constructor]|].
  simpl. rewrite outcome_bind, trace_bind.
  assert (Hbody :
    outcome_of (run_buy_body X elapse api_get_prices api_get_open_orders
                  api_place_order fuel coin number rate uprate x) = Done tt /\
    Forall (fun e => is_placement e = false)
      (trace_of (run_buy_body X elapse api_get_prices api_get_open_orders
                   api_place_order fuel coin number rate uprate x))).
  { pose proof (run_buy_body_eval X elapse api_get_prices api_get_open_orders
                  api_place_order fuel coin number rate uprate x) as E.
    destruct (api_get_prices coin (elapse 2 x)) as [[prices|e] x1];
      [|rewrite E; split; [reflexivity|repeat constructor]].
    destruct (api_get_open_orders coin x1) as [[open_orders|e] x2] eqn:Ho;
      [|rewrite E; split; [reflexivity|repeat constructor]].
    rewrite (E _ eq_refl), (Hnone _ _ _ _ Ho).
    rewrite run_buy_act_without_sell_orders. simpl.
    split; [reflexivity|repeat constructor]. }
  destruct Hbody as [Ho Ht]. rewrite Ho.
  destruct (IH (state_of
                  (run_buy_body X elapse api_get_prices api_get_open_orders
                     api_place_order fuel coin number rate uprate x)))
    as [Ho' Ht'].
  split; [exact Ho'|]. apply Forall_app. now split.
Qed.

(** X15: a read that fails costs the iteration and nothing else: when the
    price read raises, the open orders are not read, nothing is posted and
    the iteration ends normally; likewise when the price read succeeds and
    the read of the open orders raises.  This holds for both loops and for
    every exception. *)
Theorem failed_reads_are_swallowed (fuel : nat) (coin : string)
    (number rate uprate : float) (x x1 : X) :
  (forall e,
      api_get_prices coin (elapse 2 x) = (Raise e, x1) ->
      run_sell_body X elapse api_get_prices api_get_open_orders
        api_place_order fuel coin number rate uprate x
      = Ran (Done tt) x1 [Sleep 2; GetPrices coin] /\
      run_buy_body X elapse api_get_prices api_get_open_orders
        api_place_order fuel coin number rate uprate x
      = Ran (Done tt) x1 [Sleep 2; GetPrices coin]) /\
  (forall prices e x2,
      api_get_prices coin (elapse 2 x) = (Ok prices, x1) ->
      api_get_open_orders coin x1 = (Raise e, x2) ->
      run_sell_body X elapse api_get_prices api_get_open_orders
        api_place_order fuel coin number rate uprate x
      = Ran (Done tt) x2 [Sleep 2; GetPrices coin; GetOpenOrders coin] /\
      run_buy_body X elapse api_get_prices api_get_open_orders
        api_place_order fuel coin number rate uprate x
      = Ran (Done tt) x2 [Sleep 2; GetPrices coin; GetOpenOrders coin]).
Proof.
  pose proof (run_sell_body_eval X elapse api_get_prices api_get_open_orders
                api_place_order fuel coin number rate uprate x) as Es.
  pose proof (run_buy_body_eval X elapse api_get_prices api_get_open_orders
                api_place_order fuel coin number rate uprate x) as Eb.
  split.
  - intros e Hp. rewrite Hp in Es, Eb. now split.
  - intros prices e x2 Hp Ho. rewrite Hp, Ho in Es, Eb. now split.
Qed.

End LoopEdges.

Section LoopEdgeExamples.
Import Engine Scenario Cases.

(** One buy open and an empty book: [run_sell] dies at its first
    iteration; with no order open it polls on. *)
Lemma empty_book_side_witness :
  run_sell unit no_clock (steady_prices empty_book)
    (steady_orders [buy_at 100]) accept_all 3 "BTC-PERP" 1 0.001 0.01 tt
  = Ran (Raised IndexError) tt
      [Sleep 2; GetPrices "BTC-PERP"; GetOpenOrders "BTC-PERP"] /\
  run_sell_body unit no_clock (steady_prices empty_book) (steady_orders [])
    accept_all 3 "BTC-PERP" 1 0.001 0.01 tt
  = Ran (Done tt) tt
      [Sleep 2; GetPrices "BTC-PERP"; GetOpenOrders "BTC-PERP"].
Proof.
  split.
  - apply (proj1 (proj2 (empty_book_side unit no_clock
                           (steady_prices empty_book)
                           (steady_orders [buy_at 100]) accept_all 2
                           "BTC-PERP" 1 0.001 0.01 tt tt tt empty_book
                           [buy_at 100] eq_refl eq_refl))).
    + reflexivity.
    + vm_compute. lia.
  - apply (proj1 (empty_book_side unit no_clock (steady_prices empty_book)
                    (steady_orders []) accept_all 3 "BTC-PERP" 1 0.001 0.01
                    tt tt tt empty_book [] eq_refl eq_refl)); reflexivity.
Defined.

(** Buy orders only: [run_buy] polls and posts nothing. *)
Lemma run_buy_never_starts_witness :
  outcome_of (run_buy unit no_clock (steady_prices (book_at 200 201))
                (steady_orders [buy_at 100]) accept_all 5 "BTC-PERP" 1 0.001
                0.01 tt) = OutOfFuel /\
  Forall (fun e => is_placement e = false)
    (trace_of (run_buy unit no_clock (steady_prices (book_at 200 201))
                 (steady_orders [buy_at 100]) accept_all 5 "BTC-PERP" 1 0.001
                 0.01 tt)).
Proof.
  apply (run_buy_never_starts unit no_clock (steady_prices (book_at 200 201))
           (steady_orders [buy_at 100]) accept_all).
  intros coin x open_orders x' H. injection H as <- _. reflexivity.
Defined.

End LoopEdgeExamples.

(** ** More on the trade fetcher *)

Section FetchEdges.
Import Trades.

Variable parse_datetime : string -> Z.
Variable timestamp : Z -> float.
Variable endpoint : nat -> result (list trade).

Lemma get_all_trades_loop_full_page (fuel n : nat) (market : string)
    (start_time : option float) (ids : gset Z) (results : list trade)
    (end_time : option float) (page : list trade) :
  endpoint n = Ok page -> limit <= length page ->
  exists ids' results' end_time' rq,
    get_all_trades_loop parse_datetime timestamp endpoint (S fuel) n market
      start_time ids results end_time
    = (fst (get_all_trades_loop parse_datetime timestamp endpoint fuel (S n)
              market start_time ids' results' end_time'),
       rq :: snd (get_all_trades_loop parse_datetime timestamp endpoint fuel
                    (S n) market start_time ids' results' end_time')) /\
    results' = (results ++ filter (fun r => trade_id r ∉ ids) page)%list.
Proof.
  intros Hpage Hfull. simpl. rewrite Hpage.
  assert (Hlt : (length page <? limit)%nat = false) by (apply Nat.ltb_ge; lia).
  rewrite Hlt. destruct page as [|t ts]; [unfold limit in Hfull; simpl in Hfull; lia|].
  exists (ids ∪ list_to_set
                  (trade_id <$> filter (fun r => trade_id r ∉ ids) (t :: ts))),
    (results ++ filter (fun r => trade_id r ∉ ids) (t :: ts))%list,
    (Some (timestamp (min_datetime parse_datetime t ts))),
    {| rq_path := "markets/" +:+ market +:+ "/trades";
       rq_end_time := end_time; rq_start_time := start_time |}.
  split; [|reflexivity].
  destruct (get_all_trades_loop parse_datetime timestamp endpoint fuel (S n)
              market start_time _ _ _) as [r sent]. reflexivity.
Qed.

(** X16: a failure of a request is the failure of the whole call: when the
    request after [k] full pages raises, [get_all_trades] raises the same
    exception, having sent [k + 1] requests; the trades of the pages
    fetched so far are not returned. *)
Theorem get_all_trades_raises_what_a_request_raises (k : nat) (e : exn)
    (market : string) (start_time end_time : option float) (fuel : nat)
    (Hfull : forall i, i < k ->
                       exists page, endpoint i = Ok page /\ limit <= length page)
    (Hfail : endpoint k = Raise e)
    (Hfuel : k < fuel) :
  fst (get_all_trades parse_datetime timestamp endpoint fuel market start_time
         end_time) = Some (Raise e) /\
  length (snd (get_all_trades parse_datetime timestamp endpoint fuel market
                 start_time end_time)) = S k.
Proof.
  unfold get_all_trades.
  assert (Hgen : forall d n fuel ids results end_time,
    d < fuel ->
    (forall i, i < d ->
               exists page, endpoint (n + i) = Ok page /\ limit <= length page) ->
    endpoint (n + d) = Raise e ->
    fst (get_all_trades_loop parse_datetime timestamp endpoint fuel n market
           start_time ids results end_time) = Some (Raise e) /\
    length (snd (get_all_trades_loop parse_datetime timestamp endpoint fuel n
                   market start_time ids results end_time)) = S d).
  { clear. induction d as [|d IH]; intros n fuel ids results end_time Hfuel Hfull Hfail;
      (destruct fuel as [|fuel]; [lia|]).
    - rewrite Nat.add_0_r in Hfail. simpl. rewrite Hfail. now split.
    - destruct (Hfull 0) as (page & Hpage & Hlen); [lia|].
      rewrite Nat.add_0_r in Hpage.
      destruct (get_all_trades_loop_full_page fuel n market start_time ids
                  results end_time page Hpage Hlen)
        as (ids' & results' & end_time' & rq & -> & _).
      destruct (IH (S n) fuel ids' results' end_time') as [Hr Hs].
      + lia.
      + intros i Hi. replace (S n + i) with (n + S i) by lia. apply Hfull. lia.
      + replace (S n + d) with (n + S d) by lia. exact Hfail.
      + simpl. rewrite Hr, Hs. now split. }
  apply (Hgen k 0 fuel ∅ [] end_time Hfuel); [|exact Hfail].
  intros i Hi. now apply Hfull.
Qed.

(** X17: only a page of fewer than 100 trades stops the loop: while every
    page comes back full - even a page of trades all seen before - the
    fetcher keeps requesting, one request per iteration, and has not
    returned when any budget is spent. *)
Theorem get_all_trades_loops_on_full_pages (market : string)
    (start_time end_time : option float)
    (Hfull : forall i, exists page, endpoint i = Ok page /\ limit <= length page)
    (fuel : nat) :
  fst (get_all_trades parse_datetime timestamp endpoint fuel market start_time
         end_time) = None /\
  length (snd (get_all_trades parse_datetime timestamp endpoint fuel market
                 start_time end_time)) = fuel.
Proof.
  unfold get_all_trades. generalize 0 (∅ : gset Z) (@nil trade) end_time.
  induction fuel as [|fuel IH]; intros n ids results et; [now split|].
  destruct (Hfull n) as (page & Hpage & Hlen).
  destruct (get_all_trades_loop_full_page fuel n market start_time ids results
              et page Hpage Hlen) as (ids' & results' & et' & rq & -> & _).
  destruct (IH (S n) ids' results' et') as [Hr Hs]. simpl.
  rewrite Hr, Hs. now split.
Qed.

Lemma filter_not_in_empty (page : list trade)
    (dec : forall r : trade, Decision (trade_id r ∉ (∅ : gset Z))) :
  @filter _ _ _ (fun r => trade_id r ∉ (∅ : gset Z)) dec page = page.
Proof.
  induction page as [|t ts IH]; [reflexivity|].
  rewrite filter_cons_True by set_solver. now rewrite IH.
Qed.

Lemma get_all_trades_loop_extends (fuel : nat) :
  forall n market start_time ids results end_time res,
    fst (get_all_trades_loop parse_datetime timestamp endpoint fuel n market
           start_time ids results end_time) = Some (Ok res) ->
    exists page,
      endpoint n = Ok page /\
      (results ++ filter (fun r => trade_id r ∉ ids) page)%list `prefix_of` res.
Proof.
  induction fuel as [|fuel IH]; intros n market start_time ids results end_time
    res H; [discriminate|].
  simpl in H. destruct (endpoint n) as [page|e] eqn:Hpage; [|discriminate].
  exists page. split; [reflexivity|].
  destruct page as [|t ts]; [simpl in H; injection H as <-; reflexivity|].
  destruct (length (t :: ts) <? limit)%nat;
    [simpl in H; injection H as <-; reflexivity|].
  destruct (get_all_trades_loop parse_datetime timestamp endpoint fuel (S n)
              market start_time _ _ _) as [r sent] eqn:Hrec.
  simpl in H. subst r.
  destruct (IH _ _ _ _ _ _ res ltac:(rewrite Hrec; reflexivity))
    as (page' & _ & Hpre).
  etransitivity; [|exact Hpre]. now apply prefix_app_r.
Qed.

(** X18: the result keeps the order of fetching: whenever the call
    returns, its result starts with the whole first page, in the order
    the endpoint listed it, repeated ids included. *)
Theorem get_all_trades_starts_with_first_page (market : string)
    (start_time end_time : option float) (fuel : nat) (res : list trade)
    (H : fst (get_all_trades parse_datetime timestamp endpoint fuel market
                start_time end_time) = Some (Ok res)) :
  exists page, endpoint 0 = Ok page /\ page `prefix_of` res.
Proof.
  destruct (get_all_trades_loop_extends fuel 0 market start_time ∅ []
              end_time res H) as (page & Hpage & Hpre).
  exists page. split; [exact Hpage|].
  now rewrite filter_not_in_empty in Hpre.
Qed.

End FetchEdges.

Section FetchEdgeExamples.
Import Trades Scenario Cases.

(** One full page, then a failure. *)
Lemma get_all_trades_raises_what_a_request_raises_witness :
  fst (get_all_trades seconds_of float_of_seconds failing_endpoint 5
         "BTC-PERP" None None) = Some (Raise ConnectionError) /\
  length (snd (get_all_trades seconds_of float_of_seconds failing_endpoint 5
                 "BTC-PERP" None None)) = 2.
Proof.
  apply (get_all_trades_raises_what_a_request_raises seconds_of
           float_of_seconds failing_endpoint 1 ConnectionError "BTC-PERP" None
           None 5).
  - intros i Hi. destruct i as [|i]; [|lia].
    exists (two_pages 0). split; [reflexivity|vm_compute; lia].
  - reflexivity.
  - lia.
Defined.

(** The same full page for ever. *)
Lemma get_all_trades_loops_on_full_pages_witness :
  fst (get_all_trades seconds_of float_of_seconds stuck_endpoint 7 "BTC-PERP"
         None None) = None /\
  length (snd (get_all_trades seconds_of float_of_seconds stuck_endpoint 7
                 "BTC-PERP" None None)) = 7.
Proof.
  apply (get_all_trades_loops_on_full_pages seconds_of float_of_seconds
           stuck_endpoint "BTC-PERP" None None).
  intros i. exists (two_pages 0). split; [reflexivity|vm_compute; lia].
Defined.

(** A page that lists the trade 1 twice is returned as it is. *)
Lemma get_all_trades_starts_with_first_page_witness :
  exists page,
    (fun _ : nat => Ok repeating_page) 0 = Ok page /\
    page `prefix_of` repeating_page.
Proof.
  apply (get_all_trades_starts_with_first_page seconds_of float_of_seconds
           (fun _ => Ok repeating_page) "BTC-PERP" None None 1).
  vm_compute. reflexivity.
Defined.

End FetchEdgeExamples.

(** ** More on the start-up *)

Section StartupEdges.
Import Script.

Variable float_of_string : string -> result float.

(** X19: the start-up fails before the client is built when the command
    line is short or a number does not parse.  With fewer than four
    arguments after the script's path it raises [IndexError]; so it does
    with fewer than six when the numbers that are there (the words from the
    fourth argument on) parse; and when [float] rejects the order size, the
    step rate or the trigger rate, the numbers before it having parsed, the
    script raises [float]'s exception.  What the path, the key, the secret
    and the market look like plays no part. *)
Theorem startup_needs_its_arguments (argv : list string) :
  (length argv < 5 -> main float_of_string argv = Raise IndexError) /\
  ((forall i a, 4 <= i -> argv !! i = Some a ->
                exists n, float_of_string a = Ok n) ->
   length argv < 7 -> main float_of_string argv = Raise IndexError) /\
  (forall i a e,
      4 <= i <= 6 -> argv !! i = Some a ->
      (forall j b, 4 <= j < i -> argv !! j = Some b ->
                   exists n, float_of_string b = Ok n) ->
      float_of_string a = Raise e ->
      main float_of_string argv = Raise e).
Proof.
  split; [|split].
  - intros H. unfold main.
    destruct argv as [|a0 [|a1 [|a2 [|a3 [|a4 rest]]]]];
      try (simpl in H; lia); vm_compute; reflexivity.
  - intros Hparse H. unfold main.
    destruct argv as [|a0 [|a1 [|a2 [|a3 [|a4 [|a5 [|a6 rest]]]]]]];
      try (simpl in H; lia); try (vm_compute; reflexivity).
    + destruct (Hparse 4 a4) as [n4 H4]; [lia|reflexivity|].
      vm_compute. rewrite H4. reflexivity.
    + destruct (Hparse 4 a4) as [n4 H4]; [lia|reflexivity|].
      destruct (Hparse 5 a5) as [n5 H5]; [lia|reflexivity|].
      vm_compute. rewrite H4, H5. reflexivity.
  - intros i a e Hi Ha Hparse He. unfold main.
    assert (Hcase : i = 4 \/ i = 5 \/ i = 6) by lia.
    destruct Hcase as [-> | [-> | ->]].
    + destruct argv as [|a0 [|a1 [|a2 [|a3 [|a4 rest]]]]]; try discriminate.
      simpl in Ha. injection Ha as ->.
      vm_compute. rewrite He. reflexivity.
    + destruct argv as [|a0 [|a1 [|a2 [|a3 [|a4 [|a5 rest]]]]]];
        try discriminate.
      simpl in Ha. injection Ha as ->.
      destruct (Hparse 4 a4) as [n4 H4]; [lia|reflexivity|].
      vm_compute. rewrite H4, He. reflexivity.
    + destruct argv as [|a0 [|a1 [|a2 [|a3 [|a4 [|a5 [|a6 rest]]]]]]];
        try discriminate.
      simpl in Ha. injection Ha as ->.
      destruct (Hparse 4 a4) as [n4 H4]; [lia|reflexivity|].
      destruct (Hparse 5 a5) as [n5 H5]; [lia|reflexivity|].
      vm_compute. rewrite H4, H5, He. reflexivity.
Qed.

End StartupEdges.

(** ** The further properties on concrete inputs *)

Section EdgeExamples.
Import Engine Orders Scenario Cases.

(** An order id and nothing to change: the call goes through with an
    empty body; both ids, or price and size together, are refused. *)
Lemma modify_order_checks_witness :
  (exists body,
      modify_order echo_post (Some "42") None None None None
      = Passed (echo_post "orders/42/modify" (JObj body)) /\
      body !! "price" = None /\ body !! "size" = None) /\
  modify_order echo_post (Some "42") (Some "mine") (Some 1%float) None None
  = AssertionError "Must supply exactly one ID for the order to modify" /\
  modify_order echo_post None (Some "mine") (Some 1%float) (Some 2%float) None
  = AssertionError "Must modify price or size of order".
Proof.
  split; [|split].
  - destruct (proj2 (proj2 (modify_order_checks echo_post (Some "42") None
                              None None None))) as (body & E & Hp & Hs & _).
    + discriminate.
    + now left.
    + exists body. now split.
  - apply (proj1 (modify_order_checks echo_post (Some "42") (Some "mine")
                    (Some 1%float) None None)). reflexivity.
  - apply (proj1 (proj2 (modify_order_checks echo_post None (Some "mine")
                           (Some 1%float) (Some 2%float) None)));
      [discriminate|reflexivity|reflexivity].
Defined.

(** A trailing stop with a trail value of 5 is posted as a [stop] with a
    null trigger price. *)
Lemma place_conditional_order_posts_a_stop_witness :
  exists body,
    place_conditional_order echo_post "BTC-PERP" "sell" 1 "trailing_stop" None
      false true None (Some 5%float)
    = Passed (echo_post "conditional_orders" (JObj body)) /\
    body !! "type" = Some (JStr "stop") /\
    body !! "triggerPrice" = Some JNull /\
    body !! "trailValue" = None.
Proof.
  destruct (proj2 (proj2 (proj2 (place_conditional_order_posts_a_stop
                                   echo_post "BTC-PERP" "sell" 1
                                   "trailing_stop" None false true None
                                   (Some 5%float)))) _ eq_refl)
    as (body & Hr & Ht & Hp & _ & Hv & _).
  exists body. split; [now rewrite <- Hr|]. now split.
Defined.

(** An exchange that rejects every order: three rounds of the retry loop. *)
Lemma hedge_loop_never_gives_up_witness :
  trace_of (retry_until_placed unit no_clock 3
              (call_order_method unit reject_all "place_order"
                 (ret unit (limit_order "BTC-PERP" "buy" 100 1))) tt)
  = [ PlaceOrder (limit_order "BTC-PERP" "buy" 100 1) false; Sleep 1;
      PlaceOrder (limit_order "BTC-PERP" "buy" 100 1) false; Sleep 1;
      PlaceOrder (limit_order "BTC-PERP" "buy" 100 1) false; Sleep 1 ].
Proof.
  apply (proj2 (hedge_loop_never_gives_up unit no_clock reject_all
                  (limit_order "BTC-PERP" "buy" 100 1))).
  intros x. exists ConnectionError, x. reflexivity.
Defined.

(** A price read that fails, and a read of the open orders that fails. *)
Lemma failed_reads_are_swallowed_witness :
  run_sell_body unit no_clock failing_prices (steady_orders []) accept_all 3
    "BTC-PERP" 1 0.001 0.01 tt
  = Ran (Done tt) tt [Sleep 2; GetPrices "BTC-PERP"] /\
  run_buy_body unit no_clock (steady_prices (book_at 200 201)) failing_orders
    accept_all 3 "BTC-PERP" 1 0.001 0.01 tt
  = Ran (Done tt) tt [Sleep 2; GetPrices "BTC-PERP"; GetOpenOrders "BTC-PERP"].
Proof.
  split.
  - apply (proj1 (failed_reads_are_swallowed unit no_clock failing_prices
                    (steady_orders []) accept_all 3 "BTC-PERP" 1 0.001 0.01
                    tt tt) ConnectionError eq_refl).
  - apply (proj2 (failed_reads_are_swallowed unit no_clock
                    (steady_prices (book_at 200 201)) failing_orders
                    accept_all 3 "BTC-PERP" 1 0.001 0.01 tt tt)
             (book_at 200 201) ConnectionError tt eq_refl eq_refl).
Defined.

(** A [POST] through a [prepare] that adds a header of its own: the key
    the client has set goes out, and the answer comes back through
    [_process_response]. *)
Lemma request_hands_over_one_signed_request_witness :
  Client._post (fun _ _ => "signature") (fun name => name)
    Variants.toy_prepare Variants.toy_send
    {| Client._api_key := "key"; Client._api_secret := "secret";
       Client._subaccount_name := None |}
    1600000000000 "orders" (Some (JObj ∅))
  = Ok (JStr "key").
Proof.
  destruct (request_hands_over_one_signed_request
              (fun _ _ => "signature") (fun name => name) Variants.toy_prepare
              {| Client._api_key := "key"; Client._api_secret := "secret";
                 Client._subaccount_name := None |}
              1600000000000 "POST" "orders" None (Some (JObj ∅)))
    as (request & _ & _ & _ & _ & _ & Hout & Hsend).
  destruct Hout as (Hkey & _ & _).
  { intros r k v Hk Hv. unfold Variants.toy_prepare. simpl.
    destruct (String.eqb (Client.r_method r) "GET"); [exact Hv|].
    rewrite lookup_insert_ne; [exact Hv|].
    intros <-. apply (bool_decide_pack _) in Hk. vm_compute in Hk.
    exact Hk. }
  destruct (Hsend Variants.toy_send) as (_ & _ & Hpost & _).
  rewrite (Hpost eq_refl eq_refl).
  unfold Variants.toy_send. rewrite Hkey. vm_compute. reflexivity.
Defined.

(** One buy open and an empty book: the run has died, and of the read
    of the first bid. *)
Lemma loops_die_only_of_index_error_witness :
  exists prices open_orders t,
    bids prices = [] /\
    0 < length (get_orders_of_side open_orders "buy") < 5 /\
    run_sell unit no_clock (steady_prices empty_book)
      (steady_orders [buy_at 100]) accept_all 3 "BTC-PERP" 1 0.001 0.01 tt
    = Ran (Raised IndexError) tt
        (t ++ [Sleep 2; GetPrices "BTC-PERP"; GetOpenOrders "BTC-PERP"])%list.
Proof.
  destruct (proj1 (loops_die_only_of_index_error unit no_clock
                     (steady_prices empty_book) (steady_orders [buy_at 100])
                     accept_all 3 "BTC-PERP" 1 0.001 0.01 tt))
    as [H|(x' & prices & open_orders & x1 & x2 & t & _ & _ & Hb & Hn & Hr)].
  - vm_compute in H. discriminate.
  - exists prices, open_orders, t. destruct x2.
    split; [exact Hb|]. split; [exact Hn|exact Hr].
Defined.

(** A command line without the trigger rate, and one whose step rate
    is no number. *)
Lemma startup_needs_its_arguments_witness :
  Script.main Variants.toy_float
    ["ftx.py"; "key"; "secret"; "BTC-PERP"; "1"; "0.001"]
  = Raise IndexError /\
  Script.main Variants.toy_float
    ["ftx.py"; "key"; "secret"; "BTC-PERP"; "1"; "one"; "0.01"]
  = Raise ValueError.
Proof.
  split.
  - apply (proj1 (proj2 (startup_needs_its_arguments Variants.toy_float
                           ["ftx.py"; "key"; "secret"; "BTC-PERP"; "1";
                            "0.001"]))).
    + intros i a Hi Ha.
      destruct i as [|[|[|[|[|[|i]]]]]]; try lia; simpl in Ha;
        try discriminate; injection Ha as <-; eexists; reflexivity.
    + simpl. lia.
  - apply (proj2 (proj2 (startup_needs_its_arguments Variants.toy_float
                           ["ftx.py"; "key"; "secret"; "BTC-PERP"; "1";
                            "one"; "0.01"])) 5 "one" ValueError).
    + lia.
    + reflexivity.
    + intros j b Hj Hb. assert (j = 4) as -> by lia.
      simpl in Hb. injection Hb as <-. eexists. reflexivity.
    + reflexivity.
Defined.

(** No buy order open: the iteration of [run_sell] with a helper that
    raises in the place of [get_max_order_price] is the code's; so is the
    one of [run_buy] with no sell order open. *)
Lemma sentinel_anchor_unused_witness :
  (get_max_order_price [sell_at 300] "buy" = 0%float /\
   get_min_order_price [sell_at 300] "buy" = 999999%float) /\
  Variants.run_sell_act_with nat no_clock
    (scripted [true; false; true])
    (fun _ _ => raise nat (KeyError "price"))
    3 "BTC-PERP" 1 0.001 0.01 (book_at 200 201) [sell_at 300]
    (get_orders_of_side [sell_at 300] "buy") 0
  = run_sell_act nat no_clock (scripted [true; false; true]) 3 "BTC-PERP" 1
      0.001 0.01 (book_at 200 201) [sell_at 300]
      (get_orders_of_side [sell_at 300] "buy") 0 /\
  Variants.run_buy_act_with nat no_clock
    (scripted [true; false; true])
    (fun _ _ => raise nat (KeyError "price"))
    3 "BTC-PERP" 1 0.001 0.01 (book_at 200 201) [buy_at 100]
    (get_orders_of_side [buy_at 100] "sell") 0
  = run_buy_act nat no_clock (scripted [true; false; true]) 3 "BTC-PERP" 1
      0.001 0.01 (book_at 200 201) [buy_at 100]
      (get_orders_of_side [buy_at 100] "sell") 0.
Proof.
  assert (Hs : forall o, o ∈ [sell_at 300] -> o_side o <> "buy").
  { intros o Ho. apply list_elem_of_singleton in Ho as ->. discriminate. }
  assert (Hb : forall o, o ∈ [buy_at 100] -> o_side o <> "sell").
  { intros o Ho. apply list_elem_of_singleton in Ho as ->. discriminate. }
  split; [|split].
  - apply (proj1 (sentinel_anchor_unused nat no_clock
                    (scripted [true; false; true]) 3 "BTC-PERP" 1 0.001 0.01
                    (book_at 200 201) [sell_at 300] 0) "buy" Hs).
  - apply (proj1 (proj2 (proj2 (sentinel_anchor_unused nat no_clock
                    (scripted [true; false; true]) 3 "BTC-PERP" 1 0.001 0.01
                    (book_at 200 201) [sell_at 300] 0))) Hs).
  - apply (proj2 (proj2 (proj2 (sentinel_anchor_unused nat no_clock
                    (scripted [true; false; true]) 3 "BTC-PERP" 1 0.001 0.01
                    (book_at 200 201) [buy_at 100] 0))) Hb).
Defined.

(** With a buy order open the helper is called: the iteration goes with
    what it answers, and stops where it raises. *)
Lemma anchor_is_computed_with_counter_orders :
  run_sell_act nat no_clock accept_all 3 "BTC-PERP" 1 0.001 0.01
    (book_at 200 201) [buy_at 100] [buy_at 100] 0
  = Ran (Done tt) 0
      [ PlaceOrder (limit_order "BTC-PERP" "sell" 200 1) true;
        PlaceOrder (limit_order "BTC-PERP" "buy" (200 * (1 - 0.001)) 1) true ] /\
  Variants.run_sell_act_with nat no_clock accept_all
    (fun _ _ => ret nat 1000%float)
    3 "BTC-PERP" 1 0.001 0.01 (book_at 200 201) [buy_at 100] [buy_at 100] 0
  = Ran (Done tt) 0 [] /\
  Variants.run_sell_act_with nat no_clock accept_all
    (fun _ _ => raise nat (KeyError "price"))
    3 "BTC-PERP" 1 0.001 0.01 (book_at 200 201) [buy_at 100] [buy_at 100] 0
  = Ran (Raised (KeyError "price")) 0 [].
Proof. vm_compute. repeat split; reflexivity. Qed.

End EdgeExamples.
